(** * Ralph loop: task ledger, task runner and loop orchestrator

    A shallow embedding of [src/fileUtils.ts] (the task ledger), of the two
    classes of [src/taskRunner.ts] ([TaskRunner], [LoopOrchestrator]) and of
    the sanitiser and the workflow steps of [src/promptBuilder.ts],
    followed by the properties the specification states about them and by
    further properties of the code.

    JavaScript strings are sequences of UTF-16 code units; numbers that the
    program only uses as integers (line numbers, counters, millisecond
    timestamps) are [N] or [Z]. *)

From Stdlib Require Import List NArith ZArith Bool Ascii String Lia.
From Stdlib Require Import DecimalString DecimalPos DecimalN.
Import ListNotations.

Local Open Scope N_scope.

(** ** JavaScript strings *)

Module Js.

Abbreviation code := N (only parsing).
Abbreviation jsstring := (list N) (only parsing).

(** An ASCII literal of the source, as code units. *)
Definition lit (s : string) : jsstring :=
  map N_of_ascii (list_ascii_of_string s).

Fixpoint eqb (a b : jsstring) : bool :=
  match a, b with
  | [], [] => true
  | x :: a', y :: b' => (x =? y) && eqb a' b'
  | _, _ => false
  end.

(** ECMAScript LineTerminator: LF, CR, LS, PS. *)
Definition isLineTerminator (c : code) : bool :=
  (c =? 10) || (c =? 13) || (c =? 8232) || (c =? 8233).

(** ECMAScript WhiteSpace and LineTerminator together: the set of [\s] and
    the set that [String.prototype.trim] strips.  TAB, VT, FF, SP, NBSP,
    ZWNBSP and the space separators U+1680, U+2000-U+200A, U+202F, U+205F,
    U+3000. *)
Definition isWhiteSpace (c : code) : bool :=
  (c =? 9) || (c =? 11) || (c =? 12) || (c =? 32) || (c =? 160)
  || (c =? 5760) || ((8192 <=? c) && (c <=? 8202))
  || (c =? 8239) || (c =? 8287) || (c =? 12288) || (c =? 65279)
  || isLineTerminator c.

Fixpoint dropWhile (p : code -> bool) (s : jsstring) : jsstring :=
  match s with
  | [] => []
  | c :: s' => if p c then dropWhile p s' else s
  end.

(** [String.prototype.trim]. *)
Definition trim (s : jsstring) : jsstring :=
  rev (dropWhile isWhiteSpace (rev (dropWhile isWhiteSpace s))).

(** [String.prototype.toLowerCase] on the Basic Latin block, the only block
    the ledger parser applies it to (its argument is one character of the
    class [[ x~!]] matched case-insensitively). *)
Definition toLowerCase (s : jsstring) : jsstring :=
  map (fun c => if (65 <=? c) && (c <=? 90) then c + 32 else c) s.

(** [String.prototype.split] with a one-character separator. *)
Fixpoint split (sep : code) (s : jsstring) : list jsstring :=
  match s with
  | [] => [[]]
  | c :: s' =>
      if c =? sep then [] :: split sep s'
      else match split sep s' with
           | l :: ls => (c :: l) :: ls
           | [] => [[c]]
           end
  end.

(** Decimal rendering of an integer inside a template literal. *)
Definition ofN (n : N) : jsstring := lit (NilZero.string_of_uint (N.to_uint n)).
Definition ofZ (z : Z) : jsstring := lit (NilZero.string_of_int (Z.to_int z)).

End Js.

Import Js.

(** ** Regular expressions

    The fragment of ECMAScript regular expressions that the ledger grammar
    uses: the assertions [^] and [$] under the [m] flag, a character class,
    greedy [*] and [+] over a character class, and capturing groups around
    one such atom.  Matching is the backtracking search of the language
    definition: a greedy quantifier first takes as many characters as it
    can and gives them back one at a time while the rest of the pattern
    fails. *)

Module Regex.

Inductive atom :=
| Bol                                (* ^ with the m flag *)
| Eol                                (* $ with the m flag *)
| Chr (p : code -> bool)             (* one character of a class *)
| Star (p : code -> bool)            (* class*  *)
| Plus (p : code -> bool).           (* class+  *)

Inductive item :=
| Plain (a : atom)
| Capture (a : atom).

Definition regex := list item.

Definition atomOf (i : item) : atom :=
  match i with Plain a | Capture a => a end.

Definition record (i : item) (text : jsstring) (caps : list jsstring) :=
  match i with Plain _ => caps | Capture _ => text :: caps end.

(** The continuation of a match: the text taken by the current atom, the
    character before the current position and the rest of the input. *)
Definition cont := jsstring -> option code -> jsstring -> option (list jsstring).

Fixpoint greedy (p : code -> bool) (k : cont)
    (taken : jsstring) (prev : option code) (s : jsstring)
  : option (list jsstring) :=
  match s with
  | c :: s' =>
      if p c then
        match greedy p k (taken ++ [c]) (Some c) s' with
        | Some r => Some r
        | None => k taken prev s
        end
      else k taken prev s
  | [] => k taken prev s
  end.

Definition atBol (prev : option code) : bool :=
  match prev with None => true | Some c => isLineTerminator c end.

Definition atEol (s : jsstring) : bool :=
  match s with [] => true | c :: _ => isLineTerminator c end.

(** Match the pattern at the current position; the result lists the texts
    of the capturing groups in order. *)
Fixpoint run (r : regex) (prev : option code) (s : jsstring)
  : option (list jsstring) :=
  match r with
  | [] => Some []
  | i :: r' =>
      let k : cont := fun text prev' s' =>
        option_map (record i text) (run r' prev' s') in
      match atomOf i with
      | Bol => if atBol prev then k [] prev s else None
      | Eol => if atEol s then k [] prev s else None
      | Chr p =>
          match s with
          | c :: s' => if p c then k [c] (Some c) s' else None
          | [] => None
          end
      | Star p => greedy p k [] prev s
      | Plus p =>
          match s with
          | c :: s' => if p c then greedy p k [c] (Some c) s' else None
          | [] => None
          end
      end
  end.

(** [RegExp.prototype.exec] without the [g] and [y] flags: the first
    position, from the left, at which the pattern matches. *)
Fixpoint execFrom (r : regex) (prev : option code) (s : jsstring)
  : option (list jsstring) :=
  match run r prev s with
  | Some caps => Some caps
  | None =>
      match s with
      | c :: s' => execFrom r (Some c) s'
      | [] => None
      end
  end.

Definition exec (r : regex) (s : jsstring) : option (list jsstring) :=
  execFrom r None s.

Definition oneOf (cs : jsstring) (c : code) : bool :=
  existsb (N.eqb c) cs.

(** [.] without the [s] flag. *)
Definition dot (c : code) : bool := negb (isLineTerminator c).

End Regex.

(** ** The task ledger ([src/fileUtils.ts]) *)

Inductive TaskStatus := PENDING | IN_PROGRESS | COMPLETE | BLOCKED.

Definition TaskStatus_eqb (a b : TaskStatus) : bool :=
  match a, b with
  | PENDING, PENDING | IN_PROGRESS, IN_PROGRESS
  | COMPLETE, COMPLETE | BLOCKED, BLOCKED => true
  | _, _ => false
  end.

Record Task := mkTask {
  id : jsstring;
  description : jsstring;
  status : TaskStatus;
  lineNumber : N;
  rawLine : jsstring
}.

(** The class [[-*]]. *)
Definition bulletClass : code -> bool := Regex.oneOf (lit "-*").

(** The class [[ x~!]] under the [i] flag.  Without the [u] flag a
    character belongs to the class when its canonical (upper-case) form is
    that of a member, and a character outside Basic Latin never
    canonicalises into it: the members are SP, x, X, ~ and !. *)
Definition markerClass : code -> bool := Regex.oneOf (lit " xX~!").

(** [/^[-*]\s*\[([ x~!])\]\s*(.+)$/im], written in three parts: the bullet
    and the bracketed marker [^[-*]\s*\[([ x~!])\]], the blank run [\s*],
    and the text up to the end of the line [(.+)$]. *)
Definition markerPattern : Regex.regex :=
  [ Regex.Plain Regex.Bol
  ; Regex.Plain (Regex.Chr bulletClass)
  ; Regex.Plain (Regex.Star isWhiteSpace)
  ; Regex.Plain (Regex.Chr (Regex.oneOf (lit "[")))
  ; Regex.Capture (Regex.Chr markerClass)
  ; Regex.Plain (Regex.Chr (Regex.oneOf (lit "]"))) ].

Definition textPattern : Regex.regex :=
  [ Regex.Capture (Regex.Plus Regex.dot)
  ; Regex.Plain Regex.Eol ].

Definition taskPattern : Regex.regex :=
  markerPattern ++ Regex.Plain (Regex.Star isWhiteSpace) :: textPattern.

(** The [switch (marker)] of [parseTasksFromContent]. *)
Definition statusOfMarker (marker : jsstring) : TaskStatus :=
  if Js.eqb marker (lit "x") then COMPLETE
  else if Js.eqb marker (lit "~") then IN_PROGRESS
  else if Js.eqb marker (lit "!") then BLOCKED
  else PENDING.

(** One turn of the loop of [parseTasksFromContent], at index [i]. *)
Definition parseLine (i : N) (line : jsstring) : option Task :=
  match Regex.exec taskPattern line with
  | Some m =>
      (* m lists the groups: match[1] is its first element *)
      let marker := toLowerCase (nth 0 m []) in
      let description := trim (nth 1 m []) in
      Some {| id := lit "task-" ++ ofN (i + 1);
              description := description;
              status := statusOfMarker marker;
              lineNumber := i + 1;
              rawLine := line |}
  | None => None
  end.

Fixpoint parseLines (i : N) (lines : list jsstring) : list Task :=
  match lines with
  | [] => []
  | line :: rest =>
      match parseLine i line with
      | Some t => t :: parseLines (i + 1) rest
      | None => parseLines (i + 1) rest
      end
  end.

Definition parseTasksFromContent (content : jsstring) : list Task :=
  parseLines 0 (split 10 content).


(** ** Types of the loop ([src/types.ts], as the two classes use them) *)

Record TaskCompletion := mkCompletion {
  taskDescription : jsstring;
  completedAt : Z;
  duration : Z;
  iteration : Z
}.

Record TaskRequirements := mkRequirements {
  writeTests : bool;
  runTests : bool;
  runTypeCheck : bool;
  runLinting : bool;
  updateDocs : bool;
  commitChanges : bool
}.

Record RalphSettings := mkSettings { maxIterations : Z }.

Inductive LoopExecutionState := IDLE | RUNNING.

Inductive CopilotResult := Agent | Chat | Clipboard.

Record Stats := mkStats { total : nat; completed : nat; pending : nat }.

(** What the program takes from outside [src/]: the constants of
    [types.ts], [formatDuration] of [timerManager.ts], the rendering of a
    date by [Date.prototype.toISOString], and the text that
    [buildAgentPromptAsync] assembles from the task, the requirements, the
    ledger, the progress log and the workspace root. *)
Record Externals := mkExternals {
  REVIEW_COUNTDOWN_SECONDS : N;
  DEFAULT_REQUIREMENTS : TaskRequirements;
  DEFAULT_SETTINGS : RalphSettings;
  formatDuration : Z -> jsstring;
  toISOString : Z -> jsstring;
  agentPromptText :
    jsstring -> TaskRequirements -> jsstring -> jsstring -> option jsstring -> jsstring
}.

(** ** The host: workspace, files, clock, Copilot *)

Inductive File := Absent | Faulty | Contents (text : jsstring).

Record Config := mkConfig { prdPath : jsstring; progressPath : jsstring }.

Inductive Delivery := Delivered (via : CopilotResult) | Rejected (message : jsstring).

(** [clock] lists the values that successive readings of the system clock
    return; [clockReads] counts the readings made so far.  [prdFile] and
    [progressFile] are the files at the two configured paths: [Absent] is
    ENOENT, [Faulty] any other I/O error. *)
Record Host := mkHost {
  workspaceFolders : option (list jsstring);
  config : Config;
  prdFile : File;
  progressFile : File;
  clock : nat -> Z;
  clockReads : nat;
  freshSession : bool;
  delivery : Delivery;
  prompts : list jsstring;
  errorLog : list jsstring;
  notices : list jsstring
}.

(** ** The objects of the loop *)

Inductive LogCallback := UiAddLog.

Record TaskRunner := mkRunner {
  requirements : TaskRequirements;
  settings : RalphSettings;
  taskHistory : list TaskCompletion;
  taskStartTime : Z;
  currentTaskDescription : jsstring;
  iterationCount : Z;
  logCallback : option LogCallback
}.

Inductive UiStatus := idle | running | paused | waiting.

(** Modelled from the spec: the operator surface behind [UIManager]
    ([uiManager.ts] is absent).  It receives log lines, status updates
    (status, iteration count, current task), the countdown's remaining
    seconds, session timing, the completion history and the ledger
    statistics; each field holds what was shown last. *)
Record UIManager := mkUi {
  logs : list (jsstring * bool);
  shownHistory : list TaskCompletion;
  shownStats : option Stats;
  shownStatus : option (UiStatus * Z * jsstring);
  shownCountdown : option N;
  shownTiming : option (Z * list TaskCompletion * nat);
  shownIteration : option Z;
  shownTask : option jsstring
}.

(** Modelled from the spec: the ledger watcher of [fileWatchers.ts]
    (absent).  [subscribed] holds from [start] to [dispose]; [enable] and
    [disable] suppress callbacks without tearing down the subscription;
    [updateContent] checkpoints the last-seen content. *)
Record PrdWatcher := mkPrdWatcher {
  subscribed : bool;
  enabled : bool;
  lastContent : jsstring
}.

(** Modelled from the spec: the three watch streams of [fileWatchers.ts]
    (absent), each construct, [start], fire, [dispose]. *)
Record FileWatcherManager := mkWatchers {
  prdWatcher : PrdWatcher;
  activityWatcher : bool;
  prdCreationWatcher : bool
}.

(** Modelled from the spec: the countdown of [timerManager.ts] (absent), a
    single-shot restartable delay; [Some n] is a run with [n] seconds left. *)
Record CountdownTimer := mkCountdown { remaining : option N }.

(** Modelled from the spec: the inactivity watchdog of [timerManager.ts]
    (absent).  [start] arms a 60-second timer, [recordActivity] resets an
    armed timer, [setWaiting] marks the loop as blocked on the agent,
    [pause] and [resume] stop and restart the timer and keep [isWaiting],
    [stop] disarms fully. *)
Record InactivityMonitor := mkMonitor {
  started : bool;
  isWaiting : bool;
  timeoutIn : option N
}.

Record World := mkWorld {
  state : LoopExecutionState;
  isPaused : bool;
  sessionStartTime : Z;
  ui : UIManager;
  taskRunner : TaskRunner;
  fileWatchers : FileWatcherManager;
  countdownTimer : CountdownTimer;
  inactivityMonitor : InactivityMonitor;
  host : Host
}.

(** *** Field updates *)

Definition setState (s : LoopExecutionState) (w : World) : World :=
  mkWorld s (isPaused w) (sessionStartTime w) (ui w) (taskRunner w)
    (fileWatchers w) (countdownTimer w) (inactivityMonitor w) (host w).
Definition setIsPaused (b : bool) (w : World) : World :=
  mkWorld (state w) b (sessionStartTime w) (ui w) (taskRunner w)
    (fileWatchers w) (countdownTimer w) (inactivityMonitor w) (host w).
Definition setSessionStartTime (t : Z) (w : World) : World :=
  mkWorld (state w) (isPaused w) t (ui w) (taskRunner w)
    (fileWatchers w) (countdownTimer w) (inactivityMonitor w) (host w).
Definition onUi (f : UIManager -> UIManager) (w : World) : World :=
  mkWorld (state w) (isPaused w) (sessionStartTime w) (f (ui w)) (taskRunner w)
    (fileWatchers w) (countdownTimer w) (inactivityMonitor w) (host w).
Definition onRunner (f : TaskRunner -> TaskRunner) (w : World) : World :=
  mkWorld (state w) (isPaused w) (sessionStartTime w) (ui w) (f (taskRunner w))
    (fileWatchers w) (countdownTimer w) (inactivityMonitor w) (host w).
Definition onWatchers (f : FileWatcherManager -> FileWatcherManager) (w : World) : World :=
  mkWorld (state w) (isPaused w) (sessionStartTime w) (ui w) (taskRunner w)
    (f (fileWatchers w)) (countdownTimer w) (inactivityMonitor w) (host w).
Definition onCountdown (f : CountdownTimer -> CountdownTimer) (w : World) : World :=
  mkWorld (state w) (isPaused w) (sessionStartTime w) (ui w) (taskRunner w)
    (fileWatchers w) (f (countdownTimer w)) (inactivityMonitor w) (host w).
Definition onMonitor (f : InactivityMonitor -> InactivityMonitor) (w : World) : World :=
  mkWorld (state w) (isPaused w) (sessionStartTime w) (ui w) (taskRunner w)
    (fileWatchers w) (countdownTimer w) (f (inactivityMonitor w)) (host w).
Definition onHost (f : Host -> Host) (w : World) : World :=
  mkWorld (state w) (isPaused w) (sessionStartTime w) (ui w) (taskRunner w)
    (fileWatchers w) (countdownTimer w) (inactivityMonitor w) (f (host w)).

Definition onPrdWatcher (f : PrdWatcher -> PrdWatcher) : World -> World :=
  onWatchers (fun m =>
    mkWatchers (f (prdWatcher m)) (activityWatcher m) (prdCreationWatcher m)).

(** ** Sequencing

    A method is a function from the world before the call to its result and
    the world after it.  An [async] method is run to its end in one piece,
    except where it waits for the countdown: what follows that wait is a
    method of its own ([countdownElapsed]). *)

Definition M (A : Type) : Type := World -> A * World.

Definition ret {A} (a : A) : M A := fun w => (a, w).

Definition bind {A B} (m : M A) (k : A -> M B) : M B :=
  fun w => let (a, w') := m w in k a w'.

Definition gets {A} (f : World -> A) : M A := fun w => (f w, w).

Definition modify (f : World -> World) : M unit := fun w => (tt, f w).

Definition when (b : bool) (m : M unit) : M unit := if b then m else ret tt.

Declare Scope loop_scope.
Delimit Scope loop_scope with loop.
Notation "x <- m ;; k" := (bind m (fun x => k))
  (at level 61, m at next level, right associativity) : loop_scope.
Notation "m ;; k" := (bind m (fun _ => k))
  (at level 61, right associativity) : loop_scope.
Local Open Scope loop_scope.

(** The world after a call, and the result of a call. *)
Definition after {A} (m : M A) (w : World) : World := snd (m w).
Definition result {A} (m : M A) (w : World) : A := fst (m w).

Section Files.

Variable X : Externals.

(** ** Host services *)

(** [Date.now()], and the time of a [new Date()]. *)
Definition Date_now : M Z :=
  fun w =>
    (clock (host w) (clockReads (host w)),
     onHost (fun h =>
       mkHost (workspaceFolders h) (config h) (prdFile h) (progressFile h)
         (clock h) (S (clockReads h)) (freshSession h) (delivery h)
         (prompts h) (errorLog h) (notices h)) w).

(** [logError] of [logger.ts]: the message goes to the error log. *)
Definition logError (message : jsstring) : M unit :=
  modify (onHost (fun h =>
    mkHost (workspaceFolders h) (config h) (prdFile h) (progressFile h)
      (clock h) (clockReads h) (freshSession h) (delivery h)
      (prompts h) (errorLog h ++ [message]) (notices h))).

(** [vscode.window.showInformationMessage]. *)
Definition showInformationMessage (message : jsstring) : M unit :=
  modify (onHost (fun h =>
    mkHost (workspaceFolders h) (config h) (prdFile h) (progressFile h)
      (clock h) (clockReads h) (freshSession h) (delivery h)
      (prompts h) (errorLog h) (notices h ++ [message]))).

Definition writeProgressFile (f : File) : M unit :=
  modify (onHost (fun h =>
    mkHost (workspaceFolders h) (config h) (prdFile h) f
      (clock h) (clockReads h) (freshSession h) (delivery h)
      (prompts h) (errorLog h) (notices h))).

Definition recordPrompt (prompt : jsstring) : M unit :=
  modify (onHost (fun h =>
    mkHost (workspaceFolders h) (config h) (prdFile h) (progressFile h)
      (clock h) (clockReads h) (freshSession h) (delivery h)
      (prompts h ++ [prompt]) (errorLog h) (notices h))).

Definition getConfig : M Config := gets (fun w => config (host w)).

(** A string or [null] in a condition: [null] and the empty string are
    falsy. *)
Definition truthy (s : option jsstring) : bool :=
  match s with Some (_ :: _) => true | _ => false end.

(** [s || ''] *)
Definition orEmpty (s : option jsstring) : jsstring :=
  match s with Some t => t | None => [] end.

(** ** [src/fileUtils.ts] *)

Definition workspaceRootOf (h : Host) : option jsstring :=
  match workspaceFolders h with
  | Some (folder :: _) => Some folder
  | _ => None
  end.

Definition getWorkspaceRoot : M (option jsstring) :=
  gets (fun w => workspaceRootOf (host w)).

Definition readPRDAsync : M (option jsstring) :=
  root <- getWorkspaceRoot ;;
  if negb (truthy root) then ret None
  else
    f <- gets (fun w => prdFile (host w)) ;;
    match f with
    | Contents text => ret (Some text)
    | Absent => ret None
    | Faulty => logError (lit "Failed to read PRD.md") ;; ret None
    end.

Definition readProgressAsync : M jsstring :=
  root <- getWorkspaceRoot ;;
  if negb (truthy root) then ret []
  else
    f <- gets (fun w => progressFile (host w)) ;;
    match f with
    | Contents text => ret text
    | Absent => ret []
    | Faulty => logError (lit "Failed to read progress.txt") ;; ret []
    end.

Definition appendProgressAsync (entry : jsstring) : M bool :=
  root <- getWorkspaceRoot ;;
  if negb (truthy root) then ret false
  else
    now <- Date_now ;;
    let timestamp := toISOString X now in
    let formattedEntry := lit "[" ++ timestamp ++ lit "] " ++ entry ++ [10] in
    f <- gets (fun w => progressFile (host w)) ;;
    match f with
    | Contents text => writeProgressFile (Contents (text ++ formattedEntry)) ;; ret true
    | Absent => writeProgressFile (Contents formattedEntry) ;; ret true
    | Faulty => logError (lit "Failed to append to progress.txt") ;; ret false
    end.

Definition ensureProgressFileAsync : M bool :=
  root <- getWorkspaceRoot ;;
  if negb (truthy root) then ret false
  else
    f <- gets (fun w => progressFile (host w)) ;;
    match f with
    | Contents _ => ret true
    | Absent =>
        writeProgressFile (Contents (lit "# Progress Log" ++ [10; 10])) ;; ret true
    | Faulty => logError (lit "Failed to create progress.txt") ;; ret false
    end.

Definition parseTasksAsync : M (list Task) :=
  content <- readPRDAsync ;;
  if negb (truthy content) then ret []
  else ret (parseTasksFromContent (orEmpty content)).

(** [t.status === TaskStatus.PENDING || t.status === TaskStatus.IN_PROGRESS] *)
Definition isOpen (t : Task) : bool :=
  TaskStatus_eqb (status t) PENDING || TaskStatus_eqb (status t) IN_PROGRESS.

Definition isComplete (t : Task) : bool := TaskStatus_eqb (status t) COMPLETE.


Definition getNextTaskAsync : M (option Task) :=
  tasks <- parseTasksAsync ;;
  ret (find isOpen tasks).

Definition statsOf (tasks : list Task) : Stats :=
  {| total := List.length tasks;
     completed := List.length (filter isComplete tasks);
     pending := List.length (filter isOpen tasks) |}.

Definition getTaskStatsAsync : M Stats :=
  tasks <- parseTasksAsync ;;
  ret (statsOf tasks).

(** The ledger as [parseTasksAsync] finds it, given the workspace folders
    and the file at the configured path. *)
Definition contentOf (folders : option (list jsstring)) (prd : File)
  : option jsstring :=
  match folders with
  | Some ((_ :: _) :: _) =>
      match prd with
      | Contents text => Some text
      | _ => None
      end
  | _ => None
  end.

Definition tasksOf (folders : option (list jsstring)) (prd : File) : list Task :=
  match contentOf folders prd with
  | Some (c :: text) => parseTasksFromContent (c :: text)
  | _ => []
  end.

Definition ledgerContent (h : Host) : option jsstring :=
  contentOf (workspaceFolders h) (prdFile h).

Definition ledgerTasks (h : Host) : list Task :=
  tasksOf (workspaceFolders h) (prdFile h).

(** [buildAgentPromptAsync] of [promptBuilder.ts]: it reads the ledger, the
    progress log and the workspace root; its text is kept abstract. *)
Definition buildAgentPromptAsync (taskDescription : jsstring)
    (reqs : TaskRequirements) : M jsstring :=
  prd <- readPRDAsync ;;
  progress <- readProgressAsync ;;
  root <- getWorkspaceRoot ;;
  ret (agentPromptText X taskDescription reqs (orEmpty prd) progress root).

End Files.

(** ** [src/promptBuilder.ts] *)

Definition MAX_TASK_DESCRIPTION_LENGTH : nat := 5000.

(** The class [[\x00-\x08\x0B\x0C\x0E-\x1F\x7F]]. *)
Definition isControl (c : code) : bool :=
  (c <=? 8) || (c =? 11) || (c =? 12) || ((14 <=? c) && (c <=? 31)) || (c =? 127).

(** [replace(/\n{3,}/g, '\n\n')]: [run] counts the newlines read since the
    last other character; a run of three or more is written as two. *)
Fixpoint collapseNewlines (run : nat) (s : jsstring) : jsstring :=
  match s with
  | [] => repeat 10 (Nat.min run 2)
  | c :: s' =>
      if c =? 10 then collapseNewlines (S run) s'
      else repeat 10 (Nat.min run 2) ++ c :: collapseNewlines 0 s'
  end.

(** [replace(/^```/gm, '\\`\\`\\`')]: three backquotes at the start of a
    line become three escaped backquotes; the search goes on after them. *)
Fixpoint escapeFences (prev : option code) (s : jsstring) : jsstring :=
  match s with
  | [] => []
  | c :: s' =>
      match s' with
      | c2 :: c3 :: rest =>
          if Regex.atBol prev && (c =? 96) && (c2 =? 96) && (c3 =? 96)
          then lit "\`\`\`" ++ escapeFences (Some c3) rest
          else c :: escapeFences (Some c) s'
      | _ => c :: escapeFences (Some c) s'
      end
  end.

Definition sanitizeTaskDescription (input : jsstring) : jsstring :=
  match input with
  | [] => []
  | _ =>
      let sanitized := firstn MAX_TASK_DESCRIPTION_LENGTH (trim input) in
      let sanitized := filter (fun c => negb (isControl c)) sanitized in
      let sanitized := collapseNewlines 0 sanitized in
      escapeFences None sanitized
  end.

(** [reqSteps.push(`${stepNum}. (U+2705) text`); stepNum++] *)
Definition pushStep (text : jsstring) (steps : list jsstring * N)
  : list jsstring * N :=
  let (reqSteps, stepNum) := steps in
  (reqSteps ++ [ofN stepNum ++ lit ". " ++ [9989] ++ lit " " ++ text], stepNum + 1).

(** [buildRequirementsSteps], given the configuration that its
    [getConfig()] returns. *)
Definition buildRequirementsSteps (cfg : Config) (taskDescription : jsstring)
    (requirements : TaskRequirements) : list jsstring :=
  let steps := ([lit "1. " ++ [9989] ++ lit " Implement the task"], 2) in
  let steps :=
    if writeTests requirements
    then pushStep (lit "Write unit tests for your implementation") steps
    else steps in
  let steps :=
    if runTests requirements
    then pushStep (lit "Run tests and ensure they pass") steps
    else steps in
  let steps :=
    if runTypeCheck requirements
    then pushStep (lit "Run type checking (tsc --noEmit or equivalent)") steps
    else steps in
  let steps :=
    if runLinting requirements
    then pushStep (lit "Run linting and fix any issues") steps
    else steps in
  let steps :=
    if updateDocs requirements
    then pushStep (lit "Update documentation if needed") steps
    else steps in
  let steps :=
    if commitChanges requirements
    then pushStep (lit "Commit your changes with a descriptive message") steps
    else steps in
  let steps :=
    pushStep (lit "UPDATE " ++ prdPath cfg ++ lit ": Change " ++ [34]
                ++ lit "- [ ] " ++ taskDescription ++ [34] ++ lit " to " ++ [34]
                ++ lit "- [x] " ++ taskDescription ++ [34]) steps in
  let steps :=
    pushStep (lit "APPEND to " ++ progressPath cfg
                ++ lit ": Record what you completed") steps in
  fst steps.

(** ** The operator surface

    [uiManager.ts] is absent; [Ui] holds the methods of [UIManager] that the
    loop calls. *)

Module Ui.

(** Modelled from the spec: [UIManager.addLog], a log line for the operator. *)
Definition addLog (message : jsstring) (highlight : bool) : M unit :=
  modify (onUi (fun u =>
    mkUi (logs u ++ [(message, highlight)]) (shownHistory u) (shownStats u)
      (shownStatus u) (shownCountdown u) (shownTiming u) (shownIteration u)
      (shownTask u))).

(** Modelled from the spec: [UIManager.clearLogs]. *)
Definition clearLogs : M unit :=
  modify (onUi (fun u =>
    mkUi [] (shownHistory u) (shownStats u)
      (shownStatus u) (shownCountdown u) (shownTiming u) (shownIteration u)
      (shownTask u))).

(** Modelled from the spec: [UIManager.updateHistory], the completion
    history shown. *)
Definition updateHistory (h : list TaskCompletion) : M unit :=
  modify (onUi (fun u =>
    mkUi (logs u) h (shownStats u)
      (shownStatus u) (shownCountdown u) (shownTiming u) (shownIteration u)
      (shownTask u))).

(** Modelled from the spec: [UIManager.updateStats] shows the statistics of
    the ledger as it reads now. *)
Definition updateStats : M unit :=
  fun w =>
    modify (onUi (fun u =>
      mkUi (logs u) (shownHistory u) (Some (statsOf (ledgerTasks (host w))))
        (shownStatus u) (shownCountdown u) (shownTiming u) (shownIteration u)
        (shownTask u))) w.

(** Modelled from the spec: [UIManager.updateStatus], a status update with
    the iteration count and the current task. *)
Definition updateStatus (s : UiStatus) (iter : Z) (task : jsstring) : M unit :=
  modify (onUi (fun u =>
    mkUi (logs u) (shownHistory u) (shownStats u)
      (Some (s, iter, task)) (shownCountdown u) (shownTiming u)
      (shownIteration u) (shownTask u))).

(** Modelled from the spec: [UIManager.updateCountdown], the countdown's
    remaining seconds. *)
Definition updateCountdown (seconds : N) : M unit :=
  modify (onUi (fun u =>
    mkUi (logs u) (shownHistory u) (shownStats u)
      (shownStatus u) (Some seconds) (shownTiming u) (shownIteration u)
      (shownTask u))).

(** Modelled from the spec: [UIManager.updateSessionTiming], the session
    timing shown. *)
Definition updateSessionTiming (start : Z) (h : list TaskCompletion)
    (pendingTasks : nat) : M unit :=
  modify (onUi (fun u =>
    mkUi (logs u) (shownHistory u) (shownStats u)
      (shownStatus u) (shownCountdown u) (Some (start, h, pendingTasks))
      (shownIteration u) (shownTask u))).

(** Modelled from the spec: [UIManager.setIteration]. *)
Definition setIteration (iter : Z) : M unit :=
  modify (onUi (fun u =>
    mkUi (logs u) (shownHistory u) (shownStats u)
      (shownStatus u) (shownCountdown u) (shownTiming u) (Some iter)
      (shownTask u))).

(** Modelled from the spec: [UIManager.setTaskInfo]. *)
Definition setTaskInfo (task : jsstring) : M unit :=
  modify (onUi (fun u =>
    mkUi (logs u) (shownHistory u) (shownStats u)
      (shownStatus u) (shownCountdown u) (shownTiming u) (shownIteration u)
      (Some task))).

End Ui.

(** ** Watchers and timers

    [fileWatchers.ts] and [timerManager.ts] are absent; [Watchers],
    [Countdown] and [Monitor] hold the methods that the loop calls. *)

Module Watchers.

(** Modelled from the spec: [prdWatcher.start], which subscribes the
    watcher, enabled, with the content it starts from. *)
Definition prdStart (initialContent : jsstring) : M unit :=
  modify (onPrdWatcher (fun _ => mkPrdWatcher true true initialContent)).

(** Modelled from the spec: [prdWatcher.enable]. *)
Definition prdEnable : M unit :=
  modify (onPrdWatcher (fun p => mkPrdWatcher (subscribed p) true (lastContent p))).

(** Modelled from the spec: [prdWatcher.disable], which suppresses the
    callbacks and keeps the subscription. *)
Definition prdDisable : M unit :=
  modify (onPrdWatcher (fun p => mkPrdWatcher (subscribed p) false (lastContent p))).

(** Modelled from the spec: [prdWatcher.updateContent], the checkpoint of
    the last-seen content. *)
Definition prdUpdateContent (content : jsstring) : M unit :=
  modify (onPrdWatcher (fun p => mkPrdWatcher (subscribed p) (enabled p) content)).

(** Modelled from the spec: [activityWatcher.start]. *)
Definition activityStart : M unit :=
  modify (onWatchers (fun m =>
    mkWatchers (prdWatcher m) true (prdCreationWatcher m))).

(** Modelled from the spec: [FileWatcherManager.dispose] tears down every
    stream. *)
Definition dispose : M unit :=
  modify (onWatchers (fun m =>
    mkWatchers
      (mkPrdWatcher false (enabled (prdWatcher m)) (lastContent (prdWatcher m)))
      false false)).

End Watchers.

Module Countdown.

(** Modelled from the spec: [CountdownTimer.start]; a run in progress is
    replaced. *)
Definition start (seconds : N) : M unit :=
  modify (onCountdown (fun _ => mkCountdown (Some seconds))).

(** Modelled from the spec: [CountdownTimer.stop]. *)
Definition stop : M unit :=
  modify (onCountdown (fun _ => mkCountdown None)).

End Countdown.

Module Monitor.

(** Modelled from the spec: the fixed window of the watchdog. *)
Definition INACTIVITY_SECONDS : N := 60.

(** Modelled from the spec: [InactivityMonitor.start] arms the timer. *)
Definition start : M unit :=
  modify (onMonitor (fun m => mkMonitor true (isWaiting m) (Some INACTIVITY_SECONDS))).

(** Modelled from the spec: [InactivityMonitor.recordActivity] resets an
    armed timer and changes nothing else. *)
Definition recordActivity : M unit :=
  modify (onMonitor (fun m =>
    mkMonitor (started m) (isWaiting m)
      (match timeoutIn m with
       | Some _ => Some INACTIVITY_SECONDS
       | None => None
       end))).

(** Modelled from the spec: [InactivityMonitor.setWaiting]. *)
Definition setWaiting (b : bool) : M unit :=
  modify (onMonitor (fun m => mkMonitor (started m) b (timeoutIn m))).

(** Modelled from the spec: [InactivityMonitor.pause] stops the timer. *)
Definition pause : M unit :=
  modify (onMonitor (fun m => mkMonitor (started m) (isWaiting m) None)).

(** Modelled from the spec: [InactivityMonitor.resume] restarts the timer
    of a started monitor. *)
Definition resume : M unit :=
  modify (onMonitor (fun m =>
    mkMonitor (started m) (isWaiting m)
      (if started m then Some INACTIVITY_SECONDS else None))).

(** Modelled from the spec: [InactivityMonitor.stop] disarms fully. *)
Definition stop : M unit :=
  modify (onMonitor (fun _ => mkMonitor false false None)).

End Monitor.

Section Loop.

Variable X : Externals.

Local Open Scope Z_scope.

(** ** [TaskRunner] ([src/taskRunner.ts]) *)

Definition newTaskRunner : TaskRunner :=
  {| requirements := DEFAULT_REQUIREMENTS X;
     settings := DEFAULT_SETTINGS X;
     taskHistory := [];
     taskStartTime := 0;
     currentTaskDescription := [];
     iterationCount := 0;
     logCallback := None |}.

Definition setLogCallback (callback : LogCallback) : M unit :=
  modify (onRunner (fun r =>
    mkRunner (requirements r) (settings r) (taskHistory r) (taskStartTime r)
      (currentTaskDescription r) (iterationCount r) (Some callback))).

(** [this.logCallback?.(message, highlight)] *)
Definition log (message : jsstring) (highlight : bool) : M unit :=
  callback <- gets (fun w => logCallback (taskRunner w)) ;;
  match callback with
  | Some UiAddLog => Ui.addLog message highlight
  | None => ret tt
  end.

Definition setRequirements (reqs : TaskRequirements) : M unit :=
  modify (onRunner (fun r =>
    mkRunner reqs (settings r) (taskHistory r) (taskStartTime r)
      (currentTaskDescription r) (iterationCount r) (logCallback r))) ;;
  log (lit "Updated task requirements") false.

Definition getRequirements : M TaskRequirements :=
  gets (fun w => requirements (taskRunner w)).

Definition setSettings (s : RalphSettings) : M unit :=
  modify (onRunner (fun r =>
    mkRunner (requirements r) s (taskHistory r) (taskStartTime r)
      (currentTaskDescription r) (iterationCount r) (logCallback r))) ;;
  log (lit "Updated settings") false.

Definition getSettings : M RalphSettings :=
  gets (fun w => settings (taskRunner w)).

Definition getTaskHistory : M (list TaskCompletion) :=
  gets (fun w => taskHistory (taskRunner w)).

Definition clearHistory : M unit :=
  modify (onRunner (fun r =>
    mkRunner (requirements r) (settings r) [] (taskStartTime r)
      (currentTaskDescription r) (iterationCount r) (logCallback r))).

Definition getCurrentTask : M jsstring :=
  gets (fun w => currentTaskDescription (taskRunner w)).

Definition setCurrentTask (description : jsstring) : M unit :=
  modify (onRunner (fun r =>
    mkRunner (requirements r) (settings r) (taskHistory r) (taskStartTime r)
      description (iterationCount r) (logCallback r))) ;;
  now <- Date_now ;;
  modify (onRunner (fun r =>
    mkRunner (requirements r) (settings r) (taskHistory r) now
      (currentTaskDescription r) (iterationCount r) (logCallback r))).

Definition getIterationCount : M Z :=
  gets (fun w => iterationCount (taskRunner w)).

(** [return ++this.iterationCount] *)
Definition incrementIteration : M Z :=
  modify (onRunner (fun r =>
    mkRunner (requirements r) (settings r) (taskHistory r) (taskStartTime r)
      (currentTaskDescription r) (iterationCount r + 1) (logCallback r))) ;;
  getIterationCount.

Definition resetIterations : M unit :=
  modify (onRunner (fun r =>
    mkRunner (requirements r) (settings r) (taskHistory r) (taskStartTime r)
      (currentTaskDescription r) 0 (logCallback r))).

Definition recordTaskCompletion : M TaskCompletion :=
  now <- Date_now ;;
  start <- gets (fun w => taskStartTime (taskRunner w)) ;;
  let duration := now - start in
  description <- gets (fun w => currentTaskDescription (taskRunner w)) ;;
  at_ <- Date_now ;;
  iter <- gets (fun w => iterationCount (taskRunner w)) ;;
  let completion :=
    {| taskDescription := description;
       completedAt := at_;
       duration := duration;
       iteration := iter |} in
  modify (onRunner (fun r =>
    mkRunner (requirements r) (settings r) (taskHistory r ++ [completion])
      (taskStartTime r) (currentTaskDescription r) (iterationCount r)
      (logCallback r))) ;;
  log ([9989%N] ++ lit " Task completed in " ++ formatDuration X duration ++ lit "!")
    true ;;
  ret completion.

Definition checkIterationLimit : M bool :=
  s <- gets (fun w => settings (taskRunner w)) ;;
  count <- gets (fun w => iterationCount (taskRunner w)) ;;
  if (0 <? maxIterations s) && (maxIterations s <=? count) then
    log ([55357%N; 57041%N] ++ lit " Reached maximum iterations ("
           ++ ofZ (maxIterations s) ++ lit "). Stopping.") true ;;
    ret true
  else ret false.

(** [startFreshChatSession] answers [freshSession]; [openCopilotWithPrompt]
    either hands the prompt over through one of the three channels or
    throws, as [delivery] says. *)
Definition triggerCopilotAgent (taskDescription : jsstring)
  : M (option CopilotResult) :=
  reqs <- gets (fun w => requirements (taskRunner w)) ;;
  prompt <- buildAgentPromptAsync X taskDescription reqs ;;
  success <- gets (fun w => freshSession (host w)) ;;
  when success (log (lit "Started fresh chat session") false) ;;
  outcome <- gets (fun w => delivery (host w)) ;;
  match outcome with
  | Delivered method =>
      recordPrompt prompt ;;
      log (match method with
           | Agent => lit "Opened Copilot Agent Mode"
           | Chat => lit "Opened Copilot Chat"
           | Clipboard => lit "Prompt copied to clipboard"
           end) false ;;
      ret (Some method)
  | Rejected errorMessage =>
      log (lit "Failed to trigger Copilot: " ++ errorMessage) false ;;
      logError (lit "Failed to trigger Copilot Agent") ;;
      ret None
  end.

(** ** [LoopOrchestrator] ([src/taskRunner.ts]) *)

Definition isRunning (s : LoopExecutionState) : bool :=
  match s with RUNNING => true | IDLE => false end.

(** The constructor: a fresh runner whose log callback is [ui.addLog]. *)
Definition newLoopOrchestrator (h : Host) : World :=
  after (setLogCallback UiAddLog)
    {| state := IDLE;
       isPaused := false;
       sessionStartTime := 0;
       ui := mkUi [] [] None None None None None None;
       taskRunner := newTaskRunner;
       fileWatchers := mkWatchers (mkPrdWatcher false false []) false false;
       countdownTimer := mkCountdown None;
       inactivityMonitor := mkMonitor false false None;
       host := h |}.

Definition updatePanelTiming : M unit :=
  stats <- getTaskStatsAsync ;;
  start <- gets sessionStartTime ;;
  history <- getTaskHistory ;;
  Ui.updateSessionTiming start history (pending stats).

Definition stopLoop : M unit :=
  Watchers.dispose ;;
  Countdown.stop ;;
  Monitor.stop ;;
  modify (setState IDLE) ;;
  modify (setIsPaused false) ;;
  count <- getIterationCount ;;
  task <- getCurrentTask ;;
  Ui.updateStatus idle count task ;;
  Ui.updateCountdown 0 ;;
  history <- getTaskHistory ;;
  Ui.updateSessionTiming 0 history 0 ;;
  Ui.updateStats.

Definition runNextTask : M unit :=
  s <- gets state ;;
  p <- gets isPaused ;;
  if negb (isRunning s) || p then ret tt
  else
    stats <- getTaskStatsAsync ;;
    if Nat.eqb (pending stats) 0 then
      Ui.addLog ([55356%N; 57225%N] ++ lit " All tasks completed!") true ;;
      stopLoop ;;
      cfg <- getConfig ;;
      showInformationMessage
        (lit "Ralph: All " ++ prdPath cfg ++ lit " tasks completed! "
           ++ [55356%N; 57225%N])
    else
      task <- getNextTaskAsync ;;
      match task with
      | None =>
          Ui.addLog (lit "No more tasks to process") false ;;
          stopLoop
      | Some task =>
          limit <- checkIterationLimit ;;
          if limit then stopLoop
          else
            iter <- incrementIteration ;;
            setCurrentTask (description task) ;;
            Ui.setIteration iter ;;
            Ui.setTaskInfo (description task) ;;
            Ui.updateStatus running iter (description task) ;;
            Ui.addLog (lit "Task " ++ ofZ iter ++ lit ": " ++ description task) false ;;
            triggerCopilotAgent (description task) ;;
            Watchers.prdEnable ;;
            Monitor.setWaiting true ;;
            Ui.updateStatus waiting iter (description task) ;;
            cfg <- getConfig ;;
            Ui.addLog (lit "Waiting for Copilot to complete and update "
                         ++ prdPath cfg ++ lit "...") false
      end.

(** [startCountdown], up to its wait for the timer. *)
Definition startCountdown : M unit :=
  Ui.addLog (lit "Starting next task in " ++ ofN (REVIEW_COUNTDOWN_SECONDS X)
               ++ lit " seconds...") false ;;
  Countdown.start (REVIEW_COUNTDOWN_SECONDS X).

(** The tick callback that [startCountdown] hands to the timer. *)
Definition countdownTick (seconds : N) : M unit := Ui.updateCountdown seconds.

(** [startCountdown], from the moment the timer has run to its end. *)
Definition countdownElapsed : M unit :=
  Countdown.stop ;;
  s <- gets state ;;
  p <- gets isPaused ;;
  if isRunning s && negb p then
    Ui.updateStats ;;
    runNextTask
  else ret tt.

(** [Math.round(ms / 1000)]: the nearest integer, halves upwards. *)
Definition roundSeconds (ms : Z) : Z := (ms + 500) / 1000.

(** No operation of the [try] block throws in this model, so its [catch]
    is not reached. *)
Definition handlePrdChange (newContent : jsstring) : M unit :=
  cfg <- getConfig ;;
  Ui.addLog ([55357%N; 56541%N] ++ lit " " ++ prdPath cfg
               ++ lit " changed - checking task status...") false ;;
  Monitor.recordActivity ;;
  Watchers.prdUpdateContent newContent ;;
  task <- getNextTaskAsync ;;
  currentTask <- getCurrentTask ;;
  if match task with
     | None => true
     | Some t => negb (Js.eqb (description t) currentTask)
     end
  then
    Watchers.prdDisable ;;
    Monitor.stop ;;
    completion <- recordTaskCompletion ;;
    let progressEntry :=
      [9989%N] ++ lit " Completed: " ++ taskDescription completion
        ++ lit " (took " ++ ofZ (roundSeconds (duration completion)) ++ lit "s)" in
    appendProgressAsync X progressEntry ;;
    history <- getTaskHistory ;;
    Ui.updateHistory history ;;
    updatePanelTiming ;;
    startCountdown
  else ret tt.

(** The operator's answer to the inactivity warning. *)
Inductive InactivityAction := ContinueWaiting | RetryTask | SkipTask | StopLoop.

Definition handleInactivity (action : option InactivityAction) : M unit :=
  Ui.addLog ([9888%N; 65039%N]
               ++ lit " No file activity detected for 60 seconds...") false ;;
  match action with
  | Some ContinueWaiting =>
      Ui.addLog (lit "Continuing to wait...") false ;;
      Monitor.start
  | Some RetryTask =>
      Ui.addLog (lit "Retrying current task...") false ;;
      Watchers.prdDisable ;;
      runNextTask
  | Some SkipTask =>
      Ui.addLog (lit "Skipping to next task...") false ;;
      Watchers.prdDisable ;;
      setCurrentTask [] ;;
      startCountdown
  | Some StopLoop => stopLoop
  | None => Monitor.start
  end.

Definition setupWatchers : M unit :=
  initialContent <- readPRDAsync ;;
  Watchers.prdStart (orEmpty initialContent) ;;
  cfg <- getConfig ;;
  Ui.addLog ([55357%N; 56385%N; 65039%N] ++ lit " Watching " ++ prdPath cfg
               ++ lit " for task completion...") false ;;
  Watchers.activityStart ;;
  Monitor.start.

Definition startLoop : M unit :=
  s <- gets state ;;
  if isRunning s then Ui.addLog (lit "Loop is already running") false
  else
    stats <- getTaskStatsAsync ;;
    if Nat.eqb (pending stats) 0 then
      cfg <- getConfig ;;
      Ui.addLog (lit "No pending tasks found. Add tasks to " ++ prdPath cfg
                   ++ lit " first.") false ;;
      showInformationMessage (lit "Ralph: No pending tasks found in " ++ prdPath cfg)
    else
      ensureProgressFileAsync ;;
      clearHistory ;;
      Ui.clearLogs ;;
      Ui.updateHistory [] ;;
      modify (setState RUNNING) ;;
      modify (setIsPaused false) ;;
      resetIterations ;;
      now <- Date_now ;;
      modify (setSessionStartTime now) ;;
      Ui.updateStats ;;
      Ui.addLog ([55357%N; 56960%N] ++ lit " Starting Ralph loop...") false ;;
      updatePanelTiming ;;
      count <- getIterationCount ;;
      current <- getCurrentTask ;;
      Ui.updateStatus running count current ;;
      setupWatchers ;;
      runNextTask.

Definition pauseLoop : M unit :=
  s <- gets state ;;
  if negb (isRunning s) then ret tt
  else
    modify (setIsPaused true) ;;
    Watchers.prdDisable ;;
    Monitor.pause ;;
    Countdown.stop ;;
    Ui.addLog (lit "Loop paused") false ;;
    count <- getIterationCount ;;
    current <- getCurrentTask ;;
    Ui.updateStatus paused count current.

(** [this.runNextTask()] is started without [await]; the call runs here to
    its end, as every call does. *)
Definition resumeLoop : M unit :=
  p <- gets isPaused ;;
  if negb p then ret tt
  else
    modify (setIsPaused false) ;;
    Monitor.resume ;;
    Ui.addLog (lit "Loop resumed") false ;;
    count <- getIterationCount ;;
    current <- getCurrentTask ;;
    Ui.updateStatus running count current ;;
    runNextTask.

Definition runSingleStep : M unit :=
  s <- gets state ;;
  if isRunning s then
    Ui.addLog (lit "Cannot run single step while loop is running") false
  else
    task <- getNextTaskAsync ;;
    match task with
    | None =>
        cfg <- getConfig ;;
        Ui.addLog (lit "No pending tasks") false ;;
        showInformationMessage (lit "Ralph: No pending tasks in " ++ prdPath cfg)
    | Some task =>
        limit <- checkIterationLimit ;;
        if limit then ret tt
        else
          incrementIteration ;;
          setCurrentTask (description task) ;;
          Ui.addLog (lit "Single step: " ++ description task) false ;;
          triggerCopilotAgent (description task) ;;
          ret tt
    end.

Definition dispose : M unit := stopLoop.

(** The callback that [setupWatchers] hands to the activity watcher. *)
Definition activityCallback : M unit := Monitor.recordActivity.

(** Modelled from the spec: how the ledger watcher of [fileWatchers.ts]
    (absent) delivers a change of the ledger.  The callback that
    [setupWatchers] registered runs when the watcher is subscribed and
    enabled; firing while disabled or after [dispose] is a no-op. *)
Definition prdWatcherFires (newContent : jsstring) : M unit :=
  w <- gets (fun w => prdWatcher (fileWatchers w)) ;;
  if subscribed w && enabled w then handlePrdChange newContent
  else ret tt.

(** Modelled from the spec: how the activity watcher of [fileWatchers.ts]
    (absent) delivers file activity; it runs its callback from [start] to
    [dispose]. *)
Definition activityWatcherFires : M unit :=
  a <- gets (fun w => activityWatcher (fileWatchers w)) ;;
  if a then activityCallback else ret tt.

(** What reaches the loop from outside: the operator's commands, and the
    events of the watchers and timers with their callbacks.  The
    continuation of [startCountdown] runs when the countdown ends or is
    stopped early, and the operator may answer the inactivity warning at
    any time; the ledger and activity watchers deliver as said above. *)
Inductive Call :=
| CmdStart
| CmdPause
| CmdResume
| CmdStop
| CmdSingleStep
| CmdDispose
| CmdSetRequirements (requirements : TaskRequirements)
| CmdSetSettings (settings : RalphSettings)
| EvLedgerChanged (content : jsstring)
| EvFileActivity
| EvCountdownTick (seconds : N)
| EvCountdownElapsed
| EvInactivity (answer : option InactivityAction).

Definition perform (c : Call) : M unit :=
  match c with
  | CmdStart => startLoop
  | CmdPause => pauseLoop
  | CmdResume => resumeLoop
  | CmdStop => stopLoop
  | CmdSingleStep => runSingleStep
  | CmdDispose => dispose
  | CmdSetRequirements requirements => setRequirements requirements
  | CmdSetSettings settings => setSettings settings
  | EvLedgerChanged content => prdWatcherFires content
  | EvFileActivity => activityWatcherFires
  | EvCountdownTick seconds => countdownTick seconds
  | EvCountdownElapsed => countdownElapsed
  | EvInactivity answer => handleInactivity answer
  end.

Definition isEvent (c : Call) : bool :=
  match c with
  | EvLedgerChanged _ | EvFileActivity | EvCountdownTick _
  | EvCountdownElapsed | EvInactivity _ => true
  | _ => false
  end.

End Loop.

(** * Notions used in the statements *)

(** The specification's words: a task is open when its status is Pending
    or InProgress. *)
Definition Open (t : Task) : Prop :=
  status t = PENDING \/ status t = IN_PROGRESS.

(** The number of tasks in a given status. *)
Definition countStatus (st : TaskStatus) (tasks : list Task) : nat :=
  List.length (filter (fun t => TaskStatus_eqb (status t) st) tasks).

(** On a line without terminators, [\s*(.+)$] gives the text from the first
    character that is not blank, or the last blank when all are. *)
Definition lineText (s : jsstring) : jsstring :=
  if forallb isWhiteSpace s then [last s 0] else dropWhile isWhiteSpace s.

(** The line [- [m] T] of the specification, for a bullet, a marker and
    a text. *)
Definition taskLine (bullet marker : code) (text : jsstring) : jsstring :=
  bullet :: lit " [" ++ marker :: lit "] " ++ text.

(** The marker mapping of the specification: SP is Pending, x and X are
    Complete, ~ is InProgress, ! is Blocked. *)
Definition markerMapping : list (code * TaskStatus) :=
  [ (32, PENDING); (120, COMPLETE); (88, COMPLETE);
    (126, IN_PROGRESS); (33, BLOCKED) ].

Definition matches (line : jsstring) : bool :=
  match Regex.exec taskPattern line with Some _ => true | None => false end.

(** What follows the blank run [\s*] in a match, and what follows the text
    [(.+)]: the continuations that [Regex.run] hands to [Regex.greedy]. *)
Definition afterBlanks : Regex.cont := fun text prev s =>
  option_map (Regex.record (Regex.Plain (Regex.Star isWhiteSpace)) text)
    (Regex.run textPattern prev s).

Definition afterText : Regex.cont := fun text prev s =>
  option_map (Regex.record (Regex.Capture (Regex.Plus Regex.dot)) text)
    (Regex.run [Regex.Plain Regex.Eol] prev s).

(** The progress log after one more line. *)
Definition appended (f : File) (line : jsstring) : File :=
  match f with
  | Contents text => Contents (text ++ line)
  | Absent => Contents line
  | Faulty => Faulty
  end.

(** The line that [handlePrdChange] writes for a completion, stamped with
    the time [stamp]. *)
Definition progressLine (X : Externals) (stamp : Z) (c : TaskCompletion) : jsstring :=
  lit "[" ++ toISOString X stamp ++ lit "] "
    ++ ([9989] ++ lit " Completed: " ++ taskDescription c
          ++ lit " (took " ++ ofZ (roundSeconds (duration c)) ++ lit "s)")
    ++ [10].

(** The time that the next reading of the clock returns, and the one
    after [n] further readings. *)
Definition timeAfter (n : nat) (w : World) : Z :=
  clock (host w) (n + clockReads (host w)).

(** The world with further lines in the operator's log and nothing else
    changed. *)
Definition withLogs (lines : list (jsstring * bool)) : World -> World :=
  onUi (fun u =>
    mkUi (logs u ++ lines) (shownHistory u) (shownStats u) (shownStatus u)
      (shownCountdown u) (shownTiming u) (shownIteration u) (shownTask u)).

(** The world with another error log, with other prompts handed over and
    with another progress file. *)
Definition withErrors (errs : list jsstring) : World -> World :=
  onHost (fun h =>
    mkHost (workspaceFolders h) (config h) (prdFile h) (progressFile h)
      (clock h) (clockReads h) (freshSession h) (delivery h)
      (prompts h) errs (notices h)).

Definition withPrompts (sent : list jsstring) : World -> World :=
  onHost (fun h =>
    mkHost (workspaceFolders h) (config h) (prdFile h) (progressFile h)
      (clock h) (clockReads h) (freshSession h) (delivery h)
      sent (errorLog h) (notices h)).

Definition withProgress (f : File) : World -> World :=
  onHost (fun h =>
    mkHost (workspaceFolders h) (config h) (prdFile h) f
      (clock h) (clockReads h) (freshSession h) (delivery h)
      (prompts h) (errorLog h) (notices h)).

(** The world after [n] calls of [incrementIteration]. *)
Definition dispatches (n : nat) (w : World) : World :=
  Nat.iter n (after incrementIteration) w.

(** The specification's words: a duration near zero or negative, here
    anything under a day (in milliseconds). *)
Definition nearZeroOrNegative (ms : Z) : Prop := (ms < 86400000)%Z.

(** The last character of a text. *)
Definition lastOf (s : jsstring) : option code := last (map Some s) None.

(** The same task on line [lineNumber t + k]. *)
Definition renumber (k : N) (t : Task) : Task :=
  {| id := lit "task-" ++ ofN (lineNumber t + k);
     description := description t;
     status := status t;
     lineNumber := lineNumber t + k;
     rawLine := rawLine t |}.


(** The header that [ensureProgressFileAsync] gives a new progress log. *)
Definition progressHeader : jsstring := lit "# Progress Log" ++ [10; 10].

(** Three backquotes at the head of a text. *)
Definition startsFence (s : jsstring) : bool :=
  match s with
  | c1 :: c2 :: c3 :: _ => (c1 =? 96) && (c2 =? 96) && (c3 =? 96)
  | _ => false
  end.

(** Does a line of the text begin with three backquotes?  [prev] is the
    character before the text. *)
Fixpoint fenceAtLineStart (prev : option code) (s : jsstring) : bool :=
  match s with
  | [] => false
  | c :: s' => (Regex.atBol prev && startsFence s) || fenceAtLineStart (Some c) s'
  end.

Definition startsNewline (s : jsstring) : bool :=
  match s with c :: _ => c =? 10 | [] => false end.

(** Does the text hold three newlines in a row? *)
Fixpoint tripleNewline (s : jsstring) : bool :=
  match s with
  | [] => false
  | c :: s' =>
      ((c =? 10) && match s' with
                    | c2 :: c3 :: _ => (c2 =? 10) && (c3 =? 10)
                    | _ => false
                    end)
      || tripleNewline s'
  end.

(** The requirements that are switched on, in the order of the steps. *)
Definition enabledRequirements (rq : TaskRequirements) : list bool :=
  filter (fun b => b)
    [ writeTests rq; runTests rq; runTypeCheck rq; runLinting rq;
      updateDocs rq; commitChanges rq ].

(** The progress log as [readProgressAsync] finds it. *)
Definition progressContent (h : Host) : option jsstring :=
  contentOf (workspaceFolders h) (progressFile h).

(** The prompt that [triggerCopilotAgent] builds for a task in a world. *)
Definition promptFor (X : Externals) (task : jsstring) (w : World) : jsstring :=
  agentPromptText X task (requirements (taskRunner w))
    (orEmpty (ledgerContent (host w))) (orEmpty (progressContent (host w)))
    (workspaceRootOf (host w)).

(** The state of a loop that is coherent: it is paused only while running,
    the ledger and activity watchers are subscribed exactly while it runs,
    the ledger watcher is disabled while it is paused, and there are no
    more completions on record than tasks dispatched, and fewer while the
    ledger watcher listens. *)
Definition coherent (w : World) : Prop :=
  (isPaused w = true -> state w = RUNNING)
  /\ subscribed (prdWatcher (fileWatchers w)) = isRunning (state w)
  /\ activityWatcher (fileWatchers w) = isRunning (state w)
  /\ (isPaused w = true -> enabled (prdWatcher (fileWatchers w)) = false)
  /\ (Z.of_nat (List.length (taskHistory (taskRunner w)))
      <= iterationCount (taskRunner w))%Z
  /\ (subscribed (prdWatcher (fileWatchers w)) = true ->
      enabled (prdWatcher (fileWatchers w)) = true ->
      (Z.of_nat (List.length (taskHistory (taskRunner w)))
       < iterationCount (taskRunner w))%Z).

(** The iteration limit is reached. *)
Definition limitReached (w : World) : Prop :=
  (0 < maxIterations (settings (taskRunner w))
   /\ maxIterations (settings (taskRunner w)) <= iterationCount (taskRunner w))%Z.

(** A file that has kept what it held: content is only ever added at the
    end, and a file that exists does not go away. *)
Definition extends (f f' : File) : Prop :=
  match f with
  | Contents text => exists more, f' = Contents (text ++ more)
  | Absent => f' <> Faulty
  | Faulty => f' = Faulty
  end.

(** The worlds that the program reaches: from the constructor, by calls
    that each run to their end before the next begins, while the world
    outside changes the host (files, clock, Copilot) between calls. *)
Inductive reachable (X : Externals) : World -> Prop :=
| reach_new h : reachable X (newLoopOrchestrator X h)
| reach_call w c : reachable X w -> reachable X (after (perform X c) w)
| reach_host w f : reachable X w -> reachable X (onHost f w).

(** ** A concrete host

    An instance of the externals and a workspace with a two-task ledger, on
    which the model runs. *)

Definition sampleExternals : Externals :=
  {| REVIEW_COUNTDOWN_SECONDS := 12;
     DEFAULT_REQUIREMENTS := mkRequirements false false false false false false;
     DEFAULT_SETTINGS := mkSettings 50;
     formatDuration := fun ms => ofZ (ms / 1000) ++ lit "s";
     toISOString := ofZ;
     agentPromptText := fun task _ _ _ _ => task |}.

Definition sampleHost (ledger : jsstring) : Host :=
  {| workspaceFolders := Some [lit "/work"];
     config := mkConfig (lit "PRD.md") (lit "progress.txt");
     prdFile := Contents ledger;
     progressFile := Absent;
     clock := fun n => (1762000000000 + 1000 * Z.of_nat n)%Z;
     clockReads := 0;
     freshSession := true;
     delivery := Delivered Agent;
     prompts := [];
     errorLog := [];
     notices := [] |}.

(** The agent rewrites the ledger. *)
Definition ledgerBecomes (ledger : jsstring) : World -> World :=
  onHost (fun h =>
    mkHost (workspaceFolders h) (config h) (Contents ledger) (progressFile h)
      (clock h) (clockReads h) (freshSession h) (delivery h)
      (prompts h) (errorLog h) (notices h)).

Definition twoTasks : jsstring := lit "- [ ] a" ++ [10] ++ lit "- [ ] b".
Definition firstDone : jsstring := lit "- [x] a" ++ [10] ++ lit "- [ ] b".

(** The loop started on the two-task ledger: task "a" is in flight. *)
Definition inFlight : World :=
  after (startLoop sampleExternals) (newLoopOrchestrator sampleExternals (sampleHost twoTasks)).

Definition allDone : jsstring := lit "- [x] a" ++ [10] ++ lit "- [x] b".

(** The window without a workspace folder, and the workspace whose ledger
    cannot be read. *)
Definition withoutWorkspace (h : Host) : Host :=
  mkHost None (config h) (prdFile h) (progressFile h)
    (clock h) (clockReads h) (freshSession h) (delivery h)
    (prompts h) (errorLog h) (notices h).

Definition withLedgerFile (f : File) (h : Host) : Host :=
  mkHost (workspaceFolders h) (config h) f (progressFile h)
    (clock h) (clockReads h) (freshSession h) (delivery h)
    (prompts h) (errorLog h) (notices h).

(** The loop on the two-task ledger before it is started, and the loop
    paused while task "a" is in flight. *)
Definition notStarted : World :=
  newLoopOrchestrator sampleExternals (sampleHost twoTasks).

Definition pausedInFlight : World := after pauseLoop inFlight.

(** * Properties *)

(** ** Strings *)

Lemma eqb_spec (a b : jsstring) : Js.eqb a b = true <-> a = b.
Proof.
  revert b; induction a as [|x a IH]; intros [|y b]; simpl; split;
    try congruence; try reflexivity.
  - intros H. apply andb_true_iff in H as [Hx Hab].
    apply N.eqb_eq in Hx. apply IH in Hab. congruence.
  - intros H. injection H as -> ->. rewrite N.eqb_refl. simpl. now apply IH.
Qed.

Lemma eqb_neq (a b : jsstring) : Js.eqb a b = false <-> a <> b.
Proof.
  split.
  - intros H E. apply eqb_spec in E. congruence.
  - intros H. destruct (Js.eqb a b) eqn:E; [|reflexivity].
    apply eqb_spec in E. contradiction.
Qed.

Lemma lineTerminator_isWhiteSpace c :
  isLineTerminator c = true -> isWhiteSpace c = true.
Proof. unfold isWhiteSpace. intros ->. now rewrite !orb_true_r. Qed.

Lemma dropWhile_all p s : forallb p s = true -> dropWhile p s = [].
Proof.
  induction s as [|c s IH]; simpl; [reflexivity|].
  intros H. apply andb_true_iff in H as [-> H]. auto.
Qed.

Lemma dropWhile_head p s :
  match dropWhile p s with
  | [] => forallb p s = true
  | c :: _ => p c = false
  end.
Proof.
  induction s as [|c s IH]; simpl; [reflexivity|].
  destruct (p c) eqn:E; simpl; assumption.
Qed.

Lemma dropWhile_idem p s : dropWhile p (dropWhile p s) = dropWhile p s.
Proof.
  induction s as [|c s IH]; simpl; [reflexivity|].
  destruct (p c) eqn:E; [assumption|]. simpl. now rewrite E.
Qed.

Lemma dropWhile_keep p c s : p c = false -> dropWhile p (c :: s) = c :: s.
Proof. simpl. now intros ->. Qed.

(** Dropping from the end leaves the head of a string that starts with a
    character outside the class. *)
Lemma dropWhile_rev_head p c s :
  p c = false ->
  exists s', rev (dropWhile p (rev (c :: s))) = c :: s'.
Proof.
  intros Hc. simpl.
  induction (rev s) as [|d r IH]; simpl.
  - rewrite Hc. simpl. now exists [].
  - destruct (p d); [assumption|].
    simpl. rewrite rev_app_distr. simpl. now eexists.
Qed.

Lemma trim_all_space s : forallb isWhiteSpace s = true -> trim s = [].
Proof. intros H. unfold trim. now rewrite (dropWhile_all _ _ H). Qed.

Lemma trim_dropWhile s : trim (dropWhile isWhiteSpace s) = trim s.
Proof. unfold trim. now rewrite dropWhile_idem. Qed.

Lemma trim_trim s : trim (trim s) = trim s.
Proof.
  unfold trim at 2 3.
  set (a := dropWhile isWhiteSpace s).
  assert (Ha := dropWhile_head isWhiteSpace s). fold a in Ha.
  destruct a as [|c a'].
  - reflexivity.
  - destruct (dropWhile_rev_head isWhiteSpace c a' Ha) as [b Hb].
    set (t := rev (dropWhile isWhiteSpace (rev (c :: a')))) in *.
    unfold trim. rewrite Hb at 1.
    rewrite (dropWhile_keep _ _ _ Ha). rewrite <- Hb.
    unfold t at 1. rewrite rev_involutive, dropWhile_idem. reflexivity.
Qed.

Lemma split_line s :
  forallb (fun c => negb (c =? 10)) s = true -> split 10 s = [s].
Proof.
  induction s as [|c s IH]; simpl; [reflexivity|].
  intros H. apply andb_true_iff in H as [Hc H].
  apply negb_true_iff in Hc. rewrite Hc, (IH H). reflexivity.
Qed.

Lemma no_terminator_no_newline s :
  forallb Regex.dot s = true -> forallb (fun c => negb (c =? 10)) s = true.
Proof.
  induction s as [|c s IH]; simpl; [reflexivity|].
  intros H. apply andb_true_iff in H as [Hc H]. rewrite (IH H), andb_true_r.
  unfold Regex.dot, isLineTerminator in Hc.
  destruct (c =? 10); [discriminate|reflexivity].
Qed.

(** ** The ledger grammar *)

Section Grammar.

Import Regex.

Lemma afterText_eol text prev e :
  atEol e = true -> afterText text prev e = Some [text].
Proof. unfold afterText. simpl. now intros ->. Qed.

(** [.+] runs to the end of the line. *)
Lemma greedy_dot_line s : forall taken prev e,
  forallb dot s = true -> atEol e = true ->
  greedy dot afterText taken prev (s ++ e) = Some [taken ++ s].
Proof.
  induction s as [|c s IH]; intros taken prev e Hs He.
  - rewrite app_nil_r. simpl.
    destruct e as [|d e]; [now apply afterText_eol|].
    simpl in He. simpl. unfold dot. rewrite He. simpl. now apply afterText_eol.
  - simpl in Hs. apply andb_true_iff in Hs as [Hc Hs].
    simpl. rewrite Hc, (IH _ _ _ Hs He), <- app_assoc. reflexivity.
Qed.

Lemma run_text_line c s prev e :
  forallb dot (c :: s) = true -> atEol e = true ->
  run textPattern prev ((c :: s) ++ e) = Some [c :: s].
Proof.
  intros Hs He. simpl in Hs. apply andb_true_iff in Hs as [Hc Hs].
  change (run textPattern prev ((c :: s) ++ e))
    with (if dot c then greedy dot afterText [c] (Some c) (s ++ e) else None).
  rewrite Hc. now rewrite greedy_dot_line.
Qed.

Lemma run_text_terminator prev s :
  atEol s = true -> run textPattern prev s = None.
Proof.
  destruct s as [|c s]; [reflexivity|]. simpl. intros H.
  unfold dot. now rewrite H.
Qed.

Lemma greedy_blanks_line s : forall taken prev,
  s <> [] -> forallb dot s = true ->
  greedy isWhiteSpace afterBlanks taken prev s = Some [lineText s].
Proof.
  induction s as [|c s IH]; intros taken prev Hne Hs; [congruence|].
  assert (Hrun : afterBlanks taken prev (c :: s) = Some [c :: s]).
  { unfold afterBlanks.
    rewrite <- (app_nil_r (c :: s)) at 1.
    now rewrite run_text_line. }
  simpl in Hs. apply andb_true_iff in Hs as [Hc Hs].
  unfold lineText. simpl forallb. simpl greedy.
  destruct (isWhiteSpace c) eqn:Ec; simpl.
  - destruct s as [|d s].
    + simpl. unfold afterBlanks at 1. simpl. exact Hrun.
    + assert (Hd : d :: s <> []) by congruence.
      rewrite (IH _ _ Hd Hs). unfold lineText.
      rewrite ?Ec. reflexivity.
  - rewrite Ec. exact Hrun.
Qed.

Lemma trim_lineText s : s <> [] -> trim (lineText s) = trim s.
Proof.
  intros Hne. unfold lineText. destruct (forallb isWhiteSpace s) eqn:E.
  - rewrite (trim_all_space s E).
    apply trim_all_space. simpl. rewrite andb_true_r.
    rewrite forallb_forall in E. apply E.
    destruct (exists_last Hne) as (l & x & ->).
    rewrite last_last. apply in_or_app. right. now left.
  - apply trim_dropWhile.
Qed.

(** A blank run that holds only line terminators gives [.+] nothing. *)
Lemma greedy_blanks_terminators s : forall taken prev,
  forallb isLineTerminator s = true ->
  greedy isWhiteSpace afterBlanks taken prev s = None.
Proof.
  induction s as [|c s IH]; intros taken prev Hs; [reflexivity|].
  simpl in Hs. apply andb_true_iff in Hs as [Hc Hs].
  simpl. rewrite (lineTerminator_isWhiteSpace _ Hc), (IH _ _ Hs).
  unfold afterBlanks. now rewrite run_text_terminator.
Qed.

(** A blank run with a character that is not a line terminator: the text
    is the last such character. *)
Lemma greedy_blanks_only s : forall taken prev,
  forallb isWhiteSpace s = true -> existsb dot s = true ->
  exists c, isWhiteSpace c = true /\
    greedy isWhiteSpace afterBlanks taken prev s = Some [[c]].
Proof.
  induction s as [|c s IH]; intros taken prev Hs Hx; [discriminate|].
  simpl in Hs. apply andb_true_iff in Hs as [Hc Hs].
  simpl. rewrite Hc.
  destruct (existsb dot s) eqn:Es.
  - destruct (IH (taken ++ [c]) (Some c) Hs eq_refl) as (d & Hd & ->).
    now exists d.
  - simpl in Hx. rewrite Es, orb_false_r in Hx.
    assert (Hlt : forallb isLineTerminator s = true).
    { clear - Es. induction s as [|d s IH]; [reflexivity|].
      simpl in *. apply orb_false_iff in Es as [Hd Es].
      unfold dot in Hd. apply negb_false_iff in Hd. now rewrite Hd, IH. }
    rewrite (greedy_blanks_terminators _ _ _ Hlt).
    exists c. split; [assumption|].
    unfold afterBlanks.
    change (c :: s) with ([c] ++ s).
    rewrite run_text_line; [reflexivity| simpl; now rewrite Hx |].
    destruct s as [|d s]; [reflexivity|]. simpl in *.
    now apply andb_true_iff in Hlt as [-> _].
Qed.

Lemma run_marker r bullet marker s :
  In bullet (lit "-*") -> In marker (lit " xX~!") ->
  run (markerPattern ++ r) None (bullet :: 32 :: 91 :: marker :: 93 :: s)
  = option_map (cons [marker]) (run r (Some 93) s).
Proof.
  intros Hb Hm. simpl in Hb, Hm.
  repeat (destruct Hb as [<-|Hb]); try contradiction;
    repeat (destruct Hm as [<-|Hm]); try contradiction;
    (cbn; destruct (run r (Some 93) s); reflexivity).
Qed.

Lemma run_other_marker r prev bullet c s :
  markerClass c = false ->
  run (markerPattern ++ r) prev (bullet :: 32 :: 91 :: c :: s) = None.
Proof.
  intros Hc. cbn. cbn in Hc. rewrite Hc.
  destruct (atBol prev); [|reflexivity].
  destruct (bullet =? 45); [reflexivity|].
  destruct (bullet =? 42); reflexivity.
Qed.

Lemma run_not_bol r p s :
  isLineTerminator p = false -> run (markerPattern ++ r) (Some p) s = None.
Proof. intros Hp. cbn. cbn in Hp. now rewrite Hp. Qed.

Lemma run_not_bullet r prev s :
  match s with [] => True | c :: _ => bulletClass c = false end ->
  run (markerPattern ++ r) prev s = None.
Proof.
  intros Hs. cbn. destruct (atBol prev); [|reflexivity].
  destruct s as [|c s]; [reflexivity|]. cbn in Hs. now rewrite Hs.
Qed.

(** Inside a line without terminators the pattern finds no second start. *)
Lemma execFrom_inside s : forall p,
  isLineTerminator p = false -> forallb dot s = true ->
  execFrom taskPattern (Some p) s = None.
Proof.
  induction s as [|c s IH]; intros p Hp Hs.
  - cbn [execFrom]. unfold taskPattern. now rewrite run_not_bol.
  - simpl in Hs. apply andb_true_iff in Hs as [Hc Hs].
    cbn [execFrom]. unfold taskPattern at 1. rewrite run_not_bol by assumption.
    apply IH; [|assumption]. unfold dot in Hc. now apply negb_true_iff in Hc.
Qed.

Lemma execFrom_next r prev c s :
  run r prev (c :: s) = None ->
  execFrom r prev (c :: s) = execFrom r (Some c) s.
Proof. intros H. cbn [execFrom]. now rewrite H. Qed.

Lemma parse_one_line line :
  forallb (fun c => negb (c =? 10)) line = true ->
  parseTasksFromContent line =
  match parseLine 0 line with Some t => [t] | None => [] end.
Proof.
  intros H. unfold parseTasksFromContent. rewrite (split_line _ H). simpl.
  destruct (parseLine 0 line); reflexivity.
Qed.

Lemma exec_taskLine bullet marker text :
  In bullet (lit "-*") -> In marker (lit " xX~!") -> forallb dot text = true ->
  exec taskPattern (taskLine bullet marker text)
  = Some [[marker]; lineText (32 :: text)].
Proof.
  intros Hb Hm Ht. unfold exec.
  change (taskLine bullet marker text)
    with (bullet :: 32 :: 91 :: marker :: 93 :: 32 :: text).
  assert (R : run taskPattern None
                (bullet :: 32 :: 91 :: marker :: 93 :: 32 :: text)
              = Some [[marker]; lineText (32 :: text)]).
  { unfold taskPattern. rewrite run_marker by assumption.
    change (run (Plain (Star isWhiteSpace) :: textPattern) (Some 93) (32 :: text))
      with (greedy isWhiteSpace afterBlanks [] (Some 93) (32 :: text)).
    rewrite greedy_blanks_line; [reflexivity|congruence|].
    simpl. now rewrite Ht. }
  unfold execFrom. destruct (bullet :: _); now rewrite R.
Qed.

End Grammar.

Lemma bullet_cases bullet :
  In bullet (lit "-*") -> bullet = 45 \/ bullet = 42.
Proof. simpl. intuition. Qed.

Lemma marker_cases marker :
  In marker (lit " xX~!") ->
  marker = 32 \/ marker = 120 \/ marker = 88 \/ marker = 126 \/ marker = 33.
Proof. simpl. intuition. Qed.

Lemma taskLine_no_newline bullet marker text :
  In bullet (lit "-*") -> marker <> 10 -> forallb Regex.dot text = true ->
  forallb (fun c => negb (c =? 10)) (taskLine bullet marker text) = true.
Proof.
  intros Hb Hm Ht. apply no_terminator_no_newline in Ht.
  destruct (bullet_cases _ Hb) as [-> | ->]; cbn; rewrite Ht;
    apply N.eqb_neq in Hm; rewrite Hm; reflexivity.
Qed.

Lemma trim_leading_space text : trim (32 :: text) = trim text.
Proof. reflexivity. Qed.

Lemma parseLine_taskLine bullet marker text :
  In bullet (lit "-*") -> In marker (lit " xX~!") ->
  forallb Regex.dot text = true ->
  parseLine 0 (taskLine bullet marker text) =
  Some {| id := lit "task-1";
          description := trim text;
          status := statusOfMarker (toLowerCase [marker]);
          lineNumber := 1;
          rawLine := taskLine bullet marker text |}.
Proof.
  intros Hb Hm Ht. unfold parseLine.
  rewrite exec_taskLine by assumption.
  cbn [nth]. rewrite trim_lineText by congruence.
  rewrite trim_leading_space. reflexivity.
Qed.

Lemma other_marker c :
  ~ In c (map fst markerMapping) -> markerClass c = false.
Proof.
  intros H. cbn in H. cbn.
  repeat match goal with
  | |- context [c =? ?n] =>
      destruct (N.eqb_spec c n); [exfalso; apply H; subst; tauto|]
  end.
  reflexivity.
Qed.

Lemma exec_after_bracket prev text :
  forallb Regex.dot text = true ->
  Regex.execFrom taskPattern prev (93 :: 32 :: text) = None.
Proof.
  intros Ht.
  rewrite execFrom_next by (unfold taskPattern; now apply run_not_bullet).
  apply execFrom_inside; [reflexivity|]. simpl. now rewrite Ht.
Qed.

Lemma exec_other_marker bullet c text :
  In bullet (lit "-*") -> markerClass c = false ->
  forallb Regex.dot text = true ->
  Regex.exec taskPattern (taskLine bullet c text) = None.
Proof.
  intros Hb Hc Ht. unfold Regex.exec.
  change (taskLine bullet c text) with (bullet :: 32 :: 91 :: c :: 93 :: 32 :: text).
  rewrite execFrom_next by (unfold taskPattern; now apply run_other_marker).
  assert (Hbl : isLineTerminator bullet = false)
    by (destruct (bullet_cases _ Hb) as [-> | ->]; reflexivity).
  rewrite execFrom_next by (unfold taskPattern; now apply run_not_bol).
  rewrite execFrom_next by (unfold taskPattern; now apply run_not_bol).
  rewrite execFrom_next by (unfold taskPattern; now apply run_not_bol).
  apply (exec_after_bracket _ text Ht).
Qed.

Lemma split_newline a b :
  forallb (fun c => negb (c =? 10)) a = true ->
  split 10 (a ++ 10 :: b) = a :: split 10 b.
Proof.
  induction a as [|c a IH]; simpl; [reflexivity|].
  intros H. apply andb_true_iff in H as [Hc H].
  apply negb_true_iff in Hc. now rewrite Hc, (IH H).
Qed.

Lemma rawLines_of_parseLines lines : forall i,
  map rawLine (parseLines i lines) = filter matches lines.
Proof.
  induction lines as [|line lines IH]; intros i; [reflexivity|].
  simpl. unfold parseLine, matches.
  destruct (Regex.exec taskPattern line); simpl; now rewrite IH.
Qed.

(** C4. For each marker of { , x, X, ~, !}, the line [- [m] T] (bullet [-]
    or [*], text [T] without line terminators) parses to one task whose
    status is Pending, Complete, Complete, InProgress, Blocked
    respectively; [X] is read as [x].  With any other character in the
    bracket the line is not a task line, and the tasks of a document come
    from its matching lines only. *)
Theorem marker_mapping bullet text :
  In bullet (lit "-*") ->
  forallb Regex.dot text = true ->
  (forall marker st, In (marker, st) markerMapping ->
     parseTasksFromContent (taskLine bullet marker text) =
     [ {| id := lit "task-1";
          description := trim text;
          status := st;
          lineNumber := 1;
          rawLine := taskLine bullet marker text |} ])
  /\ (forall c, ~ In c (map fst markerMapping) ->
        parseTasksFromContent (taskLine bullet c text) = [])
  /\ (forall content,
        map rawLine (parseTasksFromContent content)
        = filter matches (split 10 content)).
Proof.
  intros Hb Ht. split; [|split].
  - intros marker st Hin.
    assert (Hm : In marker (lit " xX~!") /\ marker <> 10
                 /\ statusOfMarker (toLowerCase [marker]) = st).
    { simpl in Hin.
      repeat (destruct Hin as [Hin|Hin]; [injection Hin as <- <-;
        (split; [simpl; tauto | split; [discriminate | reflexivity]])|]).
      contradiction. }
    destruct Hm as (Hm & Hnl & <-).
    rewrite parse_one_line by now apply taskLine_no_newline.
    now rewrite parseLine_taskLine.
  - intros c Hc. apply other_marker in Hc.
    destruct (N.eqb_spec c 10) as [-> | Hnl].
    + change (taskLine bullet 10 text)
        with ([bullet; 32; 91] ++ 10 :: 93 :: 32 :: text).
      unfold parseTasksFromContent. rewrite split_newline.
      * rewrite split_line
          by (apply (no_terminator_no_newline (93 :: 32 :: text)); simpl; now rewrite Ht).
        assert (H1 : parseLine 0 [bullet; 32; 91] = None)
          by (destruct (bullet_cases _ Hb) as [-> | ->]; reflexivity).
        assert (H2 : forall i, parseLine i (93 :: 32 :: text) = None)
          by (intros i; unfold parseLine, Regex.exec;
              now rewrite exec_after_bracket).
        cbn [parseLines]. now rewrite H1, H2.
      * destruct (bullet_cases _ Hb) as [-> | ->]; reflexivity.
    + rewrite parse_one_line by now apply taskLine_no_newline.
      unfold parseLine. now rewrite exec_other_marker.
  - intros content. apply rawLines_of_parseLines.
Qed.

Lemma marker_mapping_witness :
  parseTasksFromContent (lit "* [X] T") =
  [ {| id := lit "task-1";
       description := lit "T";
       status := COMPLETE;
       lineNumber := 1;
       rawLine := lit "* [X] T" |} ]
  /\ parseTasksFromContent (lit "- [?] T") = [].
Proof.
  assert (Hb : forall b, b = 42 \/ b = 45 -> In b (lit "-*"))
    by (simpl; intuition).
  split.
  - apply (proj1 (marker_mapping 42 (lit "T") (Hb 42 (or_introl eq_refl)) eq_refl)
             88 COMPLETE).
    simpl. tauto.
  - apply (proj1 (proj2 (marker_mapping 45 (lit "T") (Hb 45 (or_intror eq_refl)) eq_refl))
             63).
    simpl. intros H. repeat (destruct H as [H|H]; [discriminate|]). exact H.
Defined.

Lemma parseLine_description i line t :
  parseLine i line = Some t -> exists text, description t = trim text.
Proof.
  unfold parseLine. destruct (Regex.exec taskPattern line) as [m|]; [|discriminate].
  intros H. injection H as <-. simpl. now eexists.
Qed.

Lemma parseLines_description lines : forall i t,
  In t (parseLines i lines) -> exists text, description t = trim text.
Proof.
  induction lines as [|line lines IH]; intros i t Hin; [contradiction|].
  simpl in Hin. destruct (parseLine i line) as [u|] eqn:E.
  - destruct Hin as [<- | Hin]; [now apply (parseLine_description i line)|].
    now apply (IH (i + 1)).
  - now apply (IH (i + 1)).
Qed.

Section BlankText.

Import Regex.

Lemma exec_blank_text bullet marker blanks :
  In bullet (lit "-*") -> In marker (lit " xX~!") ->
  forallb isWhiteSpace blanks = true -> existsb dot blanks = true ->
  exists c, isWhiteSpace c = true /\
    exec taskPattern (bullet :: 32 :: 91 :: marker :: 93 :: blanks)
    = Some [[marker]; [c]].
Proof.
  intros Hb Hm Hw Hx.
  destruct (greedy_blanks_only blanks [] (Some 93) Hw Hx) as (c & Hc & Hg).
  exists c. split; [assumption|].
  unfold exec. cbn [execFrom]. unfold taskPattern at 1.
  rewrite run_marker by assumption.
  change (run (Plain (Star isWhiteSpace) :: textPattern) (Some 93) blanks)
    with (greedy isWhiteSpace afterBlanks [] (Some 93) blanks).
  now rewrite Hg.
Qed.

Lemma bullet_not_terminator c :
  isLineTerminator c = true -> bulletClass c = false.
Proof.
  unfold isLineTerminator. intros H.
  repeat (apply orb_true_iff in H as [H|H]);
    apply N.eqb_eq in H; subst; reflexivity.
Qed.

Lemma execFrom_terminators s : forall prev,
  forallb isLineTerminator s = true -> execFrom taskPattern prev s = None.
Proof.
  induction s as [|c s IH]; intros prev Hs.
  - cbn [execFrom]. unfold taskPattern. now rewrite run_not_bullet.
  - simpl in Hs. apply andb_true_iff in Hs as [Hc Hs].
    rewrite execFrom_next; [now apply IH|].
    unfold taskPattern. apply run_not_bullet. now apply bullet_not_terminator.
Qed.

(** The other side of the blank run: when only line terminators (or
    nothing) follow the bracket, [(.+)] has no character to take and the
    line is not a task line. *)
Lemma exec_marker_alone bullet marker ends :
  In bullet (lit "-*") -> In marker (lit " xX~!") ->
  forallb isLineTerminator ends = true ->
  exec taskPattern (bullet :: 32 :: 91 :: marker :: 93 :: ends) = None.
Proof.
  intros Hb Hm He. unfold exec.
  assert (Hbl : isLineTerminator bullet = false)
    by (destruct (bullet_cases _ Hb) as [-> | ->]; reflexivity).
  assert (Hml : isLineTerminator marker = false)
    by (destruct (marker_cases _ Hm) as [-> | [-> | [-> | [-> | ->]]]];
        reflexivity).
  rewrite execFrom_next.
  - do 4 (rewrite execFrom_next
            by (unfold taskPattern; now apply run_not_bol)).
    now apply execFrom_terminators.
  - unfold taskPattern at 1. rewrite run_marker by assumption.
    change (run (Plain (Star isWhiteSpace) :: textPattern) (Some 93) ends)
      with (greedy isWhiteSpace afterBlanks [] (Some 93) ends).
    now rewrite greedy_blanks_terminators.
Qed.

End BlankText.

Lemma marker_alone_is_no_task :
  parseTasksFromContent (lit "- [x]" ++ [13]) = []
  /\ parseTasksFromContent (lit "- [x]") = [].
Proof. split; reflexivity. Qed.

(** C10. Every task that the parser produces has a description equal to
    its own trim.  A line made of a bullet, a marker and then only
    whitespace, of which at least one character is not a line terminator,
    is a task line whose description is the empty string; so is
    ["- [x]  "]. *)
Theorem description_trimmed :
  (forall content t,
     In t (parseTasksFromContent content) ->
     trim (description t) = description t)
  /\ (forall bullet marker blanks,
        In bullet (lit "-*") -> In marker (lit " xX~!") ->
        forallb isWhiteSpace blanks = true ->
        existsb Regex.dot blanks = true ->
        forallb (fun c => negb (c =? 10)) blanks = true ->
        exists t,
          parseTasksFromContent (bullet :: lit " [" ++ marker :: lit "]" ++ blanks)
          = [t]
          /\ description t = []
          /\ rawLine t = bullet :: lit " [" ++ marker :: lit "]" ++ blanks)
  /\ parseTasksFromContent (lit "- [x]  ") =
     [ {| id := lit "task-1";
          description := [];
          status := COMPLETE;
          lineNumber := 1;
          rawLine := lit "- [x]  " |} ].
Proof.
  split; [|split].
  - intros content t Hin.
    destruct (parseLines_description _ _ _ Hin) as [text ->].
    apply trim_trim.
  - intros bullet marker blanks Hb Hm Hw Hx Hnl.
    change (bullet :: lit " [" ++ marker :: lit "]" ++ blanks)
      with (bullet :: 32 :: 91 :: marker :: 93 :: blanks).
    destruct (exec_blank_text bullet marker blanks Hb Hm Hw Hx) as (c & Hc & He).
    rewrite parse_one_line.
    + unfold parseLine. rewrite He. eexists. split; [reflexivity|].
      split; [|reflexivity]. cbn [description nth].
      apply trim_all_space. simpl. now rewrite Hc.
    + destruct (bullet_cases _ Hb) as [-> | ->];
        destruct (marker_cases _ Hm) as [-> | [-> | [-> | [-> | ->]]]];
        cbn; exact Hnl.
  - reflexivity.
Qed.

Lemma description_trimmed_witness :
  exists t,
    parseTasksFromContent (lit "* [~] " ++ [9; 13]) = [t] /\ description t = [].
Proof.
  destruct (proj1 (proj2 description_trimmed) 42 126 [32; 9; 13]) as (t & H1 & H2 & _).
  - simpl. tauto.
  - simpl. tauto.
  - reflexivity.
  - reflexivity.
  - reflexivity.
  - exists t. split; assumption.
Defined.

(** ** Next task and statistics *)

Lemma parse_empty : parseTasksFromContent [] = [].
Proof. reflexivity. Qed.

Lemma ledgerTasks_content h :
  ledgerTasks h =
  match ledgerContent h with
  | Some content => parseTasksFromContent content
  | None => []
  end.
Proof.
  unfold ledgerTasks, ledgerContent, tasksOf.
  destruct (contentOf (workspaceFolders h) (prdFile h)) as [[|c content]|];
    reflexivity.
Qed.

Lemma parseTasksAsync_result w : result parseTasksAsync w = ledgerTasks (host w).
Proof.
  unfold result, parseTasksAsync, readPRDAsync, getWorkspaceRoot, bind, gets,
    ledgerTasks, tasksOf, contentOf, workspaceRootOf.
  cbn. destruct (workspaceFolders (host w)) as [[|[|f0 root] fs]|]; cbn;
    try reflexivity.
  destruct (prdFile (host w)) as [| |[|c text]]; reflexivity.
Qed.

Lemma getNextTaskAsync_result w :
  result getNextTaskAsync w = find isOpen (ledgerTasks (host w)).
Proof.
  rewrite <- parseTasksAsync_result. unfold result, getNextTaskAsync, bind.
  destruct (parseTasksAsync w). reflexivity.
Qed.

Lemma getTaskStatsAsync_result w :
  result getTaskStatsAsync w = statsOf (ledgerTasks (host w)).
Proof.
  rewrite <- parseTasksAsync_result. unfold result, getTaskStatsAsync, bind.
  destruct (parseTasksAsync w). reflexivity.
Qed.

Lemma isOpen_Open t : isOpen t = true <-> Open t.
Proof. unfold isOpen, Open. destruct (status t); simpl; intuition congruence. Qed.

Lemma not_open t : isOpen t = false <-> status t = COMPLETE \/ status t = BLOCKED.
Proof. unfold isOpen. destruct (status t); simpl; intuition congruence. Qed.

(** Line numbers grow along the parsed list. *)
Lemma parseLines_lineNumber lines : forall i t,
  In t (parseLines i lines) -> i < lineNumber t.
Proof.
  induction lines as [|line lines IH]; intros i t Hin; [contradiction|].
  simpl in Hin.
  assert (Hrest : In t (parseLines (i + 1) lines) -> i < lineNumber t)
    by (intros H; apply IH in H; lia).
  destruct (parseLine i line) as [u|] eqn:E; [|auto].
  destruct Hin as [<- | Hin]; [|auto].
  unfold parseLine in E. destruct (Regex.exec taskPattern line); [|discriminate].
  injection E as <-. simpl. lia.
Qed.

Lemma parseLines_ordered lines : forall i front t back,
  parseLines i lines = front ++ t :: back ->
  forall u, In u back -> lineNumber t < lineNumber u.
Proof.
  induction lines as [|line lines IH]; intros i front t back E u Hu.
  - destruct front; discriminate.
  - simpl in E. destruct (parseLine i line) as [v|] eqn:Ev.
    + destruct front as [|f front]; simpl in E; injection E as -> E.
      * assert (Hlt : i + 1 < lineNumber u)
          by (apply (parseLines_lineNumber lines); now rewrite E).
        unfold parseLine in Ev.
        destruct (Regex.exec taskPattern line); [|discriminate].
        injection Ev as <-. simpl. exact Hlt.
      * now apply (IH (i + 1) front t back).
    + now apply (IH (i + 1) front t back).
Qed.

Lemma find_first {A} (p : A -> bool) l x :
  find p l = Some x ->
  exists front back,
    l = front ++ x :: back /\ p x = true /\ forall y, In y front -> p y = false.
Proof.
  induction l as [|a l IH]; [discriminate|]. simpl.
  destruct (p a) eqn:E.
  - intros H. injection H as <-. exists [], l. simpl. intuition.
  - intros H. destruct (IH H) as (front & back & -> & Hx & Hf).
    exists (a :: front), back. simpl. split; [reflexivity|]. split; [assumption|].
    intros y [<- | Hy]; auto.
Qed.

Lemma find_none_iff {A} (p : A -> bool) l :
  find p l = None <-> forall y, In y l -> p y = false.
Proof.
  split; [apply find_none|].
  induction l as [|a l IH]; [reflexivity|]. intros H. simpl.
  rewrite (H a (or_introl eq_refl)). apply IH. intros y Hy. apply H. now right.
Qed.

(** C3. Parsing the ledger and taking the next task gives the first task,
    in line order, whose status is Pending or InProgress, and gives none
    exactly when every parsed task is Complete or Blocked (or there are no
    tasks). *)
Theorem next_task_first_open (w : World) :
  let tasks :=
    match ledgerContent (host w) with
    | Some content => parseTasksFromContent content
    | None => []
    end in
  result parseTasksAsync w = tasks
  /\ (forall t,
        result getNextTaskAsync w = Some t <->
        In t tasks /\ Open t
        /\ forall u, In u tasks -> Open u -> lineNumber t <= lineNumber u)
  /\ (result getNextTaskAsync w = None <->
      forall u, In u tasks -> status u = COMPLETE \/ status u = BLOCKED).
Proof.
  intros tasks.
  assert (Ht : ledgerTasks (host w) = tasks) by apply ledgerTasks_content.
  rewrite getNextTaskAsync_result, parseTasksAsync_result, Ht.
  assert (Hord : forall front t back, tasks = front ++ t :: back ->
                 forall u, In u back -> lineNumber t < lineNumber u).
  { subst tasks. destruct (ledgerContent (host w)) as [content|].
    - apply parseLines_ordered.
    - intros [|? ?]; discriminate. }
  clearbody tasks. clear Ht.
  split; [reflexivity|]. split.
  - intros t. split.
    + intros H. destruct (find_first _ _ _ H) as (front & back & E & Ho & Hf).
      split; [rewrite E; apply in_or_app; right; now left|].
      split; [now apply isOpen_Open|].
      intros u Hu Hou. rewrite E in Hu. apply in_app_or in Hu as [Hu | [<- | Hu]].
      * apply Hf in Hu. apply isOpen_Open in Hou. congruence.
      * lia.
      * apply (Hord _ _ _ E) in Hu. lia.
    + intros (Hin & Ho & Hmin).
      destruct (find isOpen tasks) as [t'|] eqn:E.
      * destruct (find_first _ _ _ E) as (front & back & Et & Ho' & Hf).
        rewrite Et in Hin. apply in_app_or in Hin as [Hin | [<- | Hin]].
        -- apply Hf in Hin. apply isOpen_Open in Ho. congruence.
        -- reflexivity.
        -- apply (Hord _ _ _ Et) in Hin.
           assert (lineNumber t <= lineNumber t').
           { apply Hmin; [|now apply isOpen_Open].
             rewrite Et. apply in_or_app. right. now left. }
           lia.
      * apply isOpen_Open in Ho.
        rewrite (proj1 (find_none_iff _ _) E t Hin) in Ho. discriminate.
  - rewrite find_none_iff. split; intros H u Hu; apply not_open; auto.
Qed.

Lemma next_task_first_open_witness :
  exists t,
    result getNextTaskAsync
      (newLoopOrchestrator sampleExternals (sampleHost firstDone)) = Some t
    /\ description t = lit "b" /\ lineNumber t = 2.
Proof.
  set (w := newLoopOrchestrator sampleExternals (sampleHost firstDone)).
  destruct (next_task_first_open w) as (_ & Hnext & _).
  eexists. split.
  - apply Hnext. split; [right; left; reflexivity|]. split; [left; reflexivity|].
    intros u [<- | [<- | []]] [Hu | Hu]; try discriminate Hu. reflexivity.
  - split; reflexivity.
Defined.

Lemma filter_open_count tasks :
  List.length (filter isOpen tasks)
  = (countStatus PENDING tasks + countStatus IN_PROGRESS tasks)%nat.
Proof.
  unfold countStatus. induction tasks as [|t tasks IH]; [reflexivity|].
  cbn [filter]. unfold isOpen at 1.
  destruct (status t); cbn [TaskStatus_eqb orb List.length]; lia.
Qed.

Lemma length_count tasks :
  List.length tasks
  = (countStatus PENDING tasks + countStatus IN_PROGRESS tasks
     + countStatus COMPLETE tasks + countStatus BLOCKED tasks)%nat.
Proof.
  unfold countStatus. induction tasks as [|t tasks IH]; [reflexivity|].
  cbn [filter List.length].
  destruct (status t); cbn [TaskStatus_eqb List.length]; lia.
Qed.

(** C5. For every ledger document the statistics count Pending and
    InProgress tasks together as pending, all parsed tasks as total and
    Complete tasks as completed; an empty or absent document gives
    {total: 0, completed: 0, pending: 0}. *)
Theorem stats_counts (w : World) :
  let tasks :=
    match ledgerContent (host w) with
    | Some content => parseTasksFromContent content
    | None => []
    end in
  let stats := result getTaskStatsAsync w in
  result parseTasksAsync w = tasks
  /\ pending stats = (countStatus PENDING tasks + countStatus IN_PROGRESS tasks)%nat
  /\ total stats = List.length tasks
  /\ total stats = (countStatus PENDING tasks + countStatus IN_PROGRESS tasks
                    + countStatus COMPLETE tasks + countStatus BLOCKED tasks)%nat
  /\ completed stats = countStatus COMPLETE tasks
  /\ (ledgerContent (host w) = None \/ ledgerContent (host w) = Some [] ->
      stats = {| total := 0; completed := 0; pending := 0 |}).
Proof.
  intros tasks stats. subst stats.
  assert (Ht : ledgerTasks (host w) = tasks) by apply ledgerTasks_content.
  rewrite getTaskStatsAsync_result, parseTasksAsync_result, Ht.
  split; [reflexivity|]. split; [apply filter_open_count|].
  split; [reflexivity|]. split; [apply length_count|]. split; [reflexivity|].
  subst tasks. intros [H | H]; rewrite H; reflexivity.
Qed.

Lemma stats_counts_witness :
  result getTaskStatsAsync
    (newLoopOrchestrator sampleExternals (sampleHost []))
  = {| total := 0; completed := 0; pending := 0 |}.
Proof.
  apply (stats_counts (newLoopOrchestrator sampleExternals (sampleHost []))).
  right. reflexivity.
Defined.

(** ** The task runner and the loop *)

Ltac open_world w :=
  destruct w as [st pa ss u r fw cd im h];
  destruct h as [folders cfg prd prog clk reads fresh dlv sent errs ntc];
  destruct r as [reqs stg hist start cur cnt cb];
  destruct stg as [mx].

(** Computing with a world given by its fields: everything is unfolded but
    the parser, the arithmetic and the text of messages, and the file
    operations, of which the lemmas below say what they leave behind. *)
Ltac evaluate :=
  cbv -[parseTasksFromContent tasksOf contentOf find filter List.length
        isOpen isComplete Js.eqb
        app lit ofZ ofN Z.add Z.sub Z.mul Z.div Z.ltb Z.leb Z.of_nat Nat.eqb
        Nat.add roundSeconds progressLine description
        toISOString formatDuration agentPromptText REVIEW_COUNTDOWN_SECONDS
        DEFAULT_REQUIREMENTS DEFAULT_SETTINGS not
        readPRDAsync readProgressAsync parseTasksAsync getNextTaskAsync
        getTaskStatsAsync buildAgentPromptAsync triggerCopilotAgent
        ensureProgressFileAsync].

Ltac evaluate_in H :=
  cbv -[parseTasksFromContent tasksOf contentOf find filter List.length
        isOpen isComplete Js.eqb
        app lit ofZ ofN Z.add Z.sub Z.mul Z.div Z.ltb Z.leb Z.of_nat Nat.eqb
        Nat.add roundSeconds progressLine description
        toISOString formatDuration agentPromptText REVIEW_COUNTDOWN_SECONDS
        DEFAULT_REQUIREMENTS DEFAULT_SETTINGS not
        readPRDAsync readProgressAsync parseTasksAsync getNextTaskAsync
        getTaskStatsAsync buildAgentPromptAsync triggerCopilotAgent
        ensureProgressFileAsync] in H.

Ltac evaluated t :=
  eval cbv -[parseTasksFromContent tasksOf contentOf find filter List.length
        isOpen isComplete Js.eqb
        app lit ofZ ofN Z.add Z.sub Z.mul Z.div Z.ltb Z.leb Z.of_nat Nat.eqb
        Nat.add roundSeconds progressLine description
        toISOString formatDuration agentPromptText REVIEW_COUNTDOWN_SECONDS
        DEFAULT_REQUIREMENTS DEFAULT_SETTINGS not
        readPRDAsync readProgressAsync parseTasksAsync getNextTaskAsync
        getTaskStatsAsync buildAgentPromptAsync triggerCopilotAgent
        ensureProgressFileAsync] in t.

(** *** What the file operations leave behind

    Reading the ledger or the progress log changes nothing but the error
    log; handing a task to Copilot changes the operator's log, the error
    log and the prompts handed over. *)

Lemma readPRDAsync_shape w :
  exists errs,
    readPRDAsync w
    = (contentOf (workspaceFolders (host w)) (prdFile (host w)),
       withErrors errs w).
Proof.
  open_world w. unfold readPRDAsync.
  destruct folders as [[|[|f0 root] fs]|]; destruct prd as [| |text];
    evaluate; eexists; reflexivity.
Qed.

Lemma readProgressAsync_shape w :
  exists text errs, readProgressAsync w = (text, withErrors errs w).
Proof.
  open_world w. unfold readProgressAsync.
  destruct folders as [[|[|f0 root] fs]|]; destruct prog as [| |text];
    evaluate; do 2 eexists; reflexivity.
Qed.

Ltac read_files :=
  repeat (match goal with
          | |- context [readPRDAsync ?W] =>
              let e := fresh "errs" in
              destruct (readPRDAsync_shape W) as [e ->]
          | |- context [readProgressAsync ?W] =>
              let e := fresh "errs" in let t := fresh "text" in
              destruct (readProgressAsync_shape W) as (t & e & ->)
          end; evaluate).

Lemma parseTasksAsync_shape w :
  exists errs,
    parseTasksAsync w
    = (tasksOf (workspaceFolders (host w)) (prdFile (host w)),
       withErrors errs w).
Proof.
  open_world w. unfold parseTasksAsync, tasksOf. evaluate. read_files.
  destruct (contentOf folders prd) as [[|c text]|]; evaluate; eexists; reflexivity.
Qed.

Lemma getNextTaskAsync_shape w :
  exists errs,
    getNextTaskAsync w
    = (find isOpen (tasksOf (workspaceFolders (host w)) (prdFile (host w))),
       withErrors errs w).
Proof.
  unfold getNextTaskAsync, bind.
  destruct (parseTasksAsync_shape w) as [errs ->]. now exists errs.
Qed.

Lemma getTaskStatsAsync_shape w :
  exists errs,
    getTaskStatsAsync w
    = (statsOf (tasksOf (workspaceFolders (host w)) (prdFile (host w))),
       withErrors errs w).
Proof.
  unfold getTaskStatsAsync, bind.
  destruct (parseTasksAsync_shape w) as [errs ->]. now exists errs.
Qed.

Lemma ensureProgressFileAsync_shape w :
  exists ok f errs,
    ensureProgressFileAsync w = (ok, withProgress f (withErrors errs w)).
Proof.
  open_world w. unfold ensureProgressFileAsync.
  destruct folders as [[|[|f0 root] fs]|]; destruct prog as [| |text];
    evaluate; do 3 eexists; reflexivity.
Qed.

Lemma buildAgentPromptAsync_shape X task rq w :
  exists prompt errs,
    buildAgentPromptAsync X task rq w = (prompt, withErrors errs w).
Proof.
  open_world w. unfold buildAgentPromptAsync. evaluate. read_files.
  do 2 eexists; reflexivity.
Qed.

Lemma triggerCopilotAgent_shape X task w :
  exists out u' errs sent,
    triggerCopilotAgent X task w
    = (out, onUi (fun _ => u') (withErrors errs (withPrompts sent w))).
Proof.
  open_world w. unfold triggerCopilotAgent. evaluate.
  destruct (buildAgentPromptAsync_shape X task reqs
              (mkWorld st pa ss u
                 (mkRunner reqs (mkSettings mx) hist start cur cnt cb)
                 fw cd im
                 (mkHost folders cfg prd prog clk reads fresh dlv sent errs ntc)))
    as (prompt & errs' & ->).
  destruct cb as [[]|]; destruct fresh; destruct dlv as [[]|msg];
    evaluate; do 4 eexists; reflexivity.
Qed.

(** *** Running a method step by step *)

Lemma after_bind {A B} (m : M A) (k : A -> M B) w a w1 :
  m w = (a, w1) -> after (bind m k) w = after (k a) w1.
Proof. unfold after, bind. now intros ->. Qed.

Lemma after_assoc {A B C} (m : M A) (k1 : A -> M B) (k2 : B -> M C) w :
  after (bind (bind m k1) k2) w = after (bind m (fun x => bind (k1 x) k2)) w.
Proof. unfold after, bind. destruct (m w). reflexivity. Qed.

Lemma after_value {A} (m : M A) w a w1 : m w = (a, w1) -> after m w = w1.
Proof. unfold after. now intros ->. Qed.

Ltac head_of t := lazymatch t with ?f _ => head_of f | _ => t end.

(** What the lemmas above say of a file operation [m] at the world [W]. *)
Ltac file_shape X m W use :=
  let H := fresh in
  lazymatch m with
  | getTaskStatsAsync =>
      let e := fresh "errs" in
      destruct (getTaskStatsAsync_shape W) as [e H]; evaluate_in H; use H; clear H
  | getNextTaskAsync =>
      let e := fresh "errs" in
      destruct (getNextTaskAsync_shape W) as [e H]; evaluate_in H; use H; clear H
  | readPRDAsync =>
      let e := fresh "errs" in
      destruct (readPRDAsync_shape W) as [e H]; evaluate_in H; use H; clear H
  | ensureProgressFileAsync =>
      let e := fresh "errs" in let f := fresh "file" in let ok := fresh "ok" in
      destruct (ensureProgressFileAsync_shape W) as (ok & f & e & H);
      evaluate_in H; use H; clear H
  | triggerCopilotAgent X ?d =>
      let e := fresh "errs" in let s := fresh "sent" in
      let o := fresh "out" in let u := fresh "ui" in
      destruct (triggerCopilotAgent_shape X d W) as (o & u & e & s & H);
      evaluate_in H; use H; clear H
  end.

(** One step of the run of [after m W], for a world [W] given by its
    fields: a file operation is replaced by what its lemma says, any other
    first step is computed; a method that cannot be computed in one piece
    is unfolded.  The run stops at a test that the world does not
    decide. *)
Ltac run_step X :=
  lazymatch goal with
  | |- context [after (bind (bind ?m ?k1) ?k2) ?W] =>
      rewrite (after_assoc m k1 k2 W)
  | |- context [after (bind ?m ?k) ?W] =>
      first
        [ file_shape X m W ltac:(fun H => rewrite (after_bind m k W _ _ H))
        | let r := evaluated (m W) in
          lazymatch r with
          | (?a, ?W') => rewrite (after_bind m k W a W' eq_refl)
          end
        | let h := head_of m in unfold h ]
  | |- context [after ?m ?W] =>
      first
        [ let r := evaluated (m W) in
          lazymatch r with
          | (?a, ?W') => rewrite (after_value m W a W' eq_refl)
          end
        | let h := head_of m in unfold h ]
  end;
  cbv beta iota delta [negb andb orb isRunning when pending maxIterations].

Ltac run X := repeat (run_step X).

(** The run of the first [after m W] of the goal: [start_run] names the
    world it gives, [end_run] puts the world found in its place. *)
Ltac start_run :=
  match goal with
  | |- context [after ?m ?W] =>
      let w' := fresh "w'" in let H := fresh "Hw" in
      remember (after m W) as w' eqn:H; revert H
  end.

Ltac end_run := intros ->; evaluate.

(** A case analysis, made only while the run is stopped at a test. *)
Tactic Notation "stopped_at" tactic3(cases) :=
  try (lazymatch goal with |- context [after _ _] => cases end).


Section LoopProperties.

Variable X : Externals.

Local Open Scope Z_scope.

(** C1. When the ledger watcher's callback runs, completion is declared if
    and only if the re-parsed ledger has no next task or the next task's
    description differs from the one recorded as in flight.  On declared
    completion the ledger watcher is disabled, the inactivity monitor is
    stopped, one completion is recorded, one line is appended to the
    progress log (when the log can be written) and the review countdown
    is started; otherwise none of these happens. *)
Theorem completion_inference (w : World) (newContent : jsstring) :
  let next := result getNextTaskAsync w in
  let current := currentTaskDescription (taskRunner w) in
  let declared :=
    next = None \/ exists t, next = Some t /\ description t <> current in
  let w' := after (handlePrdChange X newContent) w in
  (declared ->
     enabled (prdWatcher (fileWatchers w')) = false
     /\ started (inactivityMonitor w') = false
     /\ timeoutIn (inactivityMonitor w') = None
     /\ remaining (countdownTimer w') = Some (REVIEW_COUNTDOWN_SECONDS X)
     /\ exists c,
          taskHistory (taskRunner w') = taskHistory (taskRunner w) ++ [c]
          /\ taskDescription c = current
          /\ duration c = timeAfter 0 w - taskStartTime (taskRunner w)
          /\ iteration c = iterationCount (taskRunner w)
          /\ (truthy (workspaceRootOf (host w)) = true ->
              progressFile (host w) <> Faulty ->
              progressFile (host w')
              = appended (progressFile (host w))
                  (progressLine X (timeAfter 2 w) c)))
  /\ (~ declared ->
      enabled (prdWatcher (fileWatchers w')) = enabled (prdWatcher (fileWatchers w))
      /\ started (inactivityMonitor w') = started (inactivityMonitor w)
      /\ remaining (countdownTimer w') = remaining (countdownTimer w)
      /\ taskHistory (taskRunner w') = taskHistory (taskRunner w)
      /\ progressFile (host w') = progressFile (host w)).
Proof.
  rewrite getNextTaskAsync_result.
  open_world w. destruct fw as [[sub en lastc] aw cw].
  start_run. run X.
  match goal with
  | |- context [find isOpen (tasksOf ?F ?P)] =>
      destruct (find isOpen (tasksOf F P)) as [t|] eqn:E;
      [destruct (Js.eqb (description t) cur) eqn:E2|]
  end; run X;
  stopped_at (destruct cb as [[]|]; run X);
  stopped_at (destruct folders as [[|[|f0 root] fs]|]; run X);
  stopped_at (destruct prog as [| |log]; run X);
  end_run; rewrite ?E;
  (split; [intros Hd | intros Hn]);
  try (exfalso; apply Hn; left; reflexivity);
  try (exfalso; apply Hn; right; exists t; split;
       [reflexivity | now apply eqb_neq]);
  try (destruct Hd as [Hd | (t0 & Hd & Hne)];
       [discriminate Hd | injection Hd as <-; apply eqb_spec in E2; contradiction]);
  try (repeat split; reflexivity);
  (repeat (split; [reflexivity|]); eexists;
   repeat (split; [reflexivity|]);
   first [ intros _ Hf; now elim Hf | intros Hf; discriminate Hf | reflexivity ]).
Qed.




Lemma checkIterationLimit_result w :
  result checkIterationLimit w
  = (0 <? maxIterations (settings (taskRunner w)))
    && (maxIterations (settings (taskRunner w)) <=? iterationCount (taskRunner w)).
Proof.
  open_world w. destruct cb as [[]|];
  destruct (0 <? mx) eqn:E1; destruct (mx <=? cnt) eqn:E2;
  evaluate; rewrite ?E1, ?E2; reflexivity.
Qed.

Lemma dispatches_runner n w :
  settings (taskRunner (dispatches n w)) = settings (taskRunner w)
  /\ iterationCount (taskRunner (dispatches n w))
     = iterationCount (taskRunner w) + Z.of_nat n.
Proof.
  induction n as [|n [IHs IHc]]; [simpl; split; [reflexivity|lia]|].
  unfold dispatches in *. rewrite Nat.iter_succ.
  set (v := Nat.iter n (after incrementIteration) w) in *.
  split.
  - rewrite <- IHs. reflexivity.
  - replace (iterationCount (taskRunner (after incrementIteration v)))
      with (iterationCount (taskRunner v) + 1) by reflexivity.
    lia.
Qed.

(** C6. [checkIterationLimit] answers false whenever the configured maximum
    is zero or negative; for a positive maximum it answers true exactly
    when the counter has reached it, so that counting up from zero it is
    first true at the maximum itself.  It leaves the world as it was but
    for the line it logs when the limit is reached. *)
Theorem iteration_limit (w : World) :
  let limit := maxIterations (settings (taskRunner w)) in
  let count := iterationCount (taskRunner w) in
  let reached := result checkIterationLimit w in
  let w' := after checkIterationLimit w in
  (limit <= 0 -> reached = false)
  /\ (0 < limit -> (reached = true <-> limit <= count))
  /\ (0 < limit -> count = 0 -> forall n,
        result checkIterationLimit (dispatches n w) = true
        <-> limit <= Z.of_nat n)
  /\ taskRunner w' = taskRunner w
  /\ (reached = false -> w' = w)
  /\ exists lines,
       w' = withLogs lines w /\ (List.length lines <= 1)%nat.
Proof.
  intros limit count reached w'. subst reached.
  rewrite checkIterationLimit_result. fold limit. fold count.
  split; [intros H; apply andb_false_iff; left; apply Z.ltb_ge; lia|].
  split; [intros H; rewrite andb_true_iff, Z.ltb_lt, Z.leb_le; lia|].
  split.
  { intros H H0 n. rewrite checkIterationLimit_result.
    destruct (dispatches_runner n w) as [-> ->].
    fold limit. fold count. rewrite andb_true_iff, Z.ltb_lt, Z.leb_le. lia. }
  subst w' limit count. clear.
  open_world w. destruct u as [lg sh sst sstat scd stm sit stk].
  destruct cb as [[]|];
  destruct (0 <? mx) eqn:E1; destruct (mx <=? cnt) eqn:E2;
  evaluate; rewrite ?E1, ?E2; evaluate;
  (split; [reflexivity|]); (split; [try reflexivity; discriminate|]);
  first [ (exists []; rewrite app_nil_r; split; [reflexivity | simpl; lia])
        | (eexists [_]; split; [reflexivity | simpl; lia]) ].
Qed.

(** C9. Calling [stopLoop] twice gives the same world as calling it once;
    from any world whatever it leaves the execution state Idle, the paused
    flag cleared, the three watchers disposed, the countdown stopped and
    the inactivity monitor disarmed. *)
Theorem stop_idempotent (w : World) :
  let stopped := after stopLoop w in
  after stopLoop stopped = stopped
  /\ state stopped = IDLE
  /\ isPaused stopped = false
  /\ subscribed (prdWatcher (fileWatchers stopped)) = false
  /\ activityWatcher (fileWatchers stopped) = false
  /\ prdCreationWatcher (fileWatchers stopped) = false
  /\ remaining (countdownTimer stopped) = None
  /\ started (inactivityMonitor stopped) = false
  /\ timeoutIn (inactivityMonitor stopped) = None.
Proof.
  open_world w. evaluate. repeat split.
Qed.

(** C8, as the code has it.  [recordTaskCompletion] appends to the history
    a record whose duration is the current time minus the start timestamp,
    which [setCurrentTask] sets to the time of its call.  On a runner on
    which [setCurrentTask] was never called the start timestamp is 0, so
    the duration is the current time itself, counted from the epoch. *)
Theorem completion_duration (w : World) :
  let c := result (recordTaskCompletion X) w in
  let w' := after (recordTaskCompletion X) w in
  duration c = timeAfter 0 w - taskStartTime (taskRunner w)
  /\ taskHistory (taskRunner w') = taskHistory (taskRunner w) ++ [c]
  /\ taskDescription c = currentTaskDescription (taskRunner w)
  /\ iteration c = iterationCount (taskRunner w)
  /\ (forall task,
        taskStartTime (taskRunner (after (setCurrentTask task) w)) = timeAfter 0 w)
  /\ (forall task,
        duration (result (recordTaskCompletion X) (after (setCurrentTask task) w))
        = timeAfter 1 w - timeAfter 0 w)
  /\ (forall h,
        taskStartTime (taskRunner (newLoopOrchestrator X h)) = 0
        /\ duration (result (recordTaskCompletion X) (newLoopOrchestrator X h))
           = clock h (clockReads h)).
Proof.
  open_world w. destruct cb as [[]|]; evaluate;
    (repeat split; try reflexivity); apply Z.sub_0_r.
Qed.

Lemma find_none_filter {A} (p : A -> bool) l :
  find p l = None -> filter p l = [].
Proof.
  induction l as [|a l IH]; [reflexivity|]. simpl.
  destruct (p a); [discriminate|exact IH].
Qed.

Lemma no_pending_no_next tasks :
  Nat.eqb (List.length (filter isOpen tasks)) 0 = false ->
  find isOpen tasks <> None.
Proof. intros H E. now rewrite (find_none_filter _ _ E) in H. Qed.

(** C2, as the code has it.  After [stopLoop] the ledger watcher is
    disposed, so a change of the ledger that reaches the watcher runs no
    callback and leaves the world as it is.  The callback itself does not
    look at the execution state: run while Idle it still logs the change
    and applies the completion rule of C1, but it dispatches nothing: the
    state stays Idle and the paused flag, the iteration counter, the
    current task and the prompts handed over are unchanged; the countdown
    it may start ends without a dispatch. *)
Theorem stale_callback (w : World) (content : jsstring) :
  after (prdWatcherFires X content) (after stopLoop w) = after stopLoop w
  /\ (state w = IDLE ->
      let w' := after (handlePrdChange X content) w in
      state w' = IDLE
      /\ isPaused w' = isPaused w
      /\ iterationCount (taskRunner w') = iterationCount (taskRunner w)
      /\ currentTaskDescription (taskRunner w')
         = currentTaskDescription (taskRunner w)
      /\ prompts (host w') = prompts (host w)
      /\ (List.length (logs (ui w)) < List.length (logs (ui w')))%nat)
  /\ (state w = IDLE ->
      after (countdownElapsed X) w = after Countdown.stop w).
Proof.
  split; [|split].
  - open_world w. evaluate. reflexivity.
  - open_world w. intros Hs. evaluate_in Hs. subst st.
    start_run. run X.
    match goal with
    | |- context [find isOpen (tasksOf ?F ?P)] =>
        destruct (find isOpen (tasksOf F P)) as [t|] eqn:E;
        [destruct (Js.eqb (description t) cur) eqn:E2|]
    end; run X;
    stopped_at (destruct cb as [[]|]; run X);
    stopped_at (destruct folders as [[|[|f0 root] fs]|]; run X);
    stopped_at (destruct prog as [| |log]; run X);
    end_run; (repeat (split; [reflexivity|]));
    rewrite ?length_app; simpl; lia.
  - open_world w. intros Hs. evaluate_in Hs. subst st. evaluate. reflexivity.
Qed.

Lemma next_pending tasks t :
  find isOpen tasks = Some t ->
  Nat.eqb (List.length (filter isOpen tasks)) 0 = false.
Proof.
  intros E. apply find_some in E as [Hin Ho].
  apply Nat.eqb_neq. intros H. apply length_zero_iff_nil in H.
  assert (Hf : In t (filter isOpen tasks)) by (apply filter_In; now split).
  now rewrite H in Hf.
Qed.

Lemma pending_next tasks :
  find isOpen tasks = None -> Nat.eqb (List.length (filter isOpen tasks)) 0 = true.
Proof. intros E. now rewrite (find_none_filter _ _ E). Qed.

(** C7, as the code has it.  Each call of [incrementIteration] returns the
    previous counter plus one, and 1 when it follows a reset.  [startLoop],
    when it starts the loop, resets the counter and dispatches the first
    task as iteration 1; when it refuses to start it leaves the counter as
    it was.  [pauseLoop] leaves the counter unchanged.  [resumeLoop] never
    resets it: it is a no-op when the loop is not paused and otherwise
    leaves the counter unchanged or, when it dispatches a task, adds
    one. *)
Theorem iteration_counter (w : World) :
  let count := fun v => iterationCount (taskRunner v) in
  result incrementIteration w = count w + 1
  /\ count (after incrementIteration w) = count w + 1
  /\ result incrementIteration (after resetIterations w) = 1
  /\ (state w = RUNNING \/ pending (result getTaskStatsAsync w) = 0%nat ->
      count (after (startLoop X) w) = count w)
  /\ (state w = IDLE -> pending (result getTaskStatsAsync w) <> 0%nat ->
      count (after (startLoop X) w) = 1)
  /\ count (after pauseLoop w) = count w
  /\ (isPaused w = false -> after (resumeLoop X) w = w)
  /\ (count (after (resumeLoop X) w) = count w
      \/ count (after (resumeLoop X) w) = count w + 1).
Proof.
  intros count. subst count. cbv beta.
  rewrite getTaskStatsAsync_result.
  split; [open_world w; reflexivity|].
  split; [open_world w; reflexivity|].
  split; [open_world w; reflexivity|].
  split; [|split; [|split; [|split]]].
  - open_world w. intros Hr. evaluate_in Hr.
    start_run. run X. destruct st; run X.
    + destruct Hr as [Hr|Hr]; [discriminate|].
      apply Nat.eqb_eq in Hr. rewrite Hr. run X. end_run. reflexivity.
    + end_run. reflexivity.
  - open_world w. intros Hs Hp. evaluate_in Hs. evaluate_in Hp. subst st.
    apply Nat.eqb_neq in Hp.
    start_run. run X. rewrite Hp. run X. rewrite Hp. run X.
    match goal with
    | |- context [find isOpen (tasksOf ?F ?P)] =>
        destruct (find isOpen (tasksOf F P)) as [t|] eqn:E;
        [|now apply no_pending_no_next in Hp]
    end.
    run X.
    destruct (0 <? mx) eqn:E1; [destruct (mx <=? 0) eqn:E2|];
      [apply Z.ltb_lt in E1; apply Z.leb_le in E2; lia| |];
      run X; end_run; reflexivity.
  - open_world w. destruct st; evaluate; reflexivity.
  - open_world w. intros Hp. evaluate_in Hp. subst pa. evaluate. reflexivity.
  - open_world w. destruct pa; [|left; evaluate; reflexivity].
    start_run. run X. destruct st; run X; [end_run; now left|].
    destruct (find isOpen (tasksOf folders prd)) as [t|] eqn:E.
    + rewrite (next_pending _ _ E). run X. rewrite E. run X.
      destruct (0 <? mx) eqn:E1; [destruct (mx <=? cnt) eqn:E2|]; run X;
        stopped_at (destruct cb as [[]|]; run X);
        end_run; first [now left | now right].
    + rewrite (pending_next _ E). run X. end_run. now left.
Qed.

End LoopProperties.

(** * Further properties *)

(** ** The ledger as a whole *)

Lemma parseLine_fields i line t :
  parseLine i line = Some t ->
  lineNumber t = i + 1 /\ rawLine t = line /\ id t = lit "task-" ++ ofN (i + 1).
Proof.
  unfold parseLine. destruct (Regex.exec taskPattern line); [|discriminate].
  intros H. injection H as <-. repeat split.
Qed.

Lemma parseLines_fields lines : forall i t,
  In t (parseLines i lines) ->
  i < lineNumber t <= i + N.of_nat (List.length lines)
  /\ nth_error lines (N.to_nat (lineNumber t - 1 - i)) = Some (rawLine t)
  /\ id t = lit "task-" ++ ofN (lineNumber t).
Proof.
  induction lines as [|line lines IH]; intros i t Hin; [contradiction|].
  assert (Hrest : In t (parseLines (i + 1) lines) ->
    i < lineNumber t <= i + N.of_nat (List.length (line :: lines))
    /\ nth_error (line :: lines) (N.to_nat (lineNumber t - 1 - i)) = Some (rawLine t)
    /\ id t = lit "task-" ++ ofN (lineNumber t)).
  { intros H. destruct (IH _ _ H) as (Hn & Hr & Hi).
    split; [cbn [List.length]; lia|]. split; [|exact Hi].
    replace (N.to_nat (lineNumber t - 1 - i))
      with (S (N.to_nat (lineNumber t - 1 - (i + 1)))) by lia.
    exact Hr. }
  simpl in Hin. destruct (parseLine i line) as [u|] eqn:E; [|auto].
  destruct Hin as [<- | Hin]; [|auto].
  destruct (parseLine_fields _ _ _ E) as (Hn & Hr & Hi).
  rewrite Hn, Hr, Hi. split; [cbn [List.length]; lia|].
  split; [|reflexivity].
  replace (N.to_nat (i + 1 - 1 - i)) with 0%nat by lia. reflexivity.
Qed.

Lemma parseLines_same_line lines : forall i t u,
  In t (parseLines i lines) -> In u (parseLines i lines) ->
  lineNumber t = lineNumber u -> t = u.
Proof.
  induction lines as [|line lines IH]; intros i t u Ht Hu E; [contradiction|].
  simpl in Ht, Hu. destruct (parseLine i line) as [v|] eqn:Ev.
  - destruct (parseLine_fields _ _ _ Ev) as (Hn & _).
    destruct Ht as [<- | Ht], Hu as [<- | Hu].
    + reflexivity.
    + apply parseLines_lineNumber in Hu. lia.
    + apply parseLines_lineNumber in Ht. lia.
    + now apply (IH (i + 1)).
  - now apply (IH (i + 1)).
Qed.

Lemma lit_inj a b : lit a = lit b -> a = b.
Proof.
  unfold lit. intros H.
  rewrite <- (string_of_list_ascii_of_string a), <- (string_of_list_ascii_of_string b).
  f_equal. revert H.
  generalize (list_ascii_of_string a) (list_ascii_of_string b).
  intros l. induction l as [|x l IH]; intros [|y l']; simpl; try discriminate;
    [reflexivity|].
  intros H. injection H as Hx H. f_equal; [|now apply IH].
  rewrite <- (ascii_N_embedding x), <- (ascii_N_embedding y). now f_equal.
Qed.

Lemma ofN_inj n m : ofN n = ofN m -> n = m.
Proof.
  unfold ofN. intros H. apply lit_inj in H.
  apply (f_equal NilZero.uint_of_string) in H.
  assert (Hnil : forall k, N.to_uint k <> Decimal.Nil).
  { intros [|p]; [discriminate|]. apply DecimalPos.Unsigned.to_uint_nonnil. }
  rewrite !NilZero.usu in H by apply Hnil. injection H as H.
  now apply DecimalN.Unsigned.to_uint_inj.
Qed.

(** X1.  Every task carries the number of its line, counted from 1, the line
    itself and the identifier made of that number; tasks follow the order
    of the lines, and no two tasks of a ledger share an identifier. *)
Theorem task_identity (content : jsstring) :
  let lines := split 10 content in
  let tasks := parseTasksFromContent content in
  (forall t, In t tasks ->
     1 <= lineNumber t <= N.of_nat (List.length lines)
     /\ nth_error lines (N.to_nat (lineNumber t - 1)) = Some (rawLine t)
     /\ id t = lit "task-" ++ ofN (lineNumber t))
  /\ (forall front t back, tasks = front ++ t :: back ->
        forall u, In u back -> lineNumber t < lineNumber u)
  /\ (forall t u, In t tasks -> In u tasks -> id t = id u -> t = u).
Proof.
  intros lines tasks. split; [|split].
  - intros t Ht. destruct (parseLines_fields _ _ _ Ht) as (Hn & Hr & Hi).
    fold lines in Hn, Hr. rewrite N.sub_0_r in Hr.
    split; [lia|]. now split.
  - apply parseLines_ordered.
  - intros t u Ht Hu E.
    destruct (parseLines_fields _ _ _ Ht) as (_ & _ & Hi).
    destruct (parseLines_fields _ _ _ Hu) as (_ & _ & Hj).
    rewrite Hi, Hj in E. apply app_inv_head in E. apply ofN_inj in E.
    now apply (parseLines_same_line (split 10 content) 0).
Qed.

Section Shape.

Import Regex.

Lemma oneOf_In cs c : oneOf cs c = true <-> In c cs.
Proof.
  unfold oneOf. rewrite existsb_exists. split.
  - intros (x & Hx & E). apply N.eqb_eq in E. now subst.
  - intros H. exists c. split; [assumption|apply N.eqb_refl].
Qed.

(** A greedy quantifier that succeeds has taken a run of its class and
    handed the rest to what follows. *)
Lemma greedy_some p k s : forall taken prev r,
  greedy p k taken prev s = Some r ->
  exists a b prev',
    s = a ++ b /\ forallb p a = true /\ k (taken ++ a) prev' b = Some r.
Proof.
  induction s as [|c s IH]; intros taken prev r H.
  - exists [], [], prev. rewrite (app_nil_r taken).
    split; [reflexivity|]. split; [reflexivity|exact H].
  - cbn [greedy] in H.
    assert (Hk : k taken prev (c :: s) = Some r ->
                 exists a b prev', c :: s = a ++ b /\ forallb p a = true
                   /\ k (taken ++ a) prev' b = Some r).
    { intros Hk. exists [], (c :: s), prev. rewrite (app_nil_r taken).
      split; [reflexivity|]. split; [reflexivity|exact Hk]. }
    destruct (p c) eqn:Ec; [|auto].
    destruct (greedy p k (taken ++ [c]) (Some c) s) as [r'|] eqn:E; [|auto].
    injection H as <-. destruct (IH _ _ _ E) as (a & b & prev' & -> & Ha & Hr).
    exists (c :: a), b, prev'. rewrite <- app_assoc in Hr.
    split; [reflexivity|]. split; [simpl; now rewrite Ec|exact Hr].
Qed.

Lemma run_taskPattern_some prev line caps :
  run taskPattern prev line = Some caps ->
  exists b blanks m blanks' text e,
    line = b :: blanks ++ 91 :: m :: 93 :: blanks' ++ text ++ e
    /\ atBol prev = true
    /\ bulletClass b = true /\ forallb isWhiteSpace blanks = true
    /\ markerClass m = true /\ forallb isWhiteSpace blanks' = true
    /\ text <> [] /\ forallb dot text = true /\ atEol e = true
    /\ caps = [[m]; text].
Proof.
  unfold taskPattern, markerPattern. cbn [app run atomOf record].
  destruct (atBol prev) eqn:Eb; [|discriminate].
  destruct line as [|b s]; [discriminate|].
  destruct (bulletClass b) eqn:Ebul; [|discriminate].
  intros H.
  destruct (option_map _ _) as [c1|] eqn:H1 in H; [|discriminate].
  match type of H1 with
  | context [greedy ?p ?k ?t ?pv ?x] =>
      destruct (greedy p k t pv x) as [c2|] eqn:H2; [|discriminate]
  end.
  apply greedy_some in H2 as (blanks & s2 & prev2 & -> & Hbl & H2).
  destruct s2 as [|o s2]; [discriminate|].
  destruct (oneOf (lit "[") o) eqn:Eo; [|discriminate].
  apply oneOf_In in Eo. destruct Eo as [<-|[]].
  destruct s2 as [|m s2]; [discriminate|].
  destruct (markerClass m) eqn:Em; [|discriminate].
  destruct s2 as [|cl s2]; [discriminate|].
  destruct (oneOf (lit "]") cl) eqn:Ecl; [|discriminate].
  apply oneOf_In in Ecl. destruct Ecl as [<-|[]].
  cbn [option_map] in H2.
  match type of H2 with
  | context [greedy ?p ?k ?t ?pv ?x] =>
      destruct (greedy p k t pv x) as [c3|] eqn:H3; [|discriminate]
  end.
  apply greedy_some in H3 as (blanks' & s3 & prev3 & -> & Hbl' & H3).
  unfold textPattern in H3. cbn [run atomOf record] in H3.
  destruct s3 as [|c s3]; [discriminate|].
  destruct (dot c) eqn:Ec; [|discriminate].
  match type of H3 with
  | context [greedy ?p ?k ?t ?pv ?x] =>
      destruct (greedy p k t pv x) as [c4|] eqn:H4; [|discriminate]
  end.
  apply greedy_some in H4 as (text & e & prev4 & -> & Ht & H4).
  destruct (atEol e) eqn:Ee; [|discriminate].
  cbn [option_map] in H4. injection H4 as <-.
  injection H3 as <-. injection H2 as <-. injection H1 as <-. injection H as <-.
  exists b, blanks, m, blanks', (c :: text), e.
  split; [reflexivity|]. split; [reflexivity|].
  split; [assumption|]. split; [assumption|]. split; [assumption|].
  split; [assumption|]. split; [discriminate|].
  split; [simpl; now rewrite Ec|]. split; [assumption|reflexivity].
Qed.

Lemma lastOf_snoc s c : lastOf (s ++ [c]) = Some c.
Proof. unfold lastOf. rewrite map_app. apply last_last. Qed.

Lemma execFrom_some r s : forall prev caps,
  execFrom r prev s = Some caps ->
  exists pre rest,
    s = pre ++ rest
    /\ run r (match lastOf pre with Some c => Some c | None => prev end) rest
       = Some caps.
Proof.
  induction s as [|c s IH]; intros prev caps H; cbn [execFrom] in H.
  - exists [], []. split; [reflexivity|].
    change (run r prev [] = Some caps).
    destruct (run r prev []); [exact H|discriminate].
  - destruct (run r prev (c :: s)) as [caps'|] eqn:E.
    + exists [], (c :: s). split; [reflexivity|].
      change (run r prev (c :: s) = Some caps). now rewrite E.
    + destruct (IH _ _ H) as (pre & rest & -> & Hr).
      exists (c :: pre), rest. split; [reflexivity|].
      destruct pre as [|d pre] using rev_ind; [exact Hr|].
      clear IHpre. rewrite lastOf_snoc in Hr.
      change (c :: pre ++ [d]) with ((c :: pre) ++ [d]).
      now rewrite lastOf_snoc.
Qed.

Lemma dropWhile_blanks blanks s :
  forallb isWhiteSpace blanks = true ->
  dropWhile isWhiteSpace (blanks ++ s) = dropWhile isWhiteSpace s.
Proof.
  induction blanks as [|c blanks IH]; [reflexivity|]. simpl.
  intros H. apply andb_true_iff in H as [-> H]. auto.
Qed.

Lemma forallb_dot_eol s e :
  forallb dot (s ++ e) = true -> atEol e = true -> e = [].
Proof.
  rewrite forallb_app. intros H He. apply andb_true_iff in H as [_ H].
  destruct e as [|c e]; [reflexivity|]. simpl in H, He.
  unfold dot in H. rewrite He in H. discriminate.
Qed.

Lemma forallb_dot_bol pre s :
  forallb dot (pre ++ s) = true -> atBol (lastOf pre) = true -> pre = [].
Proof.
  rewrite forallb_app. intros H Hp. apply andb_true_iff in H as [H _].
  destruct pre as [|c pre] using rev_ind; [reflexivity|].
  rewrite lastOf_snoc in Hp. simpl in Hp.
  rewrite forallb_app in H. apply andb_true_iff in H as [_ H]. simpl in H.
  unfold dot in H. rewrite Hp in H. discriminate.
Qed.

End Shape.

Lemma parseLine_shape i line t :
  parseLine i line = Some t ->
  exists pre b blanks m blanks' text e,
    line = pre ++ b :: blanks ++ 91 :: m :: 93 :: blanks' ++ text ++ e
    /\ Regex.atBol (lastOf pre) = true
    /\ In b (lit "-*") /\ forallb isWhiteSpace blanks = true
    /\ In m (lit " xX~!") /\ forallb isWhiteSpace blanks' = true
    /\ text <> [] /\ forallb Regex.dot text = true /\ Regex.atEol e = true
    /\ status t = statusOfMarker (toLowerCase [m])
    /\ description t = trim text.
Proof.
  unfold parseLine, Regex.exec.
  destruct (Regex.execFrom taskPattern None line) as [caps|] eqn:E; [|discriminate].
  intros H. injection H as <-. cbn [status description].
  apply execFrom_some in E as (pre & rest & -> & E).
  apply run_taskPattern_some in E
    as (b & blanks & m & blanks' & text & e & -> & Hp & Hb & Hbl & Hm & Hbl' & Hne
        & Ht & He & ->).
  exists pre, b, blanks, m, blanks', text, e.
  split; [reflexivity|].
  split; [destruct (lastOf pre); exact Hp|].
  split; [now apply oneOf_In|]. split; [assumption|].
  split; [now apply oneOf_In|]. split; [assumption|].
  split; [assumption|]. split; [assumption|]. split; [assumption|].
  split; reflexivity.
Qed.

Lemma parseLines_In lines : forall i t,
  In t (parseLines i lines) -> exists j, parseLine j (rawLine t) = Some t.
Proof.
  induction lines as [|line lines IH]; intros i t Hin; [contradiction|].
  simpl in Hin. destruct (parseLine i line) as [u|] eqn:E.
  - destruct Hin as [<- | Hin]; [|now apply (IH (i + 1))].
    exists i. unfold parseLine in E |- *.
    destruct (Regex.exec taskPattern line) eqn:Ex; [|discriminate].
    injection E as <-. cbn [rawLine]. now rewrite Ex.
  - now apply (IH (i + 1)).
Qed.

(** X2.  Every task comes from a line that holds, at its start or after a line
    terminator, a bullet, optional blanks, a bracketed marker, optional
    blanks and a text that runs to the end of the line; its status is that
    of the marker and its description is the text, trimmed.  On a line
    without CR, LS or PS the bullet is the first character and the text
    runs to the last. *)
Theorem task_line_shape (content : jsstring) (t : Task) :
  In t (parseTasksFromContent content) ->
  exists pre bullet blanks marker blanks' text e,
    rawLine t
    = pre ++ bullet :: blanks ++ lit "[" ++ marker :: lit "]" ++ blanks' ++ text ++ e
    /\ Regex.atBol (lastOf pre) = true
    /\ In bullet (lit "-*") /\ forallb isWhiteSpace blanks = true
    /\ In marker (lit " xX~!") /\ forallb isWhiteSpace blanks' = true
    /\ text <> [] /\ forallb Regex.dot text = true /\ Regex.atEol e = true
    /\ status t = statusOfMarker (toLowerCase [marker])
    /\ description t = trim text
    /\ description t = trim (blanks' ++ text)
    /\ (forallb Regex.dot (rawLine t) = true -> pre = [] /\ e = []).
Proof.
  intros Hin. apply parseLines_In in Hin as [j Hj].
  destruct (parseLine_shape _ _ _ Hj)
    as (pre & b & blanks & m & blanks' & text & e & Hl & Hp & Hb & Hbl & Hm & Hbl'
        & Hne & Ht & He & Hs & Hd).
  exists pre, b, blanks, m, blanks', text, e.
  repeat (split; [assumption|]).
  split.
  - rewrite Hd. unfold trim. now rewrite dropWhile_blanks.
  - rewrite Hl. intros Hdot. split.
    + now apply (forallb_dot_bol _ _ Hdot).
    + rewrite forallb_app in Hdot. apply andb_true_iff in Hdot as [_ Hdot].
      cbn [forallb] in Hdot. apply andb_true_iff in Hdot as [_ Hdot].
      rewrite forallb_app in Hdot. apply andb_true_iff in Hdot as [_ Hdot].
      cbn [forallb] in Hdot. rewrite !andb_true_iff in Hdot.
      destruct Hdot as (_ & _ & _ & Hdot).
      rewrite forallb_app in Hdot. apply andb_true_iff in Hdot as [_ Hdot].
      now apply (forallb_dot_eol _ _ Hdot).
Qed.

Section LineEnd.

Import Regex.

(** [\s*(.+)$] on a text with a character that is not blank, followed by a
    line terminator or by nothing. *)
Lemma greedy_blanks_text s : forall taken prev e,
  forallb dot s = true ->
  existsb (fun c => negb (isWhiteSpace c)) s = true ->
  atEol e = true ->
  greedy isWhiteSpace afterBlanks taken prev (s ++ e)
  = Some [dropWhile isWhiteSpace s].
Proof.
  induction s as [|c s IH]; intros taken prev e Hs Hx He; [discriminate|].
  cbn [app greedy dropWhile]. destruct (isWhiteSpace c) eqn:Ec.
  - simpl in Hs, Hx. rewrite Ec in Hx. simpl in Hx.
    apply andb_true_iff in Hs as [_ Hs]. now rewrite IH.
  - unfold afterBlanks. change (c :: s ++ e) with ((c :: s) ++ e).
    now rewrite run_text_line.
Qed.

Lemma exec_taskLine_end bullet marker text e :
  In bullet (lit "-*") -> In marker (lit " xX~!") ->
  forallb dot text = true ->
  existsb (fun c => negb (isWhiteSpace c)) text = true ->
  atEol e = true ->
  exec taskPattern (taskLine bullet marker text ++ e)
  = Some [[marker]; dropWhile isWhiteSpace text].
Proof.
  intros Hb Hm Ht Hx He. unfold exec.
  change (taskLine bullet marker text ++ e)
    with (bullet :: 32 :: 91 :: marker :: 93 :: (32 :: text) ++ e).
  assert (R : run taskPattern None
                (bullet :: 32 :: 91 :: marker :: 93 :: (32 :: text) ++ e)
              = Some [[marker]; dropWhile isWhiteSpace text]).
  { unfold taskPattern. rewrite run_marker by assumption.
    change (run (Plain (Star isWhiteSpace) :: textPattern) (Some 93)
              ((32 :: text) ++ e))
      with (greedy isWhiteSpace afterBlanks [] (Some 93) ((32 :: text) ++ e)).
    rewrite greedy_blanks_text; [reflexivity| | |assumption].
    - simpl. now rewrite Ht.
    - simpl. exact Hx. }
  unfold execFrom. destruct (bullet :: _); now rewrite R.
Qed.

End LineEnd.

(** X3.  A task line keeps its meaning when a CR, LS or PS follows it on the
    same line, as in a ledger with CRLF line ends: the description is the
    text before the terminator, trimmed, whatever follows it. *)
Theorem line_end_ignored bullet marker text e :
  In bullet (lit "-*") -> In marker (lit " xX~!") ->
  forallb Regex.dot text = true ->
  existsb (fun c => negb (isWhiteSpace c)) text = true ->
  Regex.atEol e = true ->
  forallb (fun c => negb (c =? 10)) e = true ->
  parseTasksFromContent (taskLine bullet marker text ++ e) =
  [ {| id := lit "task-1";
       description := trim text;
       status := statusOfMarker (toLowerCase [marker]);
       lineNumber := 1;
       rawLine := taskLine bullet marker text ++ e |} ].
Proof.
  intros Hb Hm Ht Hx He Hnl.
  rewrite parse_one_line.
  - unfold parseLine. rewrite exec_taskLine_end by assumption.
    cbn [nth]. now rewrite trim_dropWhile.
  - rewrite forallb_app, Hnl, andb_true_r.
    apply taskLine_no_newline; [assumption| |assumption].
    destruct (marker_cases _ Hm) as [-> | [-> | [-> | [-> | ->]]]]; discriminate.
Qed.

Lemma line_end_ignored_witness :
  parseTasksFromContent (lit "- [x] done" ++ [13]) =
  [ {| id := lit "task-1";
       description := lit "done";
       status := COMPLETE;
       lineNumber := 1;
       rawLine := lit "- [x] done" ++ [13] |} ].
Proof.
  apply (line_end_ignored 45 120 (lit "done") [13]).
  - simpl. tauto.
  - simpl. tauto.
  - reflexivity.
  - reflexivity.
  - reflexivity.
  - reflexivity.
Defined.

Lemma split_nonempty sep s : split sep s <> [].
Proof.
  destruct s as [|c s]; simpl; [discriminate|].
  destruct (c =? sep); [discriminate|]. destruct (split sep s); discriminate.
Qed.

Lemma split_app a b : split 10 (a ++ 10 :: b) = split 10 a ++ split 10 b.
Proof.
  induction a as [|c a IH]; [reflexivity|].
  cbn [app split]. destruct (c =? 10); [now rewrite IH|].
  rewrite IH. destruct (split 10 a) as [|l ls] eqn:E; [|reflexivity].
  now elim (split_nonempty 10 a).
Qed.

Lemma parseLine_shift i k line :
  parseLine (i + k) line = option_map (renumber k) (parseLine i line).
Proof.
  unfold parseLine. destruct (Regex.exec taskPattern line); [|reflexivity].
  cbn [option_map]. unfold renumber. cbn [lineNumber description status rawLine].
  now replace (i + k + 1) with (i + 1 + k) by lia.
Qed.

Lemma parseLines_shift lines : forall i k,
  parseLines (i + k) lines = map (renumber k) (parseLines i lines).
Proof.
  induction lines as [|line lines IH]; intros i k; [reflexivity|].
  cbn [parseLines]. rewrite parseLine_shift.
  replace (i + k + 1) with (i + 1 + k) by lia. rewrite IH.
  destruct (parseLine i line); reflexivity.
Qed.

Lemma parseLines_app l1 : forall i l2,
  parseLines i (l1 ++ l2)
  = parseLines i l1 ++ parseLines (i + N.of_nat (List.length l1)) l2.
Proof.
  induction l1 as [|line l1 IH]; intros i l2.
  - cbn [app parseLines List.length]. now rewrite N.add_0_r.
  - cbn [app parseLines List.length]. rewrite IH.
    replace (i + 1 + N.of_nat (List.length l1))
      with (i + N.of_nat (S (List.length l1))) by lia.
    destruct (parseLine i line); reflexivity.
Qed.

Lemma find_app_some {A} (p : A -> bool) l1 l2 x :
  find p l1 = Some x -> find p (l1 ++ l2) = Some x.
Proof.
  induction l1 as [|a l1 IH]; [discriminate|]. simpl.
  destruct (p a); [trivial|exact IH].
Qed.

(** X4.  The tasks of a ledger followed by further lines are its own tasks,
    unchanged, and then those of the further lines, numbered on from the
    last line of the ledger; while the ledger has an open task, that is the
    next task whatever follows. *)
Theorem ledger_append (a b : jsstring) :
  let k := N.of_nat (List.length (split 10 a)) in
  parseTasksFromContent (a ++ [10] ++ b)
  = parseTasksFromContent a ++ map (renumber k) (parseTasksFromContent b)
  /\ (forall t,
        find isOpen (parseTasksFromContent a) = Some t ->
        find isOpen (parseTasksFromContent (a ++ [10] ++ b)) = Some t)
  /\ (find isOpen (parseTasksFromContent a) = None ->
      find isOpen (parseTasksFromContent (a ++ [10] ++ b))
      = option_map (renumber k) (find isOpen (parseTasksFromContent b))).
Proof.
  intros k.
  assert (E : parseTasksFromContent (a ++ [10] ++ b)
              = parseTasksFromContent a
                ++ map (renumber k) (parseTasksFromContent b)).
  { unfold parseTasksFromContent. cbn [app]. rewrite split_app, parseLines_app.
    f_equal. apply (parseLines_shift _ 0). }
  split; [exact E|]. rewrite E. clear E. split.
  - intros t. apply find_app_some.
  - generalize (parseTasksFromContent b) as tasks.
    induction (parseTasksFromContent a) as [|u l IH]; intros tasks Hn.
    + cbn [app]. induction tasks as [|v tasks IHt]; [reflexivity|].
      cbn [map find]. unfold isOpen at 1 3. cbn [renumber status].
      fold (isOpen v). destruct (isOpen v); [reflexivity|exact IHt].
    + cbn [app find]. cbn [find] in Hn.
      revert Hn. destruct (isOpen u); [discriminate|]. apply IH.
Qed.

Lemma task_identity_witness :
  let t := {| id := lit "task-2";
              description := lit "b";
              status := PENDING;
              lineNumber := 2;
              rawLine := lit "- [ ] b" |} in
  nth_error (split 10 firstDone) 1 = Some (rawLine t)
  /\ id t = lit "task-" ++ ofN (lineNumber t).
Proof.
  intros t. destruct (proj1 (task_identity firstDone) t) as (_ & H1 & H2).
  - simpl. right. left. reflexivity.
  - split; [exact H1 | exact H2].
Defined.

Lemma task_line_shape_witness :
  let t := {| id := lit "task-1";
              description := lit "T";
              status := COMPLETE;
              lineNumber := 1;
              rawLine := lit "* [X]  T" |} in
  exists blanks text,
    forallb isWhiteSpace blanks = true
    /\ description t = trim text
    /\ description t = trim (blanks ++ text).
Proof.
  intros t.
  destruct (task_line_shape (lit "* [X]  T") t)
    as (pre & b & blanks & m & blanks' & text & e & _ & _ & _ & _ & _ & Hb & _ & _
        & _ & _ & H1 & H2 & _).
  - simpl. left. reflexivity.
  - exists blanks', text. split; [exact Hb|]. split; [exact H1 | exact H2].
Defined.

Lemma ledger_append_witness :
  find isOpen (parseTasksFromContent (twoTasks ++ [10] ++ allDone))
  = Some {| id := lit "task-1";
            description := lit "a";
            status := PENDING;
            lineNumber := 1;
            rawLine := lit "- [ ] a" |}
  /\ find isOpen (parseTasksFromContent (allDone ++ [10] ++ twoTasks))
     = Some {| id := lit "task-3";
               description := lit "a";
               status := PENDING;
               lineNumber := 3;
               rawLine := lit "- [ ] a" |}.
Proof.
  split.
  - apply (proj1 (proj2 (ledger_append twoTasks allDone))). reflexivity.
  - rewrite (proj2 (proj2 (ledger_append allDone twoTasks))); reflexivity.
Defined.

(** ** The files of the workspace *)


Section FileProperties.

Variable X : Externals.

(** X5.  Without a workspace folder, or with one whose path is empty, every
    file operation gives its neutral answer and leaves the world as it is:
    nothing is read, nothing is written, the clock is not read and nothing
    is logged. *)
Theorem no_workspace_root (w : World) (entry : jsstring) :
  truthy (workspaceRootOf (host w)) = false ->
  readPRDAsync w = (None, w)
  /\ readProgressAsync w = ([], w)
  /\ appendProgressAsync X entry w = (false, w)
  /\ ensureProgressFileAsync w = (false, w)
  /\ parseTasksAsync w = ([], w)
  /\ getNextTaskAsync w = (None, w)
  /\ getTaskStatsAsync w = ({| total := 0; completed := 0; pending := 0 |}, w).
Proof.
  open_world w. intros H.
  unfold readPRDAsync, readProgressAsync, appendProgressAsync,
    ensureProgressFileAsync, getTaskStatsAsync, getNextTaskAsync, parseTasksAsync,
    readPRDAsync.
  destruct folders as [[|[|f0 root] fs]|]; try discriminate H;
    repeat split.
Qed.

(** X6.  Reading the ledger never changes the world, except that an unreadable
    ledger (an I/O error other than a missing file) leaves one line in the
    error log; such a ledger reads as no ledger at all. *)
Theorem ledger_reads (w : World) :
  let unreadable :=
    truthy (workspaceRootOf (host w)) && match prdFile (host w) with
                                         | Faulty => true
                                         | _ => false
                                         end in
  let w' :=
    if unreadable
    then withErrors (errorLog (host w) ++ [lit "Failed to read PRD.md"]) w
    else w in
  after readPRDAsync w = w'
  /\ after parseTasksAsync w = w'
  /\ after getNextTaskAsync w = w'
  /\ after getTaskStatsAsync w = w'
  /\ (unreadable = true ->
      result readPRDAsync w = None
      /\ result parseTasksAsync w = []
      /\ result getNextTaskAsync w = None
      /\ result getTaskStatsAsync w = {| total := 0; completed := 0; pending := 0 |}).
Proof.
  open_world w.
  unfold getTaskStatsAsync, getNextTaskAsync, parseTasksAsync, readPRDAsync.
  destruct folders as [[|[|f0 root] fs]|]; destruct prd as [| |[|c text]];
    repeat split; discriminate.
Qed.

(** X7.  The next task and the statistics never disagree: there is no next task
    exactly when the pending count is zero, and a next task is one of the
    parsed tasks. *)
Theorem next_task_and_stats (w : World) :
  let stats := result getTaskStatsAsync w in
  (result getNextTaskAsync w = None <-> pending stats = 0%nat)
  /\ (forall t, result getNextTaskAsync w = Some t ->
        (0 < pending stats)%nat /\ In t (result parseTasksAsync w)
        /\ (status t = PENDING \/ status t = IN_PROGRESS))
  /\ (completed stats + pending stats <= total stats)%nat.
Proof.
  cbv zeta.
  rewrite getTaskStatsAsync_result, getNextTaskAsync_result, parseTasksAsync_result.
  generalize (ledgerTasks (host w)) as tasks. intros tasks.
  cbn [pending completed total statsOf]. split; [|split].
  - split.
    + intros H. now rewrite (find_none_filter _ _ H).
    + intros H. destruct (find isOpen tasks) as [t|] eqn:E; [|reflexivity].
      apply next_pending in E. apply Nat.eqb_neq in E. contradiction.
  - intros t E. split; [|split].
    + apply next_pending in E. apply Nat.eqb_neq in E. lia.
    + now apply find_some in E.
    + apply find_some in E as [_ E]. now apply isOpen_Open.
  - rewrite (length_count tasks), (filter_open_count tasks).
    change (List.length (filter isComplete tasks)) with (countStatus COMPLETE tasks).
    lia.
Qed.



End FileProperties.

Lemma no_workspace_root_witness :
  let w := newLoopOrchestrator sampleExternals (withoutWorkspace (sampleHost twoTasks)) in
  getNextTaskAsync w = (None, w)
  /\ appendProgressAsync sampleExternals (lit "note") w = (false, w).
Proof.
  intros w.
  destruct (no_workspace_root sampleExternals w (lit "note"))
    as (_ & _ & Ha & _ & _ & Hn & _).
  - reflexivity.
  - split; [exact Hn | exact Ha].
Defined.

Lemma ledger_reads_witness :
  let w := newLoopOrchestrator sampleExternals
             (withLedgerFile Faulty (sampleHost twoTasks)) in
  errorLog (host (after getNextTaskAsync w)) = [lit "Failed to read PRD.md"]
  /\ result getNextTaskAsync w = None.
Proof.
  intros w. destruct (ledger_reads w) as (_ & _ & Ha & _ & Hr).
  split.
  - rewrite Ha. reflexivity.
  - apply Hr. reflexivity.
Defined.

Lemma next_task_and_stats_witness :
  let w := newLoopOrchestrator sampleExternals (sampleHost allDone) in
  pending (result getTaskStatsAsync w) = 0%nat.
Proof.
  intros w. apply (proj1 (next_task_and_stats w)). reflexivity.
Defined.



(** ** The prompt builder *)

Lemma escapeFences_eq prev c s :
  escapeFences prev (c :: s)
  = if Regex.atBol prev && startsFence (c :: s)
    then lit "\`\`\`" ++ escapeFences (Some 96) (skipn 2 s)
    else c :: escapeFences (Some c) s.
Proof.
  destruct s as [|c2 [|c3 rest]]; cbn [escapeFences startsFence skipn].
  - now rewrite andb_false_r.
  - now rewrite andb_false_r.
  - rewrite !andb_assoc.
    destruct (Regex.atBol prev && (c =? 96) && (c2 =? 96)); [|reflexivity].
    cbn [andb]. destruct (N.eqb_spec c3 96) as [-> |]; reflexivity.
Qed.

Lemma startsFence_shape s :
  startsFence s = true -> exists rest, s = 96 :: 96 :: 96 :: rest.
Proof.
  destruct s as [|c1 [|c2 [|c3 rest]]]; try discriminate. cbn.
  rewrite !andb_true_iff, !N.eqb_eq. intros [[-> ->] ->]. now exists rest.
Qed.

(** Induction on a text, three characters at a time where [escapeFences]
    skips a fence. *)
Lemma by_length {A} (P : list A -> Prop) :
  (forall s, (forall t, (List.length t < List.length s)%nat -> P t) -> P s) ->
  forall s, P s.
Proof.
  intros H s. remember (List.length s) as n eqn:E. revert s E.
  induction n as [n IH] using lt_wf_ind. intros s ->.
  apply H. intros t Ht. now apply (IH (List.length t)).
Qed.

Lemma escapeFences_inside p c s :
  isLineTerminator p = false ->
  escapeFences (Some p) (c :: s) = c :: escapeFences (Some c) s.
Proof. intros H. rewrite escapeFences_eq. cbn [Regex.atBol]. now rewrite H. Qed.

Lemma startsFence_escaped c s :
  startsFence (c :: s) = false ->
  startsFence (c :: escapeFences (Some c) s) = false.
Proof.
  intros H. destruct (N.eqb_spec c 96) as [-> | Hc].
  - destruct s as [|c2 s]; [reflexivity|].
    rewrite escapeFences_inside by reflexivity.
    destruct (N.eqb_spec c2 96) as [-> | Hc2].
    + destruct s as [|c3 s]; [reflexivity|].
      rewrite escapeFences_inside by reflexivity. exact H.
    + apply N.eqb_neq in Hc2. cbn [startsFence]. rewrite Hc2.
      destruct (escapeFences (Some c2) s); reflexivity.
  - apply N.eqb_neq in Hc. cbn [startsFence]. rewrite Hc.
    destruct (escapeFences (Some c) s) as [|? [|? ?]]; reflexivity.
Qed.

Lemma escapeFences_no_fence s : forall prev,
  fenceAtLineStart prev (escapeFences prev s) = false.
Proof.
  induction s as [s IH] using by_length. intros prev.
  destruct s as [|c s]; [reflexivity|]. rewrite escapeFences_eq.
  destruct (Regex.atBol prev && startsFence (c :: s)) eqn:E.
  - apply andb_true_iff in E as [_ E].
    apply startsFence_shape in E as [rest E]. injection E as -> ->.
    cbn [skipn]. change (lit "\`\`\`") with [92; 96; 92; 96; 92; 96].
    cbn [app fenceAtLineStart startsFence].
    cbn. rewrite !andb_false_r. cbn.
    apply IH. cbn. lia.
  - cbn [fenceAtLineStart]. rewrite (IH s) by (cbn; lia). rewrite orb_false_r.
    destruct (Regex.atBol prev); [|reflexivity]. cbn [andb] in *.
    now apply startsFence_escaped.
Qed.

Lemma tripleNewline_tail c s : tripleNewline (c :: s) = false -> tripleNewline s = false.
Proof. cbn [tripleNewline]. intros H. now apply orb_false_iff in H. Qed.


Lemma escapeFences_startsNewline prev s :
  startsNewline (escapeFences prev s) = startsNewline s.
Proof.
  destruct s as [|c s]; [reflexivity|]. rewrite escapeFences_eq.
  destruct (Regex.atBol prev && startsFence (c :: s)) eqn:E; [|reflexivity].
  apply andb_true_iff in E as [_ E].
  apply startsFence_shape in E as [rest E]. injection E as -> ->. reflexivity.
Qed.

Lemma tripleNewline_cons c s :
  tripleNewline (c :: s)
  = ((c =? 10) && startsNewline s && startsNewline (tl s)) || tripleNewline s.
Proof.
  cbn [tripleNewline]. f_equal. destruct s as [|c2 [|c3 s]]; cbn;
    rewrite ?andb_false_r; try reflexivity. now rewrite andb_assoc.
Qed.

Lemma escapeFences_no_triple s : forall prev,
  tripleNewline s = false -> tripleNewline (escapeFences prev s) = false.
Proof.
  induction s as [s IH] using by_length. intros prev H.
  destruct s as [|c s]; [reflexivity|]. rewrite escapeFences_eq.
  destruct (Regex.atBol prev && startsFence (c :: s)) eqn:E.
  - apply andb_true_iff in E as [_ E].
    apply startsFence_shape in E as [rest E]. injection E as -> ->.
    cbn [skipn]. change (lit "\`\`\`") with [92; 96; 92; 96; 92; 96].
    assert (Hr : tripleNewline rest = false)
      by (now do 3 apply tripleNewline_tail in H).
    apply (IH rest) with (prev := Some 96) in Hr; [|cbn; lia].
    cbn [app]. rewrite !tripleNewline_cons. cbn. exact Hr.
  - rewrite tripleNewline_cons in H |- *.
    apply orb_false_iff in H as [Hw H].
    rewrite (IH s) by (cbn; lia || assumption). rewrite orb_false_r.
    rewrite escapeFences_startsNewline.
    destruct (c =? 10) eqn:Ec; [|reflexivity].
    destruct s as [|c2 s]; [reflexivity|].
    cbn [startsNewline andb] in Hw |- *.
    destruct (c2 =? 10) eqn:Ec2; [|reflexivity].
    apply N.eqb_eq in Ec2. subst c2. cbn [andb tl] in Hw |- *.
    assert (Hf : startsFence (10 :: s) = false)
      by (destruct s as [|? [|? ?]]; reflexivity).
    rewrite escapeFences_eq, Hf, andb_false_r. cbn [tl].
    now rewrite escapeFences_startsNewline.
Qed.

Lemma tripleNewline_run k rest :
  (k <= 2)%nat -> startsNewline rest = false -> tripleNewline rest = false ->
  tripleNewline (repeat 10 k ++ rest) = false.
Proof.
  intros Hk Hs Hr.
  destruct k as [|[|[|k]]]; [exact Hr| | |lia];
    cbn [repeat app]; rewrite !tripleNewline_cons; cbn [startsNewline tl];
    rewrite Hs, Hr, ?andb_false_r; reflexivity.
Qed.

Lemma collapseNewlines_shape s : forall run,
  exists k rest,
    collapseNewlines run s = repeat 10 k ++ rest
    /\ (k <= 2)%nat /\ startsNewline rest = false /\ tripleNewline rest = false.
Proof.
  induction s as [|c s IH]; intros run.
  - exists (Nat.min run 2), []. rewrite app_nil_r.
    split; [reflexivity|]. split; [lia|]. now split.
  - cbn [collapseNewlines]. destruct (c =? 10) eqn:Ec; [apply IH|].
    exists (Nat.min run 2), (c :: collapseNewlines 0 s).
    split; [reflexivity|]. split; [lia|]. split; [exact Ec|].
    rewrite tripleNewline_cons, Ec. cbn [andb orb].
    destruct (IH 0%nat) as (k & rest & -> & Hk & Hs & Hr).
    now apply tripleNewline_run.
Qed.

Lemma collapseNewlines_no_triple s run :
  tripleNewline (collapseNewlines run s) = false.
Proof.
  destruct (collapseNewlines_shape s run) as (k & rest & -> & Hk & Hs & Hr).
  now apply tripleNewline_run.
Qed.

Lemma forallb_repeat {A} (p : A -> bool) x n :
  p x = true -> forallb p (repeat x n) = true.
Proof. intros H. induction n; simpl; [reflexivity|]. now rewrite H. Qed.

Lemma collapseNewlines_forallb (p : code -> bool) s : forall run,
  p 10 = true -> forallb p s = true -> forallb p (collapseNewlines run s) = true.
Proof.
  induction s as [|c s IH]; intros run Hn Hs; cbn [collapseNewlines].
  - now apply forallb_repeat.
  - simpl in Hs. apply andb_true_iff in Hs as [Hc Hs].
    destruct (c =? 10); [now apply IH|].
    rewrite forallb_app, (forallb_repeat p 10 _ Hn). simpl.
    now rewrite Hc, IH.
Qed.

Lemma escapeFences_forallb (p : code -> bool) s : forall prev,
  p 92 = true -> p 96 = true -> forallb p s = true ->
  forallb p (escapeFences prev s) = true.
Proof.
  induction s as [s IH] using by_length. intros prev H92 H96 Hs.
  destruct s as [|c s]; [reflexivity|]. rewrite escapeFences_eq.
  destruct (Regex.atBol prev && startsFence (c :: s)) eqn:E.
  - apply andb_true_iff in E as [_ E].
    apply startsFence_shape in E as [rest E]. injection E as -> ->.
    cbn [skipn]. change (lit "\`\`\`") with [92; 96; 92; 96; 92; 96].
    cbn [app forallb]. rewrite H92, H96. cbn [andb].
    apply IH; [cbn; lia|assumption|assumption|].
    cbn [forallb] in Hs. rewrite !andb_true_iff in Hs. tauto.
  - cbn [forallb] in Hs |- *. apply andb_true_iff in Hs as [-> Hs].
    apply IH; [cbn; lia|assumption|assumption|assumption].
Qed.

(** X10.  Whatever the task description, the sanitised text holds no control
    character of the class that the function strips, no run of three
    newlines, and no line that begins with a code fence. *)
Theorem sanitized_text (input : jsstring) :
  let text := sanitizeTaskDescription input in
  forallb (fun c => negb (isControl c)) text = true
  /\ tripleNewline text = false
  /\ fenceAtLineStart None text = false.
Proof.
  unfold sanitizeTaskDescription. destruct input as [|c input]; [now repeat split|].
  cbv zeta. split; [|split].
  - apply escapeFences_forallb; [reflexivity|reflexivity|].
    apply collapseNewlines_forallb; [reflexivity|].
    apply forallb_forall. intros x Hx. now apply filter_In in Hx.
  - apply escapeFences_no_triple, collapseNewlines_no_triple.
  - apply escapeFences_no_fence.
Qed.

Lemma filter_all {A} (p : A -> bool) l : forallb p l = true -> filter p l = l.
Proof.
  induction l as [|a l IH]; [reflexivity|]. simpl. intros H.
  apply andb_true_iff in H as [-> H]. now rewrite IH.
Qed.

Lemma repeat_snoc {A} (x : A) n : repeat x n ++ [x] = x :: repeat x n.
Proof. induction n; simpl; [reflexivity|]. now rewrite IHn. Qed.

Lemma tripleNewline_suffix a s :
  tripleNewline (a ++ s) = false -> tripleNewline s = false.
Proof.
  induction a as [|c a IH]; [trivial|]. cbn [app]. intros H.
  apply tripleNewline_tail in H. auto.
Qed.

Lemma collapseNewlines_clean s : forall run,
  (run <= 2)%nat -> tripleNewline (repeat 10 run ++ s) = false ->
  collapseNewlines run s = repeat 10 run ++ s.
Proof.
  induction s as [|c s IH]; intros run Hr H; cbn [collapseNewlines].
  - now rewrite Nat.min_l, app_nil_r.
  - destruct (N.eqb_spec c 10) as [-> | Hc].
    + assert (E : repeat 10 run ++ 10 :: s = repeat 10 (S run) ++ s).
      { change (10 :: s) with ([10] ++ s). now rewrite app_assoc, repeat_snoc. }
      rewrite E in H |- *. apply IH; [|exact H].
      destruct run as [|[|[|run]]]; [lia|lia| |lia].
      cbn in H. discriminate H.
    + rewrite Nat.min_l by assumption. f_equal. f_equal.
      apply (IH 0%nat); [lia|]. cbn [repeat app].
      apply (tripleNewline_suffix (repeat 10 run ++ [c])).
      now rewrite <- app_assoc.
Qed.

Lemma escapeFences_clean s : forall prev,
  fenceAtLineStart prev s = false -> escapeFences prev s = s.
Proof.
  induction s as [|c s IH]; intros prev H; [reflexivity|].
  rewrite escapeFences_eq. cbn [fenceAtLineStart] in H.
  apply orb_false_iff in H as [-> H]. now rewrite IH.
Qed.

Lemma fenceAtLineStart_line s : forall p,
  isLineTerminator p = false -> forallb Regex.dot s = true ->
  fenceAtLineStart (Some p) s = false.
Proof.
  induction s as [|c s IH]; intros p Hp Hs; [reflexivity|].
  cbn [fenceAtLineStart Regex.atBol]. rewrite Hp. cbn [andb orb].
  simpl in Hs. apply andb_true_iff in Hs as [Hc Hs].
  apply IH; [|assumption]. unfold Regex.dot in Hc. now apply negb_true_iff in Hc.
Qed.

Lemma tripleNewline_line s : forallb Regex.dot s = true -> tripleNewline s = false.
Proof.
  induction s as [|c s IH]; [reflexivity|]. simpl forallb. intros H.
  apply andb_true_iff in H as [Hc Hs]. rewrite tripleNewline_cons, (IH Hs).
  unfold Regex.dot, isLineTerminator in Hc. destruct (c =? 10); [discriminate|].
  reflexivity.
Qed.

Lemma forallb_dropWhile (p q : code -> bool) s :
  forallb p s = true -> forallb p (dropWhile q s) = true.
Proof.
  induction s as [|c s IH]; [reflexivity|]. intros H. cbn [dropWhile].
  destruct (q c); [|exact H]. simpl in H. apply andb_true_iff in H as [_ H]. auto.
Qed.

Lemma forallb_rev {A} (p : A -> bool) s : forallb p (rev s) = forallb p s.
Proof.
  induction s as [|c s IH]; [reflexivity|]. simpl.
  rewrite forallb_app, IH. simpl. rewrite andb_true_r. apply andb_comm.
Qed.

Lemma forallb_trim p s : forallb p s = true -> forallb p (trim s) = true.
Proof.
  intros H. unfold trim. rewrite forallb_rev.
  apply forallb_dropWhile. rewrite forallb_rev.
  now apply forallb_dropWhile.
Qed.

(** X11.  The description of a parsed task passes through the sanitiser
    unchanged when it is at most 5000 units long, holds no control
    character and does not begin with a code fence: the line that the
    prompt tells the agent to find is then the task as the ledger has
    it. *)
Theorem parsed_description_unchanged (content : jsstring) (t : Task) :
  In t (parseTasksFromContent content) ->
  (List.length (description t) <= MAX_TASK_DESCRIPTION_LENGTH)%nat ->
  forallb (fun c => negb (isControl c)) (description t) = true ->
  startsFence (description t) = false ->
  sanitizeTaskDescription (description t) = description t.
Proof.
  intros Hin Hlen Hctl Hf.
  assert (Htrim : trim (description t) = description t).
  { destruct (parseLines_description _ _ _ Hin) as [text ->]. apply trim_trim. }
  assert (Hdot : forallb Regex.dot (description t) = true).
  { apply parseLines_In in Hin as [j Hj].
    destruct (parseLine_shape _ _ _ Hj)
      as (pre & b & blanks & m & blanks' & text & e & _ & _ & _ & _ & _ & _ & _
          & Ht & _ & _ & ->).
    now apply forallb_trim. }
  unfold sanitizeTaskDescription.
  destruct (description t) as [|c d] eqn:Ed; [reflexivity|].
  cbv zeta. rewrite Htrim, firstn_all2 by assumption.
  rewrite (filter_all _ _ Hctl).
  rewrite (collapseNewlines_clean _ 0) by (lia || now apply tripleNewline_line).
  apply escapeFences_clean. cbn [fenceAtLineStart Regex.atBol andb].
  rewrite Hf. cbn [orb]. simpl in Hdot. apply andb_true_iff in Hdot as [Hc Hd].
  apply fenceAtLineStart_line; [|assumption].
  unfold Regex.dot in Hc. now apply negb_true_iff in Hc.
Qed.

(** X12.  The steps of the workflow reminder are numbered 1, 2, 3, ... without a
    gap whatever requirements are switched on: there are three fixed steps
    and one for each requirement, the first step is the implementation and
    the last two are the update of the ledger and the append to the
    progress log. *)
Theorem requirement_steps_numbered (cfg : Config) (task : jsstring)
    (rq : TaskRequirements) :
  let steps := buildRequirementsSteps cfg task rq in
  let n := List.length steps in
  n = (3 + List.length (enabledRequirements rq))%nat
  /\ (forall k step,
        nth_error steps k = Some step ->
        exists text,
          step = ofN (N.of_nat (S k)) ++ lit ". " ++ [9989] ++ lit " " ++ text)
  /\ nth_error steps 0 = Some (lit "1. " ++ [9989] ++ lit " Implement the task")
  /\ nth_error steps (n - 2)
     = Some (ofN (N.of_nat (n - 1)) ++ lit ". " ++ [9989] ++ lit " UPDATE "
               ++ prdPath cfg ++ lit ": Change " ++ [34] ++ lit "- [ ] " ++ task
               ++ [34] ++ lit " to " ++ [34] ++ lit "- [x] " ++ task ++ [34])
  /\ nth_error steps (n - 1)
     = Some (ofN (N.of_nat n) ++ lit ". " ++ [9989] ++ lit " APPEND to "
               ++ progressPath cfg ++ lit ": Record what you completed").
Proof.
  destruct rq as [[] [] [] [] [] []];
    (split; [reflexivity|]);
    (split; [|split; [reflexivity|split; reflexivity]]);
    intros k step H;
    do 9 (destruct k as [|k];
          [first [discriminate H | injection H as <-; eexists; reflexivity]|]);
    destruct k; discriminate H.
Qed.

Lemma parsed_description_unchanged_witness :
  sanitizeTaskDescription (lit "a") = lit "a".
Proof.
  apply (parsed_description_unchanged twoTasks
           {| id := lit "task-1";
              description := lit "a";
              status := PENDING;
              lineNumber := 1;
              rawLine := lit "- [ ] a" |}).
  - simpl. left. reflexivity.
  - simpl. unfold MAX_TASK_DESCRIPTION_LENGTH. lia.
  - reflexivity.
  - reflexivity.
Defined.

Lemma requirement_steps_numbered_witness :
  exists text,
    lit "2. " ++ [9989] ++ lit " Run tests and ensure they pass"
    = ofN 2 ++ lit ". " ++ [9989] ++ lit " " ++ text.
Proof.
  apply (proj1 (proj2 (requirement_steps_numbered
                         (mkConfig (lit "PRD.md") (lit "progress.txt")) (lit "a")
                         (mkRequirements false true false false false false)))
           1%nat).
  reflexivity.
Defined.

(** ** The loop as a whole *)

Lemma triggerCopilotAgent_sent X task w :
  exists out u' errs' sent',
    triggerCopilotAgent X task w
    = (out, onUi (fun _ => u') (withErrors errs' (withPrompts sent' w)))
    /\ (sent' = prompts (host w) \/ exists p, sent' = prompts (host w) ++ [p]).
Proof.
  open_world w. unfold triggerCopilotAgent. evaluate.
  destruct (buildAgentPromptAsync_shape X task reqs
              (mkWorld st pa ss u
                 (mkRunner reqs (mkSettings mx) hist start cur cnt cb)
                 fw cd im
                 (mkHost folders cfg prd prog clk reads fresh dlv sent errs ntc)))
    as (prompt & errs' & ->).
  destruct cb as [[]|]; destruct fresh; destruct dlv as [[]|msg];
    evaluate; do 4 eexists;
    (split; [reflexivity
            | first [left; reflexivity | right; eexists; reflexivity]]).
Qed.

Lemma ensureProgressFileAsync_extends w :
  exists ok f errs,
    ensureProgressFileAsync w = (ok, withProgress f (withErrors errs w))
    /\ extends (progressFile (host w)) f.
Proof.
  open_world w. unfold ensureProgressFileAsync.
  destruct folders as [[|[|f0 root] fs]|]; destruct prog as [| |text];
    evaluate; do 3 eexists;
    (split; [reflexivity|]);
    first [ discriminate | reflexivity | (exists []; now rewrite app_nil_r) ].
Qed.

Ltac file_shape2 X m W use :=
  let H := fresh in
  lazymatch m with
  | ensureProgressFileAsync =>
      let e := fresh "errs" in let f := fresh "file" in let ok := fresh "ok" in
      let Hx := fresh "Hext" in
      destruct (ensureProgressFileAsync_extends W) as (ok & f & e & H & Hx);
      evaluate_in H; cbn [host progressFile] in Hx; use H; clear H
  | triggerCopilotAgent X ?d =>
      let e := fresh "errs" in let s := fresh "sent" in
      let o := fresh "out" in let u := fresh "ui" in
      let Hs := fresh "Hsent" in
      destruct (triggerCopilotAgent_sent X d W) as (o & u & e & s & H & Hs);
      evaluate_in H; cbn [host prompts] in Hs; use H; clear H
  | _ => file_shape X m W use
  end.

Ltac run_step2 X :=
  lazymatch goal with
  | |- context [after (bind (bind ?m ?k1) ?k2) ?W] =>
      rewrite (after_assoc m k1 k2 W)
  | |- context [after (bind ?m ?k) ?W] =>
      first
        [ file_shape2 X m W ltac:(fun H => rewrite (after_bind m k W _ _ H))
        | let r := evaluated (m W) in
          lazymatch r with
          | (?a, ?W') => rewrite (after_bind m k W a W' eq_refl)
          end
        | let h := head_of m in unfold h ]
  | |- context [after ?m ?W] =>
      first
        [ let r := evaluated (m W) in
          lazymatch r with
          | (?a, ?W') => rewrite (after_value m W a W' eq_refl)
          end
        | let h := head_of m in unfold h ]
  end;
  cbv beta iota delta [negb andb orb isRunning when pending maxIterations
                       truthy subscribed enabled lastContent remaining started
                       isWaiting timeoutIn prdWatcher activityWatcher
                       prdCreationWatcher].

Ltac run2 X := repeat (run_step2 X).

(** The case analysis that a stopped run asks for. *)
Ltac stuck_case X :=
  lazymatch goal with
  | |- context [after ?m ?W] =>
      first
        [ lazymatch m with
          | context [find isOpen (tasksOf ?F ?P)] =>
              lazymatch goal with
              | E : find isOpen (tasksOf F P) = _ |- _ => rewrite E
              end
          end
        | lazymatch m with
          | context [Nat.eqb (List.length (filter isOpen (tasksOf ?F ?P))) 0] =>
              let E := fresh "Enext" in let t := fresh "t" in
              destruct (find isOpen (tasksOf F P)) as [t|] eqn:E;
              [ rewrite (next_pending _ _ E) | rewrite (pending_next _ E) ]
          end
        | lazymatch m with
          | context [find isOpen (tasksOf ?F ?P)] =>
              let E := fresh "Enext" in let t := fresh "t" in
              destruct (find isOpen (tasksOf F P)) as [t|] eqn:E
          end
        | lazymatch m with
          | context [Js.eqb ?a ?b] =>
              let E := fresh "Esame" in destruct (Js.eqb a b) eqn:E
          end
        | lazymatch m with
          | context [Z.ltb 0 ?mx] =>
              let E := fresh "Epos" in destruct (Z.ltb 0 mx) eqn:E
          end
        | lazymatch m with
          | context [Z.leb ?mx ?cnt] =>
              let E := fresh "Emax" in destruct (Z.leb mx cnt) eqn:E
          end
        | match m with
          | context [match ?v with _ => _ end] =>
              is_var v; destruct v
          end ]
  end.

Ltac explore X := repeat (first [progress (run2 X) | stuck_case X]).

Lemma extends_refl f : extends f f.
Proof.
  destruct f as [| |text]; cbn; [discriminate|reflexivity|].
  exists []. now rewrite app_nil_r.
Qed.

Ltac project :=
  cbn [state isPaused sessionStartTime ui taskRunner fileWatchers countdownTimer
       inactivityMonitor host requirements settings taskHistory taskStartTime
       currentTaskDescription iterationCount logCallback prdWatcher
       activityWatcher prdCreationWatcher subscribed enabled lastContent
       remaining started isWaiting timeoutIn workspaceFolders config prdFile
       progressFile clock clockReads freshSession delivery prompts errorLog
       notices maxIterations isRunning isEvent] in *.

Ltac tidy :=
  repeat match goal with
         | H : _ /\ _ |- _ => destruct H
         | H : ?a = ?a -> _ |- _ => specialize (H eq_refl)
         | H : true = false -> _ |- _ => clear H
         | H : false = true -> _ |- _ => clear H
         | H : true = false |- _ => discriminate H
         | H : false = true |- _ => discriminate H
         | H : IDLE = RUNNING |- _ => discriminate H
         | H : RUNNING = IDLE |- _ => discriminate H
         | H : ?x = true |- _ => is_var x; subst x
         | H : ?x = false |- _ => is_var x; subst x
         | H : true = ?x |- _ => is_var x; subst x
         | H : false = ?x |- _ => is_var x; subst x
         | |- _ /\ _ => split
         | |- _ -> _ => intro
         | |- forall _, _ => intro
         end.

Ltac base :=
  rewrite ?length_app in *; cbn [List.length] in *;
  first [ reflexivity
        | discriminate
        | assumption
        | apply extends_refl
        | (unfold extends; first [discriminate | eexists; reflexivity])
        | lia
        | congruence
        | solve [auto] ].

Ltac crack :=
  tidy;
  try match goal with
      | H : _ \/ _ |- _ => destruct H as [H | H]; crack
      | H : exists _, _ |- _ => destruct H; crack
      | H : ?x = _ |- _ => is_var x; subst x; crack
      end;
  first [ base
        | eassumption
        | match goal with
          | |- _ \/ _ => first [ left; solve [crack] | right; solve [crack] ]
          | |- exists _, _ => eexists; solve [crack]
          end
        ].

Section Summary.

Variable X : Externals.

Local Open Scope Z_scope.

Lemma perform_summary (c : Call) (w : World) :
  let w' := after (perform X c) w in
  let count := fun v => iterationCount (taskRunner v) in
  let history := fun v => taskHistory (taskRunner v) in
  (coherent w -> coherent w')
  /\ match c with
     | CmdSetSettings s => settings (taskRunner w') = s
     | _ => settings (taskRunner w') = settings (taskRunner w)
     end
  /\ match c with
     | CmdSetRequirements rq => requirements (taskRunner w') = rq
     | _ => requirements (taskRunner w') = requirements (taskRunner w)
     end
  /\ (count w' = count w
      \/ (count w' = count w + 1 /\ ~ limitReached w)
      \/ (c = CmdStart /\ state w = IDLE /\ count w' = 1))
  /\ extends (progressFile (host w)) (progressFile (host w'))
  /\ (prdFile (host w') = prdFile (host w)
      /\ config (host w') = config (host w)
      /\ workspaceFolders (host w') = workspaceFolders (host w))
  /\ (prompts (host w') = prompts (host w)
      \/ exists p t,
           prompts (host w') = prompts (host w) ++ [p]
           /\ find isOpen (ledgerTasks (host w)) = Some t
           /\ currentTaskDescription (taskRunner w') = description t
           /\ count w' = match c with CmdStart => 1 | _ => count w + 1 end
           /\ (c = CmdSingleStep \/ state w' = RUNNING /\ isPaused w' = false))
  /\ (coherent w -> state w = IDLE \/ isPaused w = true -> isEvent c = true ->
      prompts (host w') = prompts (host w)
      /\ count w' = count w
      /\ history w' = history w
      /\ progressFile (host w') = progressFile (host w)
      /\ (state w' = state w /\ isPaused w' = isPaused w
          \/ c = EvInactivity (Some StopLoop)
             /\ state w' = IDLE /\ isPaused w' = false))
  /\ (history w' = history w
      \/ (exists done content,
            history w' = history w ++ [done]
            /\ c = EvLedgerChanged content
            /\ taskDescription done = currentTaskDescription (taskRunner w)
            /\ iteration done = count w)
      \/ (c = CmdStart /\ history w' = []))
  /\ (state w' = state w
      \/ (c = CmdStart /\ state w = IDLE /\ state w' = RUNNING)
      \/ (state w = RUNNING /\ state w' = IDLE
          /\ (c = CmdStop \/ c = CmdDispose
              \/ c = EvInactivity (Some StopLoop)
              \/ find isOpen (ledgerTasks (host w)) = None
              \/ limitReached w))).
Proof.
  cbv zeta. open_world w. destruct fw as [[sub en lastc] aw cw].
  destruct im as [ms mw mt]. destruct st, pa.
  all: destruct c; unfold perform; start_run; explore X.
  all: intros ->; unfold coherent, limitReached, ledgerTasks; project.
  all: repeat match goal with |- _ /\ _ => split end.
  all: solve [crack].
Qed.

End Summary.

Lemma coherent_new X h : coherent (newLoopOrchestrator X h).
Proof. unfold coherent. cbn. repeat split; try discriminate; lia. Qed.

Lemma coherent_host f w : coherent w -> coherent (onHost f w).
Proof. destruct w. exact (fun H => H). Qed.

Lemma reachable_coherent X w : reachable X w -> coherent w.
Proof.
  induction 1 as [h | w c _ IH | w f _ IH].
  - apply coherent_new.
  - now apply (perform_summary X c w).
  - now apply coherent_host.
Qed.

Section LoopAsAWhole.

Variable X : Externals.

Local Open Scope Z_scope.

(** X18.  In every world that the program reaches the loop is paused only while
    running, the ledger and activity watchers are subscribed exactly while
    it runs, the ledger watcher is disabled while it is paused, and the
    completions on record are no more than the tasks dispatched, and fewer
    while the ledger watcher listens: no dispatch is completed twice.  So
    a change of the ledger that arrives while the loop is idle or paused
    runs no callback. *)
Theorem reachable_worlds_coherent (w : World) :
  reachable X w ->
  (isPaused w = true -> state w = RUNNING)
  /\ subscribed (prdWatcher (fileWatchers w)) = isRunning (state w)
  /\ activityWatcher (fileWatchers w) = isRunning (state w)
  /\ (isPaused w = true -> enabled (prdWatcher (fileWatchers w)) = false)
  /\ Z.of_nat (List.length (taskHistory (taskRunner w)))
     <= iterationCount (taskRunner w)
  /\ (subscribed (prdWatcher (fileWatchers w)) = true ->
      enabled (prdWatcher (fileWatchers w)) = true ->
      Z.of_nat (List.length (taskHistory (taskRunner w)))
      < iterationCount (taskRunner w))
  /\ (state w = IDLE \/ isPaused w = true ->
      forall content, after (prdWatcherFires X content) w = w).
Proof.
  intros Hr. apply reachable_coherent in Hr.
  destruct Hr as (H1 & H2 & H3 & H4 & H5 & H6).
  repeat (split; [assumption|]).
  intros Hq content. unfold after, prdWatcherFires, bind, gets.
  destruct Hq as [Hq | Hq].
  - rewrite H2, Hq. reflexivity.
  - rewrite (H4 Hq), andb_false_r. reflexivity.
Qed.

(** X19.  While the loop is idle or paused no event of the watchers and timers
    dispatches a task or records a completion, whatever the operator
    answers to an inactivity warning: the prompts handed over, the
    iteration counter, the completion history and the progress log stay as
    they are, and the state changes only when the operator answers the
    warning with "Stop Loop". *)
Theorem quiet_while_idle_or_paused (c : Call) (w : World) :
  reachable X w ->
  state w = IDLE \/ isPaused w = true ->
  isEvent c = true ->
  let w' := after (perform X c) w in
  prompts (host w') = prompts (host w)
  /\ iterationCount (taskRunner w') = iterationCount (taskRunner w)
  /\ taskHistory (taskRunner w') = taskHistory (taskRunner w)
  /\ progressFile (host w') = progressFile (host w)
  /\ (state w' = state w /\ isPaused w' = isPaused w
      \/ c = EvInactivity (Some StopLoop) /\ state w' = IDLE /\ isPaused w' = false).
Proof.
  intros Hr Hq He. apply reachable_coherent in Hr.
  now apply (perform_summary X c w).
Qed.

(** X20.  No call but a change of the settings takes the iteration counter past
    a positive maximum: the settings stay as they are, and a counter that
    is within the maximum stays within it. *)
Theorem iteration_limit_respected (c : Call) (w : World) :
  (forall s, c <> CmdSetSettings s) ->
  let w' := after (perform X c) w in
  let limit := maxIterations (settings (taskRunner w)) in
  settings (taskRunner w') = settings (taskRunner w)
  /\ (0 < limit -> iterationCount (taskRunner w) <= limit ->
      iterationCount (taskRunner w') <= limit).
Proof.
  intros Hc w' limit.
  destruct (perform_summary X c w) as (_ & Hs & _ & Hn & _).
  fold w' in Hs, Hn. split.
  - destruct c as [| | | | | | |s0| | | | |]; try exact Hs. now elim (Hc s0).
  - intros Hpos Hle. unfold limitReached in Hn. fold limit in Hn.
    destruct Hn as [-> | [[-> Hn] | (_ & _ & ->)]]; lia.
Qed.

(** X21.  No call truncates or rewrites the progress log or the ledger: what the
    progress log held is still there, at its start, after every call, a
    log that exists does not go away, and the ledger, the configuration
    and the workspace folders are left as they are. *)
Theorem progress_log_append_only (c : Call) (w : World) :
  let w' := after (perform X c) w in
  (forall text,
     progressFile (host w) = Contents text ->
     exists more, progressFile (host w') = Contents (text ++ more))
  /\ (progressFile (host w) = Absent -> progressFile (host w') <> Faulty)
  /\ prdFile (host w') = prdFile (host w)
  /\ config (host w') = config (host w)
  /\ workspaceFolders (host w') = workspaceFolders (host w).
Proof.
  intros w'.
  destruct (perform_summary X c w) as (_ & _ & _ & _ & He & Hf & _).
  fold w' in He, Hf. unfold extends in He.
  split; [intros text E; now rewrite E in He|].
  split; [intros E; now rewrite E in He|]. exact Hf.
Qed.

(** X22.  A call hands at most one prompt to Copilot.  When it hands one over,
    the task of the prompt is the first open task of the ledger, it is
    the current task afterwards, the iteration counter has advanced by one
    (to 1 for [startLoop]), and the loop is running and not paused unless
    the call is a single step.  The counter changes in no other way than
    by one dispatch, which the limit has allowed, or by the reset of
    [startLoop]. *)
Theorem dispatch_accounting (c : Call) (w : World) :
  let w' := after (perform X c) w in
  let count := fun v => iterationCount (taskRunner v) in
  (prompts (host w') = prompts (host w)
   \/ exists p t,
        prompts (host w') = prompts (host w) ++ [p]
        /\ find isOpen (ledgerTasks (host w)) = Some t
        /\ currentTaskDescription (taskRunner w') = description t
        /\ count w' = match c with CmdStart => 1 | _ => count w + 1 end
        /\ (c = CmdSingleStep \/ state w' = RUNNING /\ isPaused w' = false))
  /\ (count w' = count w
      \/ (count w' = count w + 1 /\ ~ limitReached w)
      \/ (c = CmdStart /\ state w = IDLE /\ count w' = 1)).
Proof.
  intros w' count.
  destruct (perform_summary X c w) as (_ & _ & _ & Hn & _ & _ & Hp & _).
  split; assumption.
Qed.

(** X23.  The completion history changes only in two ways: a change of the
    ledger adds one completion, which names the task that was current and
    the iteration that was running, and [startLoop] clears it. *)
Theorem completions_recorded (c : Call) (w : World) :
  let w' := after (perform X c) w in
  let history := fun v => taskHistory (taskRunner v) in
  history w' = history w
  \/ (exists done content,
        history w' = history w ++ [done]
        /\ c = EvLedgerChanged content
        /\ taskDescription done = currentTaskDescription (taskRunner w)
        /\ iteration done = iterationCount (taskRunner w))
  \/ (c = CmdStart /\ history w' = []).
Proof.
  intros w' history.
  destruct (perform_summary X c w) as (_ & _ & _ & _ & _ & _ & _ & _ & Hh & _).
  exact Hh.
Qed.


End LoopAsAWhole.

(** ** Turns of the loop *)

(** *** What a dispatch hands over *)

Ltac logged :=
  first [ (exists []; rewrite app_nil_r; reflexivity)
        | (eexists [_]; reflexivity) ].

Lemma readPRDAsync_logs w :
  exists more,
    readPRDAsync w
    = (contentOf (workspaceFolders (host w)) (prdFile (host w)),
       withErrors (errorLog (host w) ++ more) w).
Proof.
  open_world w. unfold readPRDAsync.
  destruct folders as [[|[|f0 root] fs]|]; destruct prd as [| |text];
    evaluate; logged.
Qed.

Lemma readProgressAsync_logs w :
  exists more,
    readProgressAsync w
    = (orEmpty (contentOf (workspaceFolders (host w)) (progressFile (host w))),
       withErrors (errorLog (host w) ++ more) w).
Proof.
  open_world w. unfold readProgressAsync.
  destruct folders as [[|[|f0 root] fs]|]; destruct prog as [| |text];
    evaluate; logged.
Qed.

Lemma buildAgentPromptAsync_prompt X task rq w :
  exists more,
    buildAgentPromptAsync X task rq w
    = (agentPromptText X task rq (orEmpty (ledgerContent (host w)))
         (orEmpty (progressContent (host w))) (workspaceRootOf (host w)),
       withErrors (errorLog (host w) ++ more) w).
Proof.
  open_world w. unfold buildAgentPromptAsync, bind.
  match goal with
  | |- context [readPRDAsync ?W] => destruct (readPRDAsync_logs W) as [e1 ->]
  end.
  match goal with
  | |- context [readProgressAsync ?W] =>
      destruct (readProgressAsync_logs W) as [e2 ->]
  end.
  exists (e1 ++ e2). cbn. now rewrite app_assoc.
Qed.

Lemma triggerCopilotAgent_outcome X task w :
  exists u' errs',
    triggerCopilotAgent X task w
    = (match delivery (host w) with
       | Delivered via => Some via
       | Rejected _ => None
       end,
       onUi (fun _ => u')
         (withErrors errs'
            (withPrompts
               (match delivery (host w) with
                | Delivered _ => prompts (host w) ++ [promptFor X task w]
                | Rejected _ => prompts (host w)
                end) w))).
Proof.
  open_world w. unfold triggerCopilotAgent, promptFor. evaluate.
  destruct (buildAgentPromptAsync_prompt X task reqs
              (mkWorld st pa ss u
                 (mkRunner reqs (mkSettings mx) hist start cur cnt cb)
                 fw cd im
                 (mkHost folders cfg prd prog clk reads fresh dlv sent errs ntc)))
    as (errs' & ->).
  destruct cb as [[]|]; destruct fresh; destruct dlv as [[]|msg];
    evaluate; do 2 eexists; reflexivity.
Qed.

Ltac file_shape3 X m W use :=
  let H := fresh in
  lazymatch m with
  | triggerCopilotAgent X ?d =>
      let e := fresh "errs" in let u := fresh "ui" in
      destruct (triggerCopilotAgent_outcome X d W) as (u & e & H);
      evaluate_in H; use H; clear H
  | ensureProgressFileAsync => fail
  | _ => file_shape X m W use
  end.

Ltac run_step3 X :=
  lazymatch goal with
  | |- context [after (bind (bind ?m ?k1) ?k2) ?W] =>
      rewrite (after_assoc m k1 k2 W)
  | |- context [after (bind ?m ?k) ?W] =>
      first
        [ file_shape3 X m W ltac:(fun H => rewrite (after_bind m k W _ _ H))
        | let r := evaluated (m W) in
          lazymatch r with
          | (?a, ?W') => rewrite (after_bind m k W a W' eq_refl)
          end
        | let h := head_of m in unfold h ]
  | |- context [after ?m ?W] =>
      first
        [ file_shape3 X m W ltac:(fun H => rewrite (after_value m W _ _ H))
        | let r := evaluated (m W) in
          lazymatch r with
          | (?a, ?W') => rewrite (after_value m W a W' eq_refl)
          end
        | let h := head_of m in unfold h ]
  end;
  cbv beta iota delta [negb andb orb isRunning when pending maxIterations
                       truthy subscribed enabled lastContent remaining started
                       isWaiting timeoutIn prdWatcher activityWatcher
                       prdCreationWatcher].

Ltac run3 X := repeat (run_step3 X).

(** What is known of the next task and of the limit decides the tests of
    a run. *)
Ltac known_case :=
  lazymatch goal with
  | |- context [after ?m ?W] =>
      first
        [ lazymatch m with
          | context [Nat.eqb (List.length (filter isOpen (tasksOf ?F ?P))) 0] =>
              lazymatch goal with
              | E : find isOpen (tasksOf F P) = Some _ |- _ =>
                  rewrite (next_pending _ _ E)
              | E : find isOpen (tasksOf F P) = None |- _ =>
                  rewrite (pending_next _ E)
              end
          end
        | lazymatch m with
          | context [find isOpen (tasksOf ?F ?P)] =>
              lazymatch goal with
              | E : find isOpen (tasksOf F P) = _ |- _ => rewrite E
              end
          end
        | lazymatch m with
          | context [Js.eqb ?a ?b] =>
              lazymatch goal with
              | E : Js.eqb a b = _ |- _ => rewrite E
              end
          end
        | lazymatch m with
          | context [Z.ltb 0 ?mx] =>
              lazymatch goal with
              | E : Z.ltb 0 mx = _ |- _ => rewrite E
              end
          end
        | lazymatch m with
          | context [Z.leb ?mx ?cnt] =>
              lazymatch goal with
              | E : Z.leb mx cnt = _ |- _ => rewrite E
              end
          end ]
  end.

Ltac explore3 X :=
  repeat (first [progress (run3 X) | known_case | stuck_case X]).

Ltac finish :=
  intros ->; unfold coherent, limitReached, ledgerTasks, ledgerContent,
    progressContent, promptFor, timeAfter in *; project.

Ltac open_fields w :=
  open_world w;
  match goal with
  | fw : FileWatcherManager, im : InactivityMonitor, cd : CountdownTimer |- _ =>
      destruct fw as [[sub en lastc] aw cw]; destruct im as [ms mw mt];
      destruct cd as [rem]
  end.

Section Scenarios.

Variable X : Externals.

Local Open Scope Z_scope.

(** X13.  [triggerCopilotAgent] answers with the channel through which Copilot
    took the prompt, and with nothing when Copilot rejected it.  The prompt
    handed over is built from the task, the requirements set on the
    runner, the ledger, the progress log and the workspace root as they
    are at the call; a rejection hands nothing over and is logged as an
    error.  Neither outcome touches the runner, the state of the loop, the
    watchers, the timers or the files. *)
Theorem trigger_copilot (task : jsstring) (w : World) :
  let out := result (triggerCopilotAgent X task) w in
  let w' := after (triggerCopilotAgent X task) w in
  (forall via,
     delivery (host w) = Delivered via ->
     out = Some via
     /\ prompts (host w') = prompts (host w) ++ [promptFor X task w])
  /\ (forall message,
        delivery (host w) = Rejected message ->
        out = None
        /\ prompts (host w') = prompts (host w)
        /\ exists errs,
             errorLog (host w')
             = errorLog (host w) ++ errs ++ [lit "Failed to trigger Copilot Agent"])
  /\ taskRunner w' = taskRunner w
  /\ state w' = state w /\ isPaused w' = isPaused w
  /\ fileWatchers w' = fileWatchers w
  /\ countdownTimer w' = countdownTimer w
  /\ inactivityMonitor w' = inactivityMonitor w
  /\ prdFile (host w') = prdFile (host w)
  /\ progressFile (host w') = progressFile (host w)
  /\ clockReads (host w') = clockReads (host w).
Proof.
  cbv zeta. unfold result, after.
  open_world w. unfold triggerCopilotAgent, promptFor. evaluate.
  destruct (buildAgentPromptAsync_prompt X task reqs
              (mkWorld st pa ss u
                 (mkRunner reqs (mkSettings mx) hist start cur cnt cb)
                 fw cd im
                 (mkHost folders cfg prd prog clk reads fresh dlv sent errs ntc)))
    as (more & E).
  revert E. unfold ledgerContent, progressContent. evaluate. intros ->.
  destruct cb as [[]|]; destruct fresh; destruct dlv as [[]|msg];
    evaluate; repeat split; intros; try discriminate;
    try (match goal with H : Delivered _ = Delivered _ |- _ => injection H as <- end);
    try reflexivity;
    exists more; now rewrite app_assoc.
Qed.

(** X14.  [startLoop] on a running loop only logs a line.  On an idle loop whose
    ledger has no open task it logs, shows a notice and starts nothing.
    Otherwise it clears the history, takes the time of the call as the
    start of the session, arms the watchers on the ledger as it reads now,
    creates a missing progress log and dispatches the first open task as
    iteration 1. *)
Theorem start_loop (w : World) :
  let w' := after (startLoop X) w in
  (state w = RUNNING ->
   w' = withLogs [(lit "Loop is already running", false)] w)
  /\ (state w = IDLE -> find isOpen (ledgerTasks (host w)) = None ->
      state w' = IDLE
      /\ taskRunner w' = taskRunner w
      /\ fileWatchers w' = fileWatchers w
      /\ progressFile (host w') = progressFile (host w)
      /\ prompts (host w') = prompts (host w)
      /\ notices (host w')
         = notices (host w)
           ++ [lit "Ralph: No pending tasks found in " ++ prdPath (config (host w))])
  /\ (forall t,
        state w = IDLE -> find isOpen (ledgerTasks (host w)) = Some t ->
        state w' = RUNNING /\ isPaused w' = false
        /\ taskHistory (taskRunner w') = []
        /\ iterationCount (taskRunner w') = 1
        /\ currentTaskDescription (taskRunner w') = description t
        /\ sessionStartTime w' = timeAfter 0 w
        /\ taskStartTime (taskRunner w') = timeAfter 1 w
        /\ prdWatcher (fileWatchers w')
           = mkPrdWatcher true true (orEmpty (ledgerContent (host w)))
        /\ activityWatcher (fileWatchers w') = true
        /\ (progressFile (host w) = Absent ->
            progressFile (host w') = Contents progressHeader)
        /\ (progressFile (host w) <> Absent ->
            progressFile (host w') = progressFile (host w))
        /\ (forall via,
              delivery (host w) = Delivered via ->
              prompts (host w')
              = prompts (host w)
                ++ [agentPromptText X (description t) (requirements (taskRunner w))
                      (orEmpty (ledgerContent (host w)))
                      (orEmpty (progressContent (host w')))
                      (workspaceRootOf (host w))])).
Proof.
  cbv zeta. open_fields w. split; [|split].
  - intros Hs. project. subst st. destruct u. reflexivity.
  - intros Hs E. unfold ledgerTasks in E. project. subst st.
    start_run. explore3 X. finish. crack.
  - intros t Hs E. unfold ledgerTasks in E. project. subst st.
    start_run. explore3 X.
    all: finish.
    all: try (unfold tasksOf, contentOf in *; discriminate).
    all: solve [crack].
Qed.

(** X15.  [runSingleStep] is refused while the loop runs.  On an idle loop it
    dispatches the first open task once: the counter advances by one, the
    task becomes the current task and its prompt goes to Copilot.  It
    arms no watcher and no timer and leaves the loop idle, so the
    completion of a single step is never detected; with no open task it
    shows a notice, and at the iteration limit it does nothing but log. *)
Theorem single_step (w : World) :
  let w' := after (runSingleStep X) w in
  (state w = RUNNING ->
   w' = withLogs [(lit "Cannot run single step while loop is running", false)] w)
  /\ (state w = IDLE ->
      state w' = IDLE /\ isPaused w' = isPaused w
      /\ fileWatchers w' = fileWatchers w
      /\ countdownTimer w' = countdownTimer w
      /\ inactivityMonitor w' = inactivityMonitor w
      /\ taskHistory (taskRunner w') = taskHistory (taskRunner w)
      /\ progressFile (host w') = progressFile (host w))
  /\ (state w = IDLE -> find isOpen (ledgerTasks (host w)) = None ->
      taskRunner w' = taskRunner w
      /\ prompts (host w') = prompts (host w)
      /\ notices (host w')
         = notices (host w)
           ++ [lit "Ralph: No pending tasks in " ++ prdPath (config (host w))])
  /\ (forall t,
        state w = IDLE -> find isOpen (ledgerTasks (host w)) = Some t ->
        limitReached w ->
        taskRunner w' = taskRunner w /\ prompts (host w') = prompts (host w))
  /\ (forall t,
        state w = IDLE -> find isOpen (ledgerTasks (host w)) = Some t ->
        ~ limitReached w ->
        iterationCount (taskRunner w') = iterationCount (taskRunner w) + 1
        /\ currentTaskDescription (taskRunner w') = description t
        /\ taskStartTime (taskRunner w') = timeAfter 0 w
        /\ (forall via,
              delivery (host w) = Delivered via ->
              prompts (host w') = prompts (host w) ++ [promptFor X (description t) w])
        /\ (forall message,
              delivery (host w) = Rejected message ->
              prompts (host w') = prompts (host w))).
Proof.
  cbv zeta. open_fields w. split; [|split; [|split; [|split]]].
  - intros Hs. project. subst st. destruct u. reflexivity.
  - intros Hs. project. subst st. start_run. explore3 X.
    all: finish; solve [crack].
  - intros Hs E. unfold ledgerTasks in E. project. subst st.
    start_run. explore3 X. finish. crack.
  - intros t Hs E Hl. unfold ledgerTasks, limitReached in *. project. subst st.
    destruct Hl as [Hpos Hmax].
    apply Z.ltb_lt in Hpos. apply Z.leb_le in Hmax.
    start_run. explore3 X. all: finish; solve [crack].
  - intros t Hs E Hl. unfold ledgerTasks, limitReached in *. project. subst st.
    start_run. explore3 X. all: finish; solve [crack].
Qed.

(** X16.  The operator's answer to the inactivity warning.  "Continue Waiting"
    and a dismissed warning re-arm the monitor and change nothing else but
    the log.  "Stop Loop" is [stopLoop].  "Skip Task" disables the ledger
    watcher, clears the current task and starts the countdown; it records
    no completion and writes nothing to the progress log, and the ledger
    decides what is dispatched next: while the skipped task is still the
    first open task, the end of the countdown dispatches it again.
    "Retry Task" dispatches the first open task of the ledger at once, as
    a further iteration. *)
Theorem inactivity_answers (w : World) :
  let warned :=
    withLogs [([9888%N; 65039%N]
                 ++ lit " No file activity detected for 60 seconds...", false)] in
  (after (handleInactivity X None) w = after Monitor.start (warned w))
  /\ (after (handleInactivity X (Some ContinueWaiting)) w
      = after Monitor.start
          (withLogs [(lit "Continuing to wait...", false)] (warned w)))
  /\ (after (handleInactivity X (Some StopLoop)) w = after stopLoop (warned w))
  /\ (let w' := after (handleInactivity X (Some SkipTask)) w in
      currentTaskDescription (taskRunner w') = []
      /\ enabled (prdWatcher (fileWatchers w')) = false
      /\ remaining (countdownTimer w') = Some (REVIEW_COUNTDOWN_SECONDS X)
      /\ taskHistory (taskRunner w') = taskHistory (taskRunner w)
      /\ iterationCount (taskRunner w') = iterationCount (taskRunner w)
      /\ prompts (host w') = prompts (host w)
      /\ progressFile (host w') = progressFile (host w)
      /\ state w' = state w /\ isPaused w' = isPaused w)
  /\ (forall t,
        state w = RUNNING -> isPaused w = false ->
        find isOpen (ledgerTasks (host w)) = Some t -> ~ limitReached w ->
        let skipped := after (handleInactivity X (Some SkipTask)) w in
        let next := after (countdownElapsed X) skipped in
        let retried := after (handleInactivity X (Some RetryTask)) w in
        currentTaskDescription (taskRunner next) = description t
        /\ iterationCount (taskRunner next) = iterationCount (taskRunner w) + 1
        /\ currentTaskDescription (taskRunner retried) = description t
        /\ iterationCount (taskRunner retried) = iterationCount (taskRunner w) + 1
        /\ enabled (prdWatcher (fileWatchers retried)) = true
        /\ taskHistory (taskRunner retried) = taskHistory (taskRunner w)).
Proof.
  cbv zeta. open_fields w. destruct u as [lg sh sst sstat scd stm sit stk].
  split; [reflexivity|]. split; [reflexivity|]. split; [reflexivity|].
  split.
  - start_run. explore3 X. all: finish; solve [crack].
  - intros t Hs Hp E Hl. unfold ledgerTasks, limitReached in *. project.
    subst st pa.
    assert (Hlim : (0 <? mx) && (mx <=? cnt) = false).
    { apply andb_false_iff.
      destruct (Z.ltb_spec 0 mx); [|now left].
      destruct (Z.leb_spec mx cnt); [|now right]. elim Hl. lia. }
    assert (Hnext :
      let next := after (countdownElapsed X)
                    (after (handleInactivity X (Some SkipTask))
                       (mkWorld RUNNING false ss
                          (mkUi lg sh sst sstat scd stm sit stk)
                          (mkRunner reqs (mkSettings mx) hist start cur cnt cb)
                          (mkWatchers (mkPrdWatcher sub en lastc) aw cw)
                          (mkCountdown rem) (mkMonitor ms mw mt)
                          (mkHost folders cfg prd prog clk reads fresh dlv sent
                             errs ntc))) in
      currentTaskDescription (taskRunner next) = description t
      /\ iterationCount (taskRunner next) = cnt + 1).
    { cbv zeta.
      remember (after (countdownElapsed X)) as then_ eqn:Hthen.
      start_run. explore3 X.
      all: intros ->; subst then_; start_run; explore3 X.
      all: try (exfalso; rewrite ?Epos, ?Emax in Hlim; cbn in Hlim;
                discriminate Hlim).
      all: finish; solve [crack]. }
    destruct Hnext as [Hn1 Hn2].
    split; [exact Hn1|]. split; [exact Hn2|]. clear Hn1 Hn2.
    start_run. explore3 X.
    all: try (exfalso; rewrite ?Epos, ?Emax in Hlim; cbn in Hlim;
              discriminate Hlim).
    all: finish; solve [crack].
Qed.

(** X17.  One turn of a running loop.  When the ledger changes while a task is
    in flight and the first open task is still that task, nothing is
    recorded and the loop goes on waiting.  When the first open task is
    another one, the completion of the task in flight is recorded and, at
    the end of the countdown, that other task is dispatched as the next
    iteration, unless the iteration limit is reached, in which case the
    loop stops.  When no open task is left the completion is recorded and
    the end of the countdown stops the loop with a notice. *)
Theorem completion_cycle (w : World) (content : jsstring) :
  state w = RUNNING -> isPaused w = false ->
  subscribed (prdWatcher (fileWatchers w)) = true ->
  enabled (prdWatcher (fileWatchers w)) = true ->
  let current := currentTaskDescription (taskRunner w) in
  let count := iterationCount (taskRunner w) in
  let detected := after (prdWatcherFires X content) w in
  let next := after (countdownElapsed X) detected in
  (forall t,
     find isOpen (ledgerTasks (host w)) = Some t -> description t = current ->
     taskRunner detected = taskRunner w
     /\ state detected = RUNNING
     /\ enabled (prdWatcher (fileWatchers detected)) = true
     /\ countdownTimer detected = countdownTimer w
     /\ progressFile (host detected) = progressFile (host w))
  /\ (forall t,
        find isOpen (ledgerTasks (host w)) = Some t -> description t <> current ->
        ~ limitReached w ->
        (exists done,
           taskHistory (taskRunner next) = taskHistory (taskRunner w) ++ [done]
           /\ taskDescription done = current /\ iteration done = count)
        /\ currentTaskDescription (taskRunner next) = description t
        /\ iterationCount (taskRunner next) = count + 1
        /\ state next = RUNNING /\ isPaused next = false
        /\ enabled (prdWatcher (fileWatchers next)) = true
        /\ (forall via,
              delivery (host w) = Delivered via ->
              prompts (host next)
              = prompts (host w)
                ++ [agentPromptText X (description t) (requirements (taskRunner w))
                      (orEmpty (ledgerContent (host w)))
                      (orEmpty (progressContent (host next)))
                      (workspaceRootOf (host w))]))
  /\ (forall t,
        find isOpen (ledgerTasks (host w)) = Some t -> description t <> current ->
        limitReached w ->
        (exists done,
           taskHistory (taskRunner next) = taskHistory (taskRunner w) ++ [done])
        /\ state next = IDLE
        /\ subscribed (prdWatcher (fileWatchers next)) = false
        /\ iterationCount (taskRunner next) = count
        /\ prompts (host next) = prompts (host w)
        /\ notices (host next) = notices (host w))
  /\ (find isOpen (ledgerTasks (host w)) = None ->
      (exists done,
         taskHistory (taskRunner next) = taskHistory (taskRunner w) ++ [done]
         /\ taskDescription done = current /\ iteration done = count)
      /\ state next = IDLE
      /\ subscribed (prdWatcher (fileWatchers next)) = false
      /\ iterationCount (taskRunner next) = count
      /\ prompts (host next) = prompts (host w)
      /\ notices (host next)
         = notices (host w)
           ++ [lit "Ralph: All " ++ prdPath (config (host w))
                 ++ lit " tasks completed! " ++ [55356%N; 57225%N]]).
Proof.
  cbv zeta. open_fields w. destruct u. project. intros -> -> -> ->.
  unfold ledgerTasks, limitReached. project.
  split; [|split; [|split]].
  - intros t E Hd. apply eqb_spec in Hd.
    start_run. explore3 X. finish. crack.
  - intros t E Hd Hl. apply eqb_neq in Hd.
    assert (Hlim : (0 <? mx) && (mx <=? cnt) = false).
    { apply andb_false_iff.
      destruct (Z.ltb_spec 0 mx); [|now left].
      destruct (Z.leb_spec mx cnt); [|now right]. elim Hl. lia. }
    remember (after (countdownElapsed X)) as then_ eqn:Hthen.
    start_run. explore3 X.
    all: intros ->; subst then_; start_run; explore3 X.
    all: try (exfalso; rewrite ?Epos, ?Emax in Hlim; cbn in Hlim;
              discriminate Hlim).
    all: finish.
    all: try (unfold tasksOf, contentOf in *; discriminate).
    all: solve [crack].
  - intros t E Hd [Hpos Hmax]. apply eqb_neq in Hd.
    apply Z.ltb_lt in Hpos. apply Z.leb_le in Hmax.
    remember (after (countdownElapsed X)) as then_ eqn:Hthen.
    start_run. explore3 X.
    all: intros ->; subst then_; start_run; explore3 X.
    all: finish; solve [crack].
  - intros E.
    remember (after (countdownElapsed X)) as then_ eqn:Hthen.
    start_run. explore3 X.
    all: intros ->; subst then_; start_run; explore3 X.
    all: finish; solve [crack].
Qed.

End Scenarios.

Section Pausing.

Variable X : Externals.

Local Open Scope Z_scope.

(** X25.  [pauseLoop] changes nothing unless the loop is running.  On a
    running loop it sets the paused flag, disables the ledger watcher
    without unsubscribing it, and stops the countdown and the timer of the
    inactivity monitor; it leaves the runner and the host alone.
    [resumeLoop] after it does not go back to waiting: on a loop below
    the limit whose ledger has an open task it dispatches the first open
    task as a further iteration, with the ledger watcher enabled again,
    and on a ledger without open task it stops the loop with a notice. *)
Theorem pause_and_resume (w : World) :
  let paused := after pauseLoop w in
  let resumed := after (resumeLoop X) paused in
  (state w = IDLE -> paused = w)
  /\ (state w = RUNNING ->
      state paused = RUNNING /\ isPaused paused = true
      /\ enabled (prdWatcher (fileWatchers paused)) = false
      /\ subscribed (prdWatcher (fileWatchers paused))
         = subscribed (prdWatcher (fileWatchers w))
      /\ remaining (countdownTimer paused) = None
      /\ timeoutIn (inactivityMonitor paused) = None
      /\ taskRunner paused = taskRunner w
      /\ host paused = host w)
  /\ (forall t,
        state w = RUNNING ->
        find isOpen (ledgerTasks (host w)) = Some t -> ~ limitReached w ->
        state resumed = RUNNING /\ isPaused resumed = false
        /\ currentTaskDescription (taskRunner resumed) = description t
        /\ iterationCount (taskRunner resumed) = iterationCount (taskRunner w) + 1
        /\ enabled (prdWatcher (fileWatchers resumed)) = true
        /\ taskHistory (taskRunner resumed) = taskHistory (taskRunner w)
        /\ (forall via,
              delivery (host w) = Delivered via ->
              prompts (host resumed)
              = prompts (host w) ++ [promptFor X (description t) w]))
  /\ (state w = RUNNING -> find isOpen (ledgerTasks (host w)) = None ->
      state resumed = IDLE /\ isPaused resumed = false
      /\ subscribed (prdWatcher (fileWatchers resumed)) = false
      /\ taskRunner resumed = taskRunner w
      /\ prompts (host resumed) = prompts (host w)
      /\ notices (host resumed)
         = notices (host w)
           ++ [lit "Ralph: All " ++ prdPath (config (host w))
                 ++ lit " tasks completed! " ++ [55356%N; 57225%N]]).
Proof.
  cbv zeta. open_fields w. destruct u as [lg sh sst sstat scd stm sit stk].
  project. split; [|split; [|split]].
  - intros ->. reflexivity.
  - intros ->. evaluate. repeat split.
  - intros t -> E Hl. unfold ledgerTasks, limitReached in *. project.
    assert (Hlim : (0 <? mx) && (mx <=? cnt) = false).
    { apply andb_false_iff.
      destruct (Z.ltb_spec 0 mx); [|now left].
      destruct (Z.leb_spec mx cnt); [|now right]. elim Hl. lia. }
    remember (after (resumeLoop X)) as then_ eqn:Hthen.
    start_run. explore3 X.
    all: intros ->; subst then_; start_run; explore3 X.
    all: try (exfalso; rewrite ?Epos, ?Emax in Hlim; cbn in Hlim;
              discriminate Hlim).
    all: finish; solve [crack].
  - intros -> E. unfold ledgerTasks in *. project.
    remember (after (resumeLoop X)) as then_ eqn:Hthen.
    start_run. explore3 X.
    all: intros ->; subst then_; start_run; explore3 X.
    all: finish; solve [crack].
Qed.

End Pausing.

(** ** Runs on the concrete host *)

Local Open Scope Z_scope.

Lemma completion_inference_witness :
  let w := ledgerBecomes firstDone inFlight in
  let w' := after (handlePrdChange sampleExternals firstDone) w in
  enabled (prdWatcher (fileWatchers w')) = false
  /\ remaining (countdownTimer w') = Some 12%N
  /\ List.length (taskHistory (taskRunner w')) = 1%nat.
Proof.
  intros w w'.
  destruct (completion_inference sampleExternals w firstDone) as [Hd _].
  destruct Hd as (He & _ & _ & Hc & c & Hh & _).
  - right. eexists. split; [reflexivity | discriminate].
  - split; [exact He|]. split; [exact Hc|].
    fold w' in Hh. rewrite Hh. reflexivity.
Defined.

Lemma iteration_limit_witness :
  let w := after (setSettings (mkSettings 3))
             (newLoopOrchestrator sampleExternals (sampleHost twoTasks)) in
  result checkIterationLimit (dispatches 1 w) = false
  /\ result checkIterationLimit (dispatches 2 w) = false
  /\ result checkIterationLimit (dispatches 3 w) = true.
Proof.
  intros w.
  destruct (iteration_limit w) as (_ & _ & H & _).
  assert (Hlim : 0 < maxIterations (settings (taskRunner w))) by reflexivity.
  assert (Hzero : iterationCount (taskRunner w) = 0) by reflexivity.
  specialize (H Hlim Hzero).
  split; [|split].
  - destruct (result checkIterationLimit (dispatches 1 w)) eqn:E; [|reflexivity].
    apply H in E. vm_compute in E. now elim E.
  - destruct (result checkIterationLimit (dispatches 2 w)) eqn:E; [|reflexivity].
    apply H in E. vm_compute in E. now elim E.
  - apply H. vm_compute. discriminate.
Defined.


Lemma stale_callback_counterexample :
  let stopped := after stopLoop (ledgerBecomes firstDone inFlight) in
  let w' := after (handlePrdChange sampleExternals firstDone) stopped in
  state stopped = IDLE
  /\ w' <> stopped
  /\ taskHistory (taskRunner stopped) = []
  /\ List.length (taskHistory (taskRunner w')) = 1%nat
  /\ progressFile (host w') <> progressFile (host stopped)
  /\ remaining (countdownTimer stopped) = None
  /\ remaining (countdownTimer w') = Some 12%N
  /\ (List.length (logs (ui stopped)) < List.length (logs (ui w')))%nat.
Proof.
  intros stopped w'.
  split; [reflexivity|].
  split; [intros H; apply (f_equal (fun v => taskHistory (taskRunner v))) in H;
          vm_compute in H; discriminate|].
  split; [reflexivity|]. split; [reflexivity|].
  split; [intros H; vm_compute in H; injection H as H;
          apply (f_equal (@List.length _)) in H; discriminate|].
  split; [reflexivity|]. split; [reflexivity|].
  vm_compute. lia.
Qed.

Lemma stale_callback_witness :
  let stopped := after stopLoop (ledgerBecomes firstDone inFlight) in
  let w' := after (handlePrdChange sampleExternals firstDone) stopped in
  state w' = IDLE /\ iterationCount (taskRunner w') = 1.
Proof.
  intros stopped w'.
  destruct (proj1 (proj2 (stale_callback sampleExternals stopped firstDone)))
    as (Hs & _ & Hc & _).
  - reflexivity.
  - split; [exact Hs|]. fold w' in Hc. rewrite Hc. reflexivity.
Defined.

Lemma resume_counter_counterexample :
  let paused := after pauseLoop inFlight in
  isPaused paused = true
  /\ iterationCount (taskRunner paused) = 1
  /\ iterationCount (taskRunner (after (resumeLoop sampleExternals) paused)) = 2.
Proof. repeat split. Qed.

Lemma iteration_counter_witness :
  let fresh := newLoopOrchestrator sampleExternals (sampleHost twoTasks) in
  iterationCount (taskRunner (after (startLoop sampleExternals) fresh)) = 1
  /\ iterationCount (taskRunner (after (startLoop sampleExternals) inFlight)) = 1
  /\ after (resumeLoop sampleExternals) inFlight = inFlight.
Proof.
  intros fresh.
  destruct (iteration_counter sampleExternals fresh)
    as (_ & _ & _ & _ & Hstart & _).
  destruct (iteration_counter sampleExternals inFlight)
    as (_ & _ & _ & Hrefuse & _ & _ & Hresume & _).
  split; [apply Hstart; [reflexivity | discriminate]|].
  split; [rewrite Hrefuse; [reflexivity | left; reflexivity]|].
  apply Hresume. reflexivity.
Defined.

Lemma fresh_duration_counterexample :
  let fresh := newLoopOrchestrator sampleExternals (sampleHost twoTasks) in
  let c := result (recordTaskCompletion sampleExternals) fresh in
  taskStartTime (taskRunner fresh) = 0
  /\ duration c = 1762000000000
  /\ ~ nearZeroOrNegative (duration c).
Proof.
  intros fresh c. split; [reflexivity|]. split; [reflexivity|].
  unfold nearZeroOrNegative. vm_compute. discriminate.
Qed.

(** ** Further runs on the concrete host *)

Lemma reachable_inFlight : reachable sampleExternals inFlight.
Proof.
  unfold inFlight.
  exact (reach_call sampleExternals
           (newLoopOrchestrator sampleExternals (sampleHost twoTasks)) CmdStart
           (reach_new sampleExternals (sampleHost twoTasks))).
Qed.

Lemma reachable_pausedInFlight : reachable sampleExternals pausedInFlight.
Proof.
  unfold pausedInFlight.
  exact (reach_call sampleExternals inFlight CmdPause reachable_inFlight).
Qed.

Lemma trigger_copilot_witness :
  result (triggerCopilotAgent sampleExternals (lit "a")) notStarted = Some Agent
  /\ prompts (host (after (triggerCopilotAgent sampleExternals (lit "a")) notStarted))
     = [lit "a"].
Proof.
  destruct (trigger_copilot sampleExternals (lit "a") notStarted) as (H & _).
  destruct (H Agent eq_refl) as [H1 H2]. split; [exact H1|].
  rewrite H2. reflexivity.
Defined.

Lemma start_loop_witness :
  let w' := after (startLoop sampleExternals) notStarted in
  state w' = RUNNING
  /\ currentTaskDescription (taskRunner w') = lit "a"
  /\ sessionStartTime w' = 1762000000000
  /\ progressFile (host w') = Contents progressHeader.
Proof.
  intros w'.
  destruct (start_loop sampleExternals notStarted) as (_ & _ & H).
  destruct (H {| id := lit "task-1";
                 description := lit "a";
                 status := PENDING;
                 lineNumber := 1;
                 rawLine := lit "- [ ] a" |} eq_refl eq_refl)
    as (H1 & _ & _ & _ & H2 & H3 & _ & _ & _ & H4 & _).
  split; [exact H1|]. split; [exact H2|]. split; [exact H3|].
  apply H4. reflexivity.
Defined.

Lemma single_step_witness :
  let w' := after (runSingleStep sampleExternals) notStarted in
  state w' = IDLE
  /\ fileWatchers w' = fileWatchers notStarted
  /\ iterationCount (taskRunner w') = 1
  /\ prompts (host w') = [lit "a"].
Proof.
  intros w'. subst w'.
  destruct (single_step sampleExternals notStarted) as (_ & Hi & _ & _ & Hd).
  destruct (Hi eq_refl) as (H1 & _ & H2 & _).
  destruct (Hd {| id := lit "task-1";
                  description := lit "a";
                  status := PENDING;
                  lineNumber := 1;
                  rawLine := lit "- [ ] a" |} eq_refl eq_refl)
    as (H3 & _ & _ & H4 & _).
  - unfold limitReached. vm_compute. intros [_ H]. now apply H.
  - split; [exact H1|]. split; [exact H2|]. split; [exact H3|].
    rewrite (H4 Agent eq_refl). reflexivity.
Defined.

Lemma inactivity_answers_witness :
  let skipped := after (handleInactivity sampleExternals (Some SkipTask)) inFlight in
  let next := after (countdownElapsed sampleExternals) skipped in
  currentTaskDescription (taskRunner next) = lit "a"
  /\ iterationCount (taskRunner next) = 2.
Proof.
  intros skipped next.
  destruct (inactivity_answers sampleExternals inFlight) as (_ & _ & _ & _ & H).
  destruct (H {| id := lit "task-1";
                 description := lit "a";
                 status := PENDING;
                 lineNumber := 1;
                 rawLine := lit "- [ ] a" |} eq_refl eq_refl eq_refl)
    as (H1 & H2 & _).
  - unfold limitReached. vm_compute. intros [_ Hle]. now apply Hle.
  - split; [exact H1 | exact H2].
Defined.

Lemma completion_cycle_witness :
  let w := ledgerBecomes firstDone inFlight in
  let detected := after (prdWatcherFires sampleExternals firstDone) w in
  let next := after (countdownElapsed sampleExternals) detected in
  currentTaskDescription (taskRunner next) = lit "b"
  /\ iterationCount (taskRunner next) = 2
  /\ List.length (taskHistory (taskRunner next)) = 1%nat.
Proof.
  intros w detected next.
  destruct (completion_cycle sampleExternals w firstDone eq_refl eq_refl eq_refl eq_refl)
    as (_ & H & _).
  destruct (H {| id := lit "task-2";
                 description := lit "b";
                 status := PENDING;
                 lineNumber := 2;
                 rawLine := lit "- [ ] b" |} eq_refl)
    as ((done & Hh & _) & H1 & H2 & _).
  - discriminate.
  - unfold limitReached. vm_compute. intros [_ Hle]. now apply Hle.
  - split; [exact H1|]. split; [exact H2|].
    fold w detected next in Hh. rewrite Hh. reflexivity.
Defined.

Lemma reachable_worlds_coherent_witness :
  subscribed (prdWatcher (fileWatchers inFlight)) = true
  /\ enabled (prdWatcher (fileWatchers pausedInFlight)) = false
  /\ after (prdWatcherFires sampleExternals firstDone) pausedInFlight = pausedInFlight.
Proof.
  destruct (reachable_worlds_coherent sampleExternals inFlight reachable_inFlight)
    as (_ & H1 & _).
  destruct (reachable_worlds_coherent sampleExternals pausedInFlight
              reachable_pausedInFlight)
    as (_ & _ & _ & H2 & _ & _ & H3).
  split; [exact H1|]. split; [apply H2; reflexivity|].
  apply H3. right. reflexivity.
Defined.

Lemma quiet_while_idle_or_paused_witness :
  let w' := after (perform sampleExternals EvCountdownElapsed) pausedInFlight in
  prompts (host w') = prompts (host pausedInFlight)
  /\ iterationCount (taskRunner w') = 1.
Proof.
  intros w'. subst w'.
  destruct (quiet_while_idle_or_paused sampleExternals EvCountdownElapsed
              pausedInFlight reachable_pausedInFlight)
    as (H1 & H2 & _).
  - right. reflexivity.
  - reflexivity.
  - split; [exact H1|]. rewrite H2. reflexivity.
Defined.

Lemma iteration_limit_respected_witness :
  iterationCount (taskRunner (after (resumeLoop sampleExternals) pausedInFlight)) <= 50.
Proof.
  apply (iteration_limit_respected sampleExternals CmdResume pausedInFlight).
  - discriminate.
  - reflexivity.
  - vm_compute. discriminate.
Defined.

Lemma progress_log_append_only_witness :
  exists more,
    progressFile
      (host (after (prdWatcherFires sampleExternals firstDone)
               (ledgerBecomes firstDone inFlight)))
    = Contents (progressHeader ++ more).
Proof.
  apply (progress_log_append_only sampleExternals (EvLedgerChanged firstDone)
           (ledgerBecomes firstDone inFlight)).
  reflexivity.
Defined.

Lemma pause_and_resume_witness :
  let resumed := after (resumeLoop sampleExternals) (after pauseLoop inFlight) in
  currentTaskDescription (taskRunner resumed) = lit "a"
  /\ iterationCount (taskRunner resumed) = 2
  /\ enabled (prdWatcher (fileWatchers resumed)) = true.
Proof.
  intros resumed. subst resumed.
  destruct (pause_and_resume sampleExternals inFlight) as (_ & _ & H & _).
  destruct (H {| id := lit "task-1";
                 description := lit "a";
                 status := PENDING;
                 lineNumber := 1;
                 rawLine := lit "- [ ] a" |} eq_refl eq_refl)
    as (_ & _ & H1 & H2 & H3 & _).
  - unfold limitReached. vm_compute. intros [_ Hle]. now apply Hle.
  - split; [exact H1|]. split; [exact H2 | exact H3].
Defined.
